(** * flow_zone_counter: the React front end, embedded and verified

  The development follows the JavaScript sources of the front end:

  - [services/api.js]          : [getImageURL];
  - [pages/Dashboard.jsx]      : [prepareChartData], [processAllImages],
                                 [processImageForDetection],
                                 [loadDashboardData], the progress bar;
  - [pages/ZoneDrawer.jsx]     : [handleCanvasClick], [getCanvasPoints],
                                 [handleSaveZone], [loadExistingZone],
                                 [handleClearZone], [handleDeleteZone], the
                                 sizing of the canvas, the threshold field;
  - [pages/CameraManager.jsx]  : the camera page's [onDrop] and
                                 [loadCameraStats]; the annotation tool's
                                 mouse handlers, [getCanvasBboxes],
                                 [toggleBboxApproval], [deleteBbox],
                                 [approveAnnotation] and its navigation
                                 buttons.

  JavaScript numbers are modelled exactly: counts are integers ([Z]),
  coordinates and quotients are rationals ([Q]).  Floating-point rounding
  is outside the model: where a statement equates coordinates that the
  browser computes in doubles, it says so and holds of exact arithmetic;
  the other statements (counts, orders, lengths, comparisons of integers,
  what is requested and what is set) do not depend on rounding. *)

From Stdlib Require Import List ZArith QArith Qround Qabs Qminmax.
From Stdlib Require Import String Ascii Arith Lia Bool DecimalString Decimal.
From Stdlib Require DecimalNat DecimalFacts.
Import ListNotations.

Local Open Scope Z_scope.

(* ===================================================================== *)
(** * JavaScript primitives used by the sources                          *)
(* ===================================================================== *)

Module JS.

(** [Math.round]: the closest integer, ties towards +infinity. *)
Definition Math_round (x : Q) : Z := Qfloor (x + (1 # 2)).

(** [Math.ceil]. *)
Definition Math_ceil (x : Q) : Z := Qceiling x.

(** A JS integer used as a rational. *)
Definition num (z : Z) : Q := inject_Z z.

(** [arr.length] as a JS number. *)
Definition len {A} (l : list A) : Z := Z.of_nat (List.length l).

(** [arr.slice(i, j)] for [0 <= i <= j]. *)
Definition slice {A} (l : list A) (i j : nat) : list A :=
  firstn (j - i) (skipn i l).

(** What running a piece of code can give: a value, an uncaught
    exception, or (for loops run on fuel) no answer within the fuel. *)
Inductive outcome (A : Type) : Type :=
| Returned (a : A)
| Threw
| OutOfFuel.
Arguments Returned {A} a.
Arguments Threw {A}.
Arguments OutOfFuel {A}.

(** [a > b] on finite numbers. *)
Definition gt (a b : Q) : bool := negb (Qle_bool a b).

(** A JS number where a field may hold any: a finite value (exact), an
    infinity, or NaN.  Signed zeros are not distinguished. *)
Inductive number : Type :=
| NaN
| Num (q : Q)
| Infinity (negative : bool).

(** [a / b] on numbers. *)
Definition number_div (a b : number) : number :=
  match a, b with
  | NaN, _ | _, NaN => NaN
  | Infinity _, Infinity _ => NaN
  | Infinity s, Num q => Infinity (xorb s (if Qlt_le_dec q 0 then true else false))
  | Num _, Infinity _ => Num 0
  | Num p, Num q =>
      if Qeq_bool q 0 then
        (if Qeq_bool p 0 then NaN
         else Infinity (if Qlt_le_dec p 0 then true else false))
      else Num (p / q)
  end.

(** [String(i)] for a non-negative integer. *)
Definition String_of_nat (i : nat) : string :=
  NilZero.string_of_uint (Nat.to_uint i).

Fixpoint repeat_char (c : ascii) (n : nat) : string :=
  match n with
  | O => EmptyString
  | S n' => String c (repeat_char c n')
  end.

(** [s.padStart(targetLength, c)] for a one-character pad string. *)
Definition padStart (s : string) (targetLength : nat) (c : ascii) : string :=
  (repeat_char c (targetLength - String.length s) ++ s)%string.

(** [s.startsWith(searchString)] *)
Definition startsWith (s searchString : string) : bool :=
  String.prefix searchString s.

(** ** parseFloat *)

Definition digit_of (c : ascii) : option Z :=
  let n := nat_of_ascii c in
  if ((48 <=? n) && (n <=? 57))%nat then Some (Z.of_nat (n - 48)) else None.

(** Longest run of decimal digits at the head of [s]: its value, how many
    digits it has, and what follows. *)
Fixpoint read_digits (s : string) (acc : Z) (count : nat) : Z * nat * string :=
  match s with
  | EmptyString => (acc, count, s)
  | String c s' =>
      match digit_of c with
      | Some d => read_digits s' (10 * acc + d) (S count)
      | None => (acc, count, s)
      end
  end.

Definition is_white (c : ascii) : bool :=
  let n := nat_of_ascii c in
  ((n =? 32) || ((9 <=? n) && (n <=? 13)))%nat.

Fixpoint trim_start (s : string) : string :=
  match s with
  | String c s' => if is_white c then trim_start s' else s
  | EmptyString => s
  end.

Definition read_sign (s : string) : bool * string :=
  match s with
  | String "-" s' => (true, s')
  | String "+" s' => (false, s')
  | _ => (false, s)
  end.

(** The exponent part [e[+-]digits], if one is present at the head. *)
Definition read_exponent (s : string) : Z :=
  match s with
  | String c s' =>
      if (Ascii.eqb c "e" || Ascii.eqb c "E")%bool then
        let '(neg, s'') := read_sign s' in
        let '(e, n, _) := read_digits s'' 0 0 in
        if (n =? 0)%nat then 0 else if neg then - e else e
      else 0
  | EmptyString => 0
  end.

(** [parseFloat(s)]: leading white space is skipped, then the longest prefix
    that reads as a decimal literal is taken; NaN when there is none. *)
Definition parseFloat (s : string) : number :=
  let '(neg, s1) := read_sign (trim_start s) in
  if startsWith s1 "Infinity" then Infinity neg else
  let '(ip, ni, s2) := read_digits s1 0 0 in
  let '(fp, nf, s3) :=
    match s2 with
    | String "." s2' => read_digits s2' 0 0
    | _ => (0, O, s2)
    end in
  if ((ni + nf) =? 0)%nat then NaN
  else
    let mantissa := (inject_Z ip + inject_Z fp / inject_Z (10 ^ Z.of_nat nf))%Q in
    let scaled := (mantissa * Qpower 10 (read_exponent s3))%Q in
    Num (if neg then - scaled else scaled)%Q.

(** An error object: only its [message] is read. *)
Record error : Type := mkError { message : string }.

(** Dereferencing [null] or [undefined]. *)
Definition TypeError : error := {| message := "TypeError" |}.

End JS.
Import JS.

(* ===================================================================== *)
(** * Dashboard.jsx: the chart series                                     *)
(* ===================================================================== *)

Module Chart.
Section WithClock.

(** Timestamps as delivered by the API, and date-fns'
    [format(new Date(t), 'HH:mm')], which depends on the browser's time
    zone and is therefore kept abstract. *)
Variable timestamp_t : Type.
Variable format_HHmm : timestamp_t -> string.

(** One element of [stats.time_series]. *)
Record TimeSeriesPoint : Type := mkPoint {
  timestamp : timestamp_t;
  total_people : Z;
  people_in_zone : Z
}.

(** One element of the array handed to the line chart: the object
    [{ time, 'Total People', 'In Zone' }]. *)
Record ChartPoint : Type := mkChart {
  time : string;
  Total_People : Z;
  In_Zone : Z
}.

(** The [stats] state: [null] until loaded; [time_series] may be absent. *)
Record Stats : Type := mkStats {
  time_series : option (list TimeSeriesPoint)
}.

Definition maxPoints : Z := 50.

(** [chunk.reduce((sum, item) => sum + f(item), 0)] *)
Definition reduce_sum (f : TimeSeriesPoint -> Z) (chunk : list TimeSeriesPoint) : Z :=
  fold_left (fun sum item => sum + f item) chunk 0.

(** [Math.round(chunk.reduce(...) / chunk.length)] *)
Definition avg (f : TimeSeriesPoint -> Z) (chunk : list TimeSeriesPoint) : Z :=
  Math_round (num (reduce_sum f chunk) / num (len chunk)).

(** The body of the aggregation loop for one chunk.  [chunk[0].timestamp]
    throws a TypeError on an empty chunk. *)
Definition aggregate_chunk (chunk : list TimeSeriesPoint) : option ChartPoint :=
  match chunk with
  | [] => None
  | first :: _ =>
      Some {| time := format_HHmm (timestamp first);
              Total_People := avg total_people chunk;
              In_Zone := avg people_in_zone chunk |}
  end.

(** [for (let i = ...; i < timeSeries.length; i += chunkSize) { ... }]
    started at index [i] with [aggregatedData] already holding the points
    pushed so far. *)
Fixpoint aggregate_loop (fuel : nat) (timeSeries : list TimeSeriesPoint)
    (chunkSize i : nat) (aggregatedData : list ChartPoint)
  : outcome (list ChartPoint) :=
  if (i <? List.length timeSeries)%nat then
    match fuel with
    | O => OutOfFuel
    | S fuel' =>
        match aggregate_chunk (slice timeSeries i (i + chunkSize)) with
        | None => Threw
        | Some p =>
            aggregate_loop fuel' timeSeries chunkSize (i + chunkSize)
                           (aggregatedData ++ [p])
        end
    end
  else Returned aggregatedData.

(** The branch taken when the series fits: one chart point per item. *)
Definition show_all (timeSeries : list TimeSeriesPoint) : list ChartPoint :=
  map (fun item => {| time := format_HHmm (timestamp item);
                      Total_People := total_people item;
                      In_Zone := people_in_zone item |}) timeSeries.

Definition chunkSize_of (timeSeries : list TimeSeriesPoint) : nat :=
  Z.to_nat (Math_ceil (num (len timeSeries) / num maxPoints)).

(** [prepareChartData], reading the [stats] state. *)
Definition prepareChartData (stats : option Stats) : outcome (list ChartPoint) :=
  match stats with
  | None => Returned []
  | Some st =>
      match time_series st with
      | None => Returned []
      | Some timeSeries =>
          if len timeSeries =? 0 then Returned []
          else if len timeSeries <=? maxPoints then Returned (show_all timeSeries)
          else
            aggregate_loop (List.length timeSeries) timeSeries
                           (chunkSize_of timeSeries) 0 []
      end
  end.

(** ** Two runs

    What a run reads: the series held by [stats] (none when [stats] is
    [null] or has no [time_series]).  What the chart draws of a point
    besides its label: the two counts. *)
Definition series_of (stats : option Stats) : list TimeSeriesPoint :=
  match stats with
  | Some st => match time_series st with Some timeSeries => timeSeries | None => [] end
  | None => []
  end.

Definition counts (p : ChartPoint) : Z * Z := (Total_People p, In_Zone p).

(** ** The specification's words

    Cutting a list into consecutive chunks of [c] elements; the last
    chunk holds what is left. *)
Fixpoint chunks_upto (fuel c : nat) (l : list TimeSeriesPoint)
  : list (list TimeSeriesPoint) :=
  match fuel, l with
  | _, [] => []
  | O, _ => []
  | S fuel', _ => firstn c l :: chunks_upto fuel' c (skipn c l)
  end.

Definition chunks_of (c : nat) (l : list TimeSeriesPoint) : list (list TimeSeriesPoint) :=
  chunks_upto (List.length l) c l.

(** [r] is the mean of [f] over [chunk] rounded to the nearest integer
    (a tie goes up): [mean - 1/2 < r <= mean + 1/2], written without
    division. *)
Definition nearest_to_mean (f : TimeSeriesPoint -> Z) (chunk : list TimeSeriesPoint)
    (r : Z) : Prop :=
  let s := fold_right Z.add 0 (map f chunk) in
  let n := len chunk in
  2 * n * r <= 2 * s + n < 2 * n * (r + 1).

(** The chart point [p] stands for [chunk]: it carries the chunk's first
    timestamp (as formatted for the axis) and the two rounded means. *)
Definition summarises (chunk : list TimeSeriesPoint) (p : ChartPoint) : Prop :=
  hd_error (map (fun item => format_HHmm (timestamp item)) chunk) = Some (time p)
  /\ nearest_to_mean total_people chunk (Total_People p)
  /\ nearest_to_mean people_in_zone chunk (In_Zone p).

(** [ceil(N/50)] on naturals. *)
Definition ceil_div50 (N : nat) : nat := ((N + 49) / 50)%nat.

(** The compression as the specification words it: the series is cut into
    chunks that ALL have [ceil(N/50)] points, one chart point per chunk. *)
Definition compressed_in_equal_chunks
    (timeSeries : list TimeSeriesPoint) (out : list ChartPoint) : Prop :=
  exists chunks : list (list TimeSeriesPoint),
    List.concat chunks = timeSeries
    /\ Forall (fun chunk => List.length chunk = ceil_div50 (List.length timeSeries)) chunks
    /\ Forall2 summarises chunks out.

(** The compression as the loop performs it: every chunk but the last has
    [ceil(N/50)] points, the last one has the remaining ones (at least one,
    at most [ceil(N/50)]). *)
Definition compressed_in_chunks
    (timeSeries : list TimeSeriesPoint) (out : list ChartPoint) : Prop :=
  exists (chunks : list (list TimeSeriesPoint)) (last_chunk : list TimeSeriesPoint),
    List.concat (chunks ++ [last_chunk]) = timeSeries
    /\ Forall (fun chunk => List.length chunk = ceil_div50 (List.length timeSeries)) chunks
    /\ (1 <= List.length last_chunk <= ceil_div50 (List.length timeSeries))%nat
    /\ Forall2 summarises (chunks ++ [last_chunk]) out.

End WithClock.
End Chart.

Arguments Chart.mkPoint {timestamp_t} _ _ _.
Arguments Chart.timestamp {timestamp_t} _.
Arguments Chart.total_people {timestamp_t} _.
Arguments Chart.people_in_zone {timestamp_t} _.
Arguments Chart.mkStats {timestamp_t} _.
Arguments Chart.time_series {timestamp_t} _.
Arguments Chart.reduce_sum {timestamp_t} _ _.
Arguments Chart.avg {timestamp_t} _ _.
Arguments Chart.aggregate_chunk {timestamp_t} _ _.
Arguments Chart.aggregate_loop {timestamp_t} _ _ _ _ _ _.
Arguments Chart.show_all {timestamp_t} _ _.
Arguments Chart.chunkSize_of {timestamp_t} _.
Arguments Chart.prepareChartData {timestamp_t} _ _.
Arguments Chart.series_of {timestamp_t} _.
Arguments Chart.chunks_upto {timestamp_t} _ _ _.
Arguments Chart.chunks_of {timestamp_t} _ _.
Arguments Chart.nearest_to_mean {timestamp_t} _ _ _.
Arguments Chart.summarises {timestamp_t} _ _ _.
Arguments Chart.compressed_in_equal_chunks {timestamp_t} _ _ _.
Arguments Chart.compressed_in_chunks {timestamp_t} _ _ _.

(* ===================================================================== *)
(** * services/api.js                                                     *)
(* ===================================================================== *)

Module Api.

Local Open Scope string_scope.

(** ** Payloads *)

Record Camera : Type := mkCamera { id : Z; name : string }.

(** [cameraAPI.getStats]: only [labeled_count] is read. *)
Record CameraStats : Type := mkCameraStats { labeled_count : nat }.

(** [inferenceAPI.getUnlabeled]: [data.images] may be missing. *)
Record UnlabeledImage : Type := mkUnlabeled { filename : string }.
Record UnlabeledList : Type := mkUnlabeledList { images : option (list UnlabeledImage) }.

(** A zone: image-space vertices and the overlap threshold. *)
Record ZoneConfig : Type := mkZone {
  zone_points : list (Q * Q);
  zone_threshold : number
}.

(** The body posted by [zoneAPI.set]. *)
Record ZonePayload : Type := mkZonePayload {
  camera_id : Z;
  payload_points : list (Q * Q);
  payload_threshold : number
}.

(** The filters posted by [dashboardAPI.getLogs]. *)
Record LogFilters : Type := mkLogFilters {
  filter_camera_id : Z;
  start_date : option string;
  end_date : option string;
  limit : Z;
  offset : Z
}.

(** Dashboard statistics carry the time series (timestamps are ISO
    strings); rows of the detection log are not inspected by the code. *)
Definition DashboardStats : Type := Chart.Stats string.
Definition LogRow : Type := string.

(** ** Endpoints called by the pages modelled here *)

Inductive request : Type :=
| cameraAPI_getStats (id : Z)
| inferenceAPI_getUnlabeled (cameraId : Z)
| dashboardAPI_getStats (cameraId : Z) (startDate endDate : option string)
| dashboardAPI_getLogs (filters : LogFilters)
| dashboardAPI_processImage (cameraId : Z) (imageName : string)
| zoneAPI_set (data : ZonePayload)
| zoneAPI_get (cameraId : Z).

(** What [response.data] holds when the request is fulfilled. *)
Definition response (q : request) : Type :=
  match q with
  | cameraAPI_getStats _ => CameraStats
  | inferenceAPI_getUnlabeled _ => UnlabeledList
  | dashboardAPI_getStats _ _ _ => DashboardStats
  | dashboardAPI_getLogs _ => list LogRow
  | dashboardAPI_processImage _ _ => unit
  | zoneAPI_set _ => unit
  | zoneAPI_get _ => option ZoneConfig
  end.

(** ** getImageURL *)

Section WithBase.

(** [process.env.REACT_APP_API_URL || 'http://localhost:8000'] *)
Variable API_BASE_URL : string.

(** The local [path] of [getImageURL]. *)
Definition image_path (imagePath : string) : string :=
  if startsWith imagePath "cameras/" then imagePath else "cameras/" ++ imagePath.

Definition getImageURL (imagePath : string) : string :=
  let path := image_path imagePath in
  API_BASE_URL ++ "/" ++ path.

End WithBase.

End Api.

(* ===================================================================== *)
(** * Async functions on the event loop                                   *)
(* ===================================================================== *)

Module Async.

(** How a promise settles. *)
Inductive settled (A : Type) : Type :=
| Fulfilled (a : A)
| Rejected (e : error).
Arguments Fulfilled {A} a.
Arguments Rejected {A} e.

Section Lang.

(** Requests, the data each one answers with, and the synchronous effects
    of a component (state setters, [alert], [console.error]). *)
Variable req : Type.
Variable resp : req -> Type.
Variable act : Type.

(** The body of an (async) function as a tree of what it does next. *)
Inductive prog (R : Type) : Type :=
| Ret (r : R)                                        (* return r *)
| Throw (e : error)                                  (* throw e *)
| Do (a : act) (k : prog R)                          (* effect; ... *)
| Confirm (msg : string) (k : bool -> prog R)        (* window.confirm(msg) *)
| Await (q : req) (k : settled (resp q) -> prog R)   (* await api call *)
| Spawn (p : prog unit) (k : prog R).                (* f(); not awaited *)

Arguments Ret {R} r.
Arguments Throw {R} e.
Arguments Do {R} a k.
Arguments Confirm {R} msg k.
Arguments Await {R} q k.
Arguments Spawn {R} p k.

(** Run [p], then go on with [fr] on a returned value and with [fe] on a
    thrown one. *)
Fixpoint bind2 {A B} (p : prog A) (fr : A -> prog B) (fe : error -> prog B) : prog B :=
  match p with
  | Ret r => fr r
  | Throw e => fe e
  | Do a k => Do a (bind2 k fr fe)
  | Confirm m k => Confirm m (fun b => bind2 (k b) fr fe)
  | Await q k => Await q (fun o => bind2 (k o) fr fe)
  | Spawn p' k => Spawn p' (bind2 k fr fe)
  end.

(** [p; f(result)] *)
Definition bind {A B} (p : prog A) (f : A -> prog B) : prog B :=
  bind2 p f Throw.

(** [try { p } catch (error) { h(error) }] *)
Definition try_catch {A} (p : prog A) (h : error -> prog A) : prog A :=
  bind2 p Ret h.

(** [try { p } finally { fin }] *)
Definition try_finally {A} (p : prog A) (fin : prog unit) : prog A :=
  bind2 p (fun r => bind fin (fun _ => Ret r)) (fun e => bind fin (fun _ => Throw e)).

(** [await q]: the data when fulfilled, a throw when rejected. *)
Definition await (q : req) : prog (resp q) :=
  Await q (fun o => match o with
                    | Fulfilled a => Ret a
                    | Rejected e => Throw e
                    end).

Definition do (a : act) : prog unit := Do a (Ret tt).
Definition confirm (msg : string) : prog bool := Confirm msg Ret.
Definition spawn (p : prog unit) : prog unit := Spawn p (Ret tt).

(** [for (let i = start; i < start + count; i++) { s = body(i, s) }] with
    the loop's mutable locals threaded as [s]. *)
Fixpoint for_range {S} (count start : nat) (body : nat -> S -> prog S) (s : S) : prog S :=
  match count with
  | O => Ret s
  | Datatypes.S count' =>
      bind (body start s) (fun s' => for_range count' (Datatypes.S start) body s')
  end.

(** ** The event loop

    One JS thread: the function on top of the call stack runs until it
    returns or suspends on a request; a suspended function is resumed when
    its request settles, only when the stack is empty. *)
Inductive suspended : Type :=
| Susp (q : req) (k : settled (resp q) -> prog unit).

Definition susp_req (s : suspended) : req :=
  match s with Susp q _ => q end.

Definition resume (s : suspended) : settled (resp (susp_req s)) -> prog unit :=
  match s with Susp _ k => k end.

Record config : Type := mkConfig {
  stack : list (prog unit);
  waiting : list suspended
}.

Inductive event : Type :=
| EvDo (a : act)
| EvConfirm (msg : string) (answer : bool)
| EvIssue (q : req)
| EvSettle (q : req) (o : settled (resp q)).

Inductive step : config -> list event -> config -> Prop :=
| step_ret r stk w :
    step (mkConfig (Ret r :: stk) w) [] (mkConfig stk w)
| step_throw e stk w :
    step (mkConfig (Throw e :: stk) w) [] (mkConfig stk w)
| step_do a k stk w :
    step (mkConfig (Do a k :: stk) w) [EvDo a] (mkConfig (k :: stk) w)
| step_confirm m k b stk w :
    step (mkConfig (Confirm m k :: stk) w) [EvConfirm m b] (mkConfig (k b :: stk) w)
| step_await q k stk w :
    step (mkConfig (Await q k :: stk) w) [EvIssue q] (mkConfig stk (w ++ [Susp q k]))
| step_spawn p k stk w :
    step (mkConfig (Spawn p k :: stk) w) [] (mkConfig (p :: k :: stk) w)
| step_settle s o w1 w2 :
    step (mkConfig [] (w1 ++ s :: w2)) [EvSettle (susp_req s) o]
         (mkConfig [resume s o] (w1 ++ w2)).

(** [reach c t c']: from [c] the loop can get to [c'] with trace [t]. *)
Inductive reach : config -> list event -> config -> Prop :=
| reach_here c : reach c [] c
| reach_step c l c1 t c2 :
    step c l c1 -> reach c1 t c2 -> reach c (l ++ t) c2.

(** A handler has just been called. *)
Definition start (p : prog unit) : config := mkConfig [p] [].

(** Nothing left to run and nothing in flight. *)
Definition terminal (c : config) : Prop := stack c = [] /\ waiting c = [].

(** ** Reasoning about all traces of a function that awaits every call

    [all_traces p h Qr Qe Inv]: with [h] observed so far, [Inv] holds of the
    trace at every point of every run of [p], which never leaves a call
    un-awaited, and [Qr]/[Qe] hold of the trace when [p] returns/throws. *)
Fixpoint all_traces {R} (p : prog R) (h : list event)
    (Qr : R -> list event -> Prop) (Qe : error -> list event -> Prop)
    (Inv : list event -> Prop) : Prop :=
  Inv h /\
  match p with
  | Ret r => Qr r h
  | Throw e => Qe e h
  | Do a k => all_traces k (h ++ [EvDo a]) Qr Qe Inv
  | Confirm m k => forall b, all_traces (k b) (h ++ [EvConfirm m b]) Qr Qe Inv
  | Await q k =>
      Inv (h ++ [EvIssue q]) /\
      forall o, all_traces (k o) (h ++ [EvIssue q] ++ [EvSettle q o]) Qr Qe Inv
  | Spawn _ _ => False
  end.

(** What [all_traces] promises for a configuration reached with history
    [h]: one running function, or one suspended function, or the end. *)
Definition cfg_ok (Qr : unit -> list event -> Prop) (Qe : error -> list event -> Prop)
    (Inv : list event -> Prop) (h : list event) (c : config) : Prop :=
  match stack c, waiting c with
  | [p], [] => all_traces p h Qr Qe Inv
  | [], [s] =>
      Inv h /\
      forall o, all_traces (resume s o) (h ++ [EvSettle (susp_req s) o]) Qr Qe Inv
  | [], [] => Inv h /\ ((exists r, Qr r h) \/ (exists e, Qe e h))
  | _, _ => False
  end.

End Lang.

Arguments Ret {req resp act R} r.
Arguments Throw {req resp act R} e.
Arguments Do {req resp act R} a k.
Arguments Confirm {req resp act R} msg k.
Arguments Await {req resp act R} q k.
Arguments Spawn {req resp act R} p k.
Arguments bind2 {req resp act A B} p fr fe.
Arguments bind {req resp act A B} p f.
Arguments try_catch {req resp act A} p h.
Arguments try_finally {req resp act A} p fin.
Arguments await {req resp act} q.
Arguments do {req resp act} a.
Arguments confirm {req resp act} msg.
Arguments spawn {req resp act} p.
Arguments for_range {req resp act S} count start body s.
Arguments Susp {req resp act} q k.
Arguments susp_req {req resp act} s.
Arguments resume {req resp act} s _.
Arguments mkConfig {req resp act} stack waiting.
Arguments stack {req resp act} c.
Arguments waiting {req resp act} c.
Arguments EvDo {req resp act} a.
Arguments EvConfirm {req resp act} msg answer.
Arguments EvIssue {req resp act} q.
Arguments EvSettle {req resp act} q o.
Arguments step {req resp act} _ _ _.
Arguments reach {req resp act} _ _ _.
Arguments step_ret {req resp act} r stk w.
Arguments step_throw {req resp act} e stk w.
Arguments step_do {req resp act} a k stk w.
Arguments step_confirm {req resp act} m k b stk w.
Arguments step_await {req resp act} q k stk w.
Arguments step_spawn {req resp act} p k stk w.
Arguments step_settle {req resp act} s o w1 w2.
Arguments reach_here {req resp act} c.
Arguments reach_step {req resp act} c l c1 t c2 _ _.
Arguments start {req resp act} p.
Arguments terminal {req resp act} c.
Arguments all_traces {req resp act R} p h Qr Qe Inv.
Arguments cfg_ok {req resp act} Qr Qe Inv h c.

Declare Scope prog_scope.
Delimit Scope prog_scope with prog.
Notation "x <- p ;; q" := (bind p (fun x => q))
  (at level 61, p at next level, right associativity) : prog_scope.
Notation "p ;; q" := (bind p (fun _ => q))
  (at level 61, right associativity) : prog_scope.

End Async.

(* ===================================================================== *)
(** * pages/Dashboard.jsx: reprocessing all images                        *)
(* ===================================================================== *)

Module Dashboard.
Import Api Async.

Local Open Scope string_scope.
Local Open Scope prog_scope.

(** The [processProgress] state. *)
Record Progress : Type := mkProgress {
  current : nat;
  total : nat;
  stage : string
}.

(** State setters and browser calls of the component. *)
Inductive action : Type :=
| setProcessingImages (b : bool)
| setProcessProgress (p : Progress)
| setLogs (rows : list LogRow)
| setStats (s : option DashboardStats)
| setLoading (b : bool)
| alert (msg : string)
| console_error (msg : string) (e : error).

(** The state the handlers close over. *)
Record State : Type := mkState {
  selectedCamera : option Camera;
  startDate : string;
  endDate : string;
  logsLimit : Z
}.

Definition handler (R : Type) : Type := prog request response action R.
Definition trace : Type := list (event request response action).

(** [s || undefined] *)
Definition or_undefined (s : string) : option string :=
  if String.eqb s EmptyString then None else Some s.

Definition nl : string := String (ascii_of_nat 10) EmptyString.

Definition loadDashboardData (st : State) : handler unit :=
  do (setLoading true) ;;
  try_finally
    (try_catch
       (match selectedCamera st with
        | None => Throw TypeError
        | Some cam =>
            statsResponse <- await (dashboardAPI_getStats (id cam)
                                      (or_undefined (startDate st))
                                      (or_undefined (endDate st))) ;;
            do (setStats (Some statsResponse)) ;;
            logsResponse <- await (dashboardAPI_getLogs
                                     {| filter_camera_id := id cam;
                                        start_date := or_undefined (startDate st);
                                        end_date := or_undefined (endDate st);
                                        limit := logsLimit st;
                                        offset := 0 |}) ;;
            do (setLogs logsResponse)
        end)
       (fun error => do (console_error "Error loading dashboard data:" error)))
    (do (setLoading false)).

Definition processImageForDetection (st : State) (imageName : string) : handler bool :=
  try_catch
    (match selectedCamera st with
     | None => Throw TypeError
     | Some cam =>
         await (dashboardAPI_processImage (id cam) imageName) ;;
         Ret true
     end)
    (fun error =>
       do (console_error ("Error processing " ++ imageName ++ ":") error) ;;
       Ret false).

(** [`${String(i).padStart(6, '0')}.jpg`] *)
Definition labeled_name (i : nat) : string :=
  padStart (String_of_nat i) 6 "0" ++ ".jpg".

(** The two counters of the loops: [(processedCount, errorCount)]. *)
Definition count (success : bool) (counts : nat * nat) : nat * nat :=
  let '(processedCount, errorCount) := counts in
  if success then (S processedCount, errorCount) else (processedCount, S errorCount).

Definition processAllImages (st : State) : handler unit :=
  match selectedCamera st with
  | None => Ret tt
  | Some cam =>
    ok <- confirm "Process all images (labeled + unlabeled) to generate comprehensive analytics? This will reset existing logs. This may take a few minutes." ;;
    if negb ok then Ret tt else
    do (setProcessingImages true) ;;
    do (setProcessProgress {| current := 0; total := 0; stage := "Initializing..." |}) ;;
    try_finally
      (try_catch
         (do (setLogs []) ;;
          do (setStats None) ;;
          stats <- await (cameraAPI_getStats (id cam)) ;;
          unlabeledResponse <- await (inferenceAPI_getUnlabeled (id cam)) ;;
          let unlabeledImages :=
            match images unlabeledResponse with Some l => l | None => [] end in
          let totalImages := (labeled_count stats + List.length unlabeledImages)%nat in
          if (totalImages =? 0)%nat then
            do (alert "No images found. Please upload images first.") ;;
            do (setProcessingImages false)
          else
            do (setProcessProgress {| current := 0; total := totalImages;
                                      stage := "Processing images..." |}) ;;
            counts <- for_range (labeled_count stats) 0
              (fun i counts =>
                 let imageName := labeled_name i in
                 success <- processImageForDetection st imageName ;;
                 do (setProcessProgress
                       {| current := i + 1; total := totalImages;
                          stage := "Processing labeled images ("
                                   ++ String_of_nat (i + 1) ++ "/"
                                   ++ String_of_nat (labeled_count stats) ++ ")..." |}) ;;
                 Ret (count success counts))
              (0%nat, 0%nat) ;;
            counts <- for_range (List.length unlabeledImages) 0
              (fun i counts =>
                 match nth_error unlabeledImages i with
                 | None => Throw TypeError
                 | Some image =>
                     let imageName := filename image in
                     success <- processImageForDetection st imageName ;;
                     do (setProcessProgress
                           {| current := labeled_count stats + i + 1; total := totalImages;
                              stage := "Processing unlabeled images ("
                                       ++ String_of_nat (i + 1) ++ "/"
                                       ++ String_of_nat (List.length unlabeledImages)
                                       ++ ")..." |}) ;;
                     Ret (count success counts)
                 end)
              counts ;;
            let '(processedCount, errorCount) := counts in
            do (setProcessProgress {| current := totalImages; total := totalImages;
                                      stage := "Loading results..." |}) ;;
            if (0 <? processedCount)%nat then
              loadDashboardData st ;;
              let successMsg :=
                "Successfully processed ALL " ++ String_of_nat processedCount
                ++ " images! "
                ++ (if (0 <? errorCount)%nat
                    then nl ++ "(" ++ String_of_nat errorCount ++ " failed)"
                    else EmptyString) in
              do (alert (successMsg ++ nl ++ nl ++ "Dashboard updated!" ++ nl ++ nl
                         ++ "Note: Chart shows max 50 aggregated points covering the entire time range."))
            else
              do (alert "No images were processed successfully. Check console for errors."))
         (fun error =>
            do (console_error "Error processing images:" error) ;;
            do (alert ("Failed to process images: " ++ message error))))
      (do (setProcessingImages false) ;;
       do (setProcessProgress {| current := 0; total := 0; stage := EmptyString |}))
  end.

(** ** What a trace shows *)

(** The frame-processing request an event issues, if it issues one. *)
Definition issued_by (e : event request response action) : option (Z * string) :=
  match e with
  | EvIssue (dashboardAPI_processImage cameraId imageName) => Some (cameraId, imageName)
  | _ => None
  end.

Definition settles_frame (e : event request response action) : bool :=
  match e with
  | EvSettle (dashboardAPI_processImage _ _) _ => true
  | _ => false
  end.

(** Frame-processing requests issued along a trace, in order. *)
Fixpoint issued (t : trace) : list (Z * string) :=
  match t with
  | [] => []
  | e :: t' =>
      match issued_by e with
      | Some f => f :: issued t'
      | None => issued t'
      end
  end.

(** Frame-processing requests issued and not yet settled. *)
Fixpoint in_flight (t : trace) : Z :=
  match t with
  | [] => 0
  | e :: t' =>
      (match issued_by e with Some _ => 1 | None => 0 end)
      - (if settles_frame e then 1 else 0)
      + in_flight t'
  end.

Definition stats_of_event (e : event request response action) : option CameraStats :=
  match e with
  | EvSettle q o =>
      match q as q0 return settled (response q0) -> option CameraStats with
      | cameraAPI_getStats _ =>
          fun o => match o with Fulfilled s => Some s | Rejected _ => None end
      | _ => fun _ => None
      end o
  | _ => None
  end.

Definition unlabeled_of_event (e : event request response action) : option UnlabeledList :=
  match e with
  | EvSettle q o =>
      match q as q0 return settled (response q0) -> option UnlabeledList with
      | inferenceAPI_getUnlabeled _ =>
          fun o => match o with Fulfilled u => Some u | Rejected _ => None end
      | _ => fun _ => None
      end o
  | _ => None
  end.

(** First answer of its kind in a trace. *)
Fixpoint first_answer {A} (f : event request response action -> option A) (t : trace)
  : option A :=
  match t with
  | [] => None
  | e :: t' => match f e with Some a => Some a | None => first_answer f t' end
  end.

(** The frames of a camera in processing order: the labeled images by
    ascending index, then the unlabeled ones as the API listed them. *)
Definition frame_order (stats : CameraStats) (u : UnlabeledList) : list string :=
  map labeled_name (seq 0 (labeled_count stats))
  ++ map filename (match images u with Some l => l | None => [] end).

(** The frames a run has to process, once the two listings are in (none
    before).  It serves the loop invariant; what a finished run has done is
    stated from the listings' answers themselves
    ([DashboardView.all_frames_processed]). *)
Definition expected_frames (t : trace) : list string :=
  match first_answer stats_of_event t, first_answer unlabeled_of_event t with
  | Some stats, Some u => frame_order stats u
  | _, _ => []
  end.

(** Never more than one frame-processing request in flight. *)
Definition one_at_a_time (t : trace) : Prop := in_flight t <= 1.

(** The frames requested so far are the first ones of the camera's frames
    in processing order, all for camera [cam]. *)
Definition in_order (cam : Camera) (t : trace) : Prop :=
  Forall (fun f => fst f = id cam) (issued t)
  /\ exists rest, expected_frames t = (map snd (issued t) ++ rest)%list.

(** Every frame has been requested and every request has settled. *)
Definition all_processed (t : trace) : Prop :=
  expected_frames t = map snd (issued t) /\ in_flight t = 0.

(** The statement about every point of a run, and the one about its end. *)
Definition sequential (cam : Camera) (t : trace) : Prop :=
  one_at_a_time t /\ in_order cam t.

Definition finished (cam : Camera) (t : trace) : Prop :=
  all_processed t /\ Forall (fun f => fst f = id cam) (issued t).

(** An event that brings neither of the two listings. *)
Definition quiet (e : event request response action) : Prop :=
  stats_of_event e = None /\ unlabeled_of_event e = None.

(** An event that, moreover, neither requests nor settles a frame. *)
Definition inert (e : event request response action) : Prop :=
  issued_by e = None /\ settles_frame e = false /\ quiet e.

(** Between two frames: the first [k] frames of [frames] have been
    requested and answered. *)
Definition between_frames (cam : Camera) (frames : list string) (k : nat)
    (h : trace) : Prop :=
  in_flight h = 0
  /\ expected_frames h = frames
  /\ issued h = map (pair (id cam)) (firstn k frames).

End Dashboard.

(* ===================================================================== *)
(** * pages/ZoneDrawer.jsx                                                *)
(* ===================================================================== *)

Module ZoneDrawer.
Import Api Async.

Local Open Scope string_scope.
Local Open Scope prog_scope.

(** The loaded sample image ([imageObj]) and the canvas size
    ([dimensions]), in pixels. *)
Record Image : Type := mkImage { width : Q; height : Q }.
Record Dimensions : Type := mkDimensions { canvas_width : Q; canvas_height : Q }.

Record State : Type := mkState {
  selectedCamera : option Camera;
  imageObj : option Image;
  points : list (Q * Q);
  threshold : number;
  isDrawing : bool;
  existingZone : option ZoneConfig;
  loading : bool;
  dimensions : Dimensions
}.

(** State setters and browser calls of the component. *)
Inductive action : Type :=
| setPoints (ps : list (Q * Q))
| setThreshold (t : number)
| setIsDrawing (b : bool)
| setExistingZone (z : option ZoneConfig)
| setLoading (b : bool)
| alert (msg : string)
| console_error (msg : string) (e : error).

Definition apply_action (st : State) (a : action) : State :=
  match a with
  | setPoints ps =>
      mkState (selectedCamera st) (imageObj st) ps (threshold st) (isDrawing st)
              (existingZone st) (loading st) (dimensions st)
  | setThreshold t =>
      mkState (selectedCamera st) (imageObj st) (points st) t (isDrawing st)
              (existingZone st) (loading st) (dimensions st)
  | setIsDrawing b =>
      mkState (selectedCamera st) (imageObj st) (points st) (threshold st) b
              (existingZone st) (loading st) (dimensions st)
  | setExistingZone z =>
      mkState (selectedCamera st) (imageObj st) (points st) (threshold st) (isDrawing st)
              z (loading st) (dimensions st)
  | setLoading b =>
      mkState (selectedCamera st) (imageObj st) (points st) (threshold st) (isDrawing st)
              (existingZone st) b (dimensions st)
  | alert _ | console_error _ _ => st
  end.

Definition handler (R : Type) : Type := prog request response action R.
Definition trace : Type := list (event request response action).

(** The component state after the setters of a trace have been applied. *)
Fixpoint state_after (st : State) (t : trace) : State :=
  match t with
  | [] => st
  | EvDo a :: t' => state_after (apply_action st a) t'
  | _ :: t' => state_after st t'
  end.

(** [handleCanvasClick], with [pos] the pointer position on the stage. *)
Definition handleCanvasClick (st : State) (pos : Q * Q) : outcome State :=
  if negb (isDrawing st) then Returned st
  else
    match imageObj st with
    | None => Threw
    | Some img =>
        let scaleX := (width img / canvas_width (dimensions st))%Q in
        let scaleY := (height img / canvas_height (dimensions st))%Q in
        let scaledX := (fst pos * scaleX)%Q in
        let scaledY := (snd pos * scaleY)%Q in
        Returned (apply_action st (setPoints (points st ++ [(scaledX, scaledY)])))
    end.

(** [getCanvasPoints]: the stored points scaled to the canvas. *)
Definition getCanvasPoints (st : State) : list (Q * Q) :=
  match imageObj st with
  | None => []
  | Some img =>
      let scaleX := (canvas_width (dimensions st) / width img)%Q in
      let scaleY := (canvas_height (dimensions st) / height img)%Q in
      map (fun '(x, y) => (x * scaleX, y * scaleY)%Q) (points st)
  end.

(** The threshold field's [onChange], with [value] the text of the field. *)
Definition onChange_threshold (st : State) (value : string) : State :=
  apply_action st (setThreshold (number_div (parseFloat value) (Num 100))).

Definition loadExistingZone (st : State) : handler unit :=
  try_catch
    (match selectedCamera st with
     | None => Throw TypeError
     | Some cam =>
         data <- await (zoneAPI_get (id cam)) ;;
         match data with
         | Some zone =>
             do (setExistingZone (Some zone)) ;;
             do (setPoints (zone_points zone)) ;;
             do (setThreshold (zone_threshold zone))
         | None =>
             do (setExistingZone None) ;;
             do (setPoints [])
         end
     end)
    (fun error => do (console_error "Error loading zone:" error)).

Definition too_few : string := "Please draw at least 3 points to form a zone".

Definition handleSaveZone (st : State) : handler unit :=
  if (List.length (points st) <? 3)%nat then
    do (alert too_few)
  else
    do (setLoading true) ;;
    try_finally
      (try_catch
         (match selectedCamera st with
          | None => Throw TypeError
          | Some cam =>
              await (zoneAPI_set {| camera_id := id cam;
                                    payload_points := points st;
                                    payload_threshold := threshold st |}) ;;
              do (alert "Zone saved successfully!") ;;
              do (setIsDrawing false) ;;
              spawn (loadExistingZone st)
          end)
         (fun error =>
            do (console_error "Error saving zone:" error) ;;
            do (alert "Failed to save zone")))
      (do (setLoading false)).

(** The zone configurations a trace submits with [zoneAPI.set]. *)
Fixpoint submitted (t : trace) : list ZonePayload :=
  match t with
  | [] => []
  | EvIssue (zoneAPI_set data) :: t' => data :: submitted t'
  | _ :: t' => submitted t'
  end.

(** A threshold that is a number in [0, 1]. *)
Definition in_unit_interval (t : number) : Prop :=
  match t with
  | Num q => (0 <= q /\ q <= 1)%Q
  | _ => False
  end.

End ZoneDrawer.

(* ===================================================================== *)
(** * pages/CameraManager.jsx: the annotation tool                        *)
(* ===================================================================== *)

Module NewBbox.
(** The rectangle being dragged ([newBbox]). *)
Record t : Type := mk { x1 : Q; y1 : Q; x2 : Q; y2 : Q }.
End NewBbox.

Module AnnotationTool.

Record Image : Type := mkImage { width : Q; height : Q }.

(** An entry of [bboxes]. *)
Record Bbox : Type := mkBbox {
  id : nat;
  x1 : Q;
  y1 : Q;
  x2 : Q;
  y2 : Q;
  approved : bool;
  confidence : option Q
}.

Record State : Type := mkState {
  isDrawingMode : bool;
  isDrawing : bool;
  newBbox : option NewBbox.t;
  imageObj : option Image;
  bboxes : list Bbox
}.

Definition minSize : Q := 10.

Definition handleMouseUp (st : State) : State :=
  match isDrawing st, newBbox st, imageObj st with
  | true, Some newBbox, Some _ =>
      let width := Qabs (NewBbox.x2 newBbox - NewBbox.x1 newBbox) in
      let height := Qabs (NewBbox.y2 newBbox - NewBbox.y1 newBbox) in
      let bboxes' :=
        if gt width minSize && gt height minSize then
          let normalizedBbox :=
            {| id := List.length (bboxes st);
               x1 := Qmin (NewBbox.x1 newBbox) (NewBbox.x2 newBbox);
               y1 := Qmin (NewBbox.y1 newBbox) (NewBbox.y2 newBbox);
               x2 := Qmax (NewBbox.x1 newBbox) (NewBbox.x2 newBbox);
               y2 := Qmax (NewBbox.y1 newBbox) (NewBbox.y2 newBbox);
               approved := true;
               confidence := None |} in
          bboxes st ++ [normalizedBbox]
        else bboxes st in
      {| isDrawingMode := isDrawingMode st;
         isDrawing := false;
         newBbox := None;
         imageObj := imageObj st;
         bboxes := bboxes' |}
  | _, _, _ => st
  end.

(** A box with [x1 < x2], [y1 < y2] and both sides longer than 10 px. *)
Definition well_formed (b : Bbox) : Prop :=
  (x1 b < x2 b /\ y1 b < y2 b /\ 10 < x2 b - x1 b /\ 10 < y2 b - y1 b)%Q.

End AnnotationTool.

(* ===================================================================== *)
(** * Sample data                                                         *)
(* ===================================================================== *)

Module Samples.

Local Open Scope string_scope.

(** Timestamps as minutes since midnight, shown as [HH:mm]. *)
Definition two_digits (n : nat) : string := padStart (String_of_nat n) 2 "0".
Definition clock (t : nat) : string :=
  two_digits ((t / 60) mod 24) ++ ":" ++ two_digits (t mod 60).

(** [n] frames, one per minute, with [k] people in frame [k] of whom
    [k / 2] are in the zone. *)
Definition series (n : nat) : list (Chart.TimeSeriesPoint nat) :=
  map (fun k => Chart.mkPoint k (Z.of_nat k) (Z.of_nat (k / 2))) (seq 0 n).

Definition camera1 : Api.Camera := {| Api.id := 1; Api.name := "Entrance" |}.

(** The zone page while a triangle is being drawn on a 1280x720 image
    shown at half size. *)
Definition triangle : ZoneDrawer.State :=
  {| ZoneDrawer.selectedCamera := Some camera1;
     ZoneDrawer.imageObj := Some {| ZoneDrawer.width := 1280; ZoneDrawer.height := 720 |};
     ZoneDrawer.points := [(0, 0); (100, 0); (0, 100)]%Q;
     ZoneDrawer.threshold := Num (3 # 10);
     ZoneDrawer.isDrawing := true;
     ZoneDrawer.existingZone := None;
     ZoneDrawer.loading := false;
     ZoneDrawer.dimensions :=
       {| ZoneDrawer.canvas_width := 640; ZoneDrawer.canvas_height := 360 |} |}.

(** The same page with only two points drawn over a saved zone. *)
Definition two_points : ZoneDrawer.State :=
  {| ZoneDrawer.selectedCamera := Some camera1;
     ZoneDrawer.imageObj := Some {| ZoneDrawer.width := 1280; ZoneDrawer.height := 720 |};
     ZoneDrawer.points := [(0, 0); (100, 0)]%Q;
     ZoneDrawer.threshold := Num (3 # 10);
     ZoneDrawer.isDrawing := true;
     ZoneDrawer.existingZone :=
       Some {| Api.zone_points := [(0, 0); (50, 0); (0, 50)]%Q;
               Api.zone_threshold := Num (3 # 10) |};
     ZoneDrawer.loading := false;
     ZoneDrawer.dimensions :=
       {| ZoneDrawer.canvas_width := 640; ZoneDrawer.canvas_height := 360 |} |}.

(** The dashboard with a camera selected and no date filter. *)
Definition dashboard : Dashboard.State :=
  {| Dashboard.selectedCamera := Some camera1;
     Dashboard.startDate := EmptyString;
     Dashboard.endDate := EmptyString;
     Dashboard.logsLimit := 50 |}.

(** What the camera's listings answer in the sample run: one labeled
    image and one unlabeled image. *)
Definition one_labeled : Api.CameraStats := {| Api.labeled_count := 1 |}.
Definition one_unlabeled : Api.UnlabeledList :=
  {| Api.images := Some [ {| Api.filename := "frame_a.jpg" |} ] |}.
Definition server_error : error :=
  {| message := "Request failed with status code 500" |}.
Definition no_filter_logs : Api.LogFilters :=
  {| Api.filter_camera_id := 1; Api.start_date := None; Api.end_date := None;
     Api.limit := 50; Api.offset := 0 |}.

(** A complete run of "Reprocess All Images" on [dashboard]: the user
    confirms, the labeled frame is processed, the unlabeled one fails on the
    server, the dashboard data are reloaded. *)
Definition full_run : Dashboard.trace :=
  [ Async.EvConfirm "Process all images (labeled + unlabeled) to generate comprehensive analytics? This will reset existing logs. This may take a few minutes." true;
    Async.EvDo (Dashboard.setProcessingImages true);
    Async.EvDo (Dashboard.setProcessProgress (Dashboard.mkProgress 0 0 "Initializing..."));
    Async.EvDo (Dashboard.setLogs []);
    Async.EvDo (Dashboard.setStats None);
    Async.EvIssue (Api.cameraAPI_getStats 1);
    Async.EvSettle (Api.cameraAPI_getStats 1) (Async.Fulfilled one_labeled);
    Async.EvIssue (Api.inferenceAPI_getUnlabeled 1);
    Async.EvSettle (Api.inferenceAPI_getUnlabeled 1) (Async.Fulfilled one_unlabeled);
    Async.EvDo (Dashboard.setProcessProgress (Dashboard.mkProgress 0 2 "Processing images..."));
    Async.EvIssue (Api.dashboardAPI_processImage 1 "000000.jpg");
    Async.EvSettle (Api.dashboardAPI_processImage 1 "000000.jpg") (Async.Fulfilled tt);
    Async.EvDo (Dashboard.setProcessProgress
                  (Dashboard.mkProgress 1 2 "Processing labeled images (1/1)..."));
    Async.EvIssue (Api.dashboardAPI_processImage 1 "frame_a.jpg");
    Async.EvSettle (Api.dashboardAPI_processImage 1 "frame_a.jpg")
                   (Async.Rejected server_error);
    Async.EvDo (Dashboard.console_error "Error processing frame_a.jpg:" server_error);
    Async.EvDo (Dashboard.setProcessProgress
                  (Dashboard.mkProgress 2 2 "Processing unlabeled images (1/1)..."));
    Async.EvDo (Dashboard.setProcessProgress (Dashboard.mkProgress 2 2 "Loading results..."));
    Async.EvDo (Dashboard.setLoading true);
    Async.EvIssue (Api.dashboardAPI_getStats 1 None None);
    Async.EvSettle (Api.dashboardAPI_getStats 1 None None)
                   (Async.Fulfilled (Chart.mkStats None));
    Async.EvDo (Dashboard.setStats (Some (Chart.mkStats None)));
    Async.EvIssue (Api.dashboardAPI_getLogs no_filter_logs);
    Async.EvSettle (Api.dashboardAPI_getLogs no_filter_logs) (Async.Fulfilled []);
    Async.EvDo (Dashboard.setLogs []);
    Async.EvDo (Dashboard.setLoading false);
    Async.EvDo (Dashboard.alert
                  ("Successfully processed ALL 1 images! " ++ Dashboard.nl
                   ++ "(1 failed)" ++ Dashboard.nl ++ Dashboard.nl
                   ++ "Dashboard updated!" ++ Dashboard.nl ++ Dashboard.nl
                   ++ "Note: Chart shows max 50 aggregated points covering the entire time range."));
    Async.EvDo (Dashboard.setProcessingImages false);
    Async.EvDo (Dashboard.setProcessProgress (Dashboard.mkProgress 0 0 EmptyString)) ].

(** Saving the triangle: the request succeeds and the zone is read back. *)
Definition triangle_payload : Api.ZonePayload :=
  {| Api.camera_id := 1;
     Api.payload_points := [(0, 0); (100, 0); (0, 100)]%Q;
     Api.payload_threshold := Num (3 # 10) |}.
Definition triangle_zone : Api.ZoneConfig :=
  {| Api.zone_points := [(0, 0); (100, 0); (0, 100)]%Q;
     Api.zone_threshold := Num (3 # 10) |}.

Definition save_run : ZoneDrawer.trace :=
  [ Async.EvDo (ZoneDrawer.setLoading true);
    Async.EvIssue (Api.zoneAPI_set triangle_payload);
    Async.EvSettle (Api.zoneAPI_set triangle_payload) (Async.Fulfilled tt);
    Async.EvDo (ZoneDrawer.alert "Zone saved successfully!");
    Async.EvDo (ZoneDrawer.setIsDrawing false);
    Async.EvIssue (Api.zoneAPI_get 1);
    Async.EvDo (ZoneDrawer.setLoading false);
    Async.EvSettle (Api.zoneAPI_get 1) (Async.Fulfilled (Some triangle_zone));
    Async.EvDo (ZoneDrawer.setExistingZone (Some triangle_zone));
    Async.EvDo (ZoneDrawer.setPoints [(0, 0); (100, 0); (0, 100)]%Q);
    Async.EvDo (ZoneDrawer.setThreshold (Num (3 # 10))) ].

End Samples.

(* ===================================================================== *)
(** * More of the event loop                                              *)
(* ===================================================================== *)

Module Loop.
Import Async.

Section Cases.

Variable req : Type.
Variable resp : req -> Type.
Variable act : Type.

(** The synchronous effects of a trace, in order. *)
Fixpoint actions (t : list (event req resp act)) : list act :=
  match t with
  | [] => []
  | EvDo a :: t' => a :: actions t'
  | _ :: t' => actions t'
  end.

(** The requests a trace issues, in order. *)
Fixpoint requests (t : list (event req resp act)) : list req :=
  match t with
  | [] => []
  | EvIssue q :: t' => q :: requests t'
  | _ :: t' => requests t'
  end.

(** What one step of the loop can be, read off the configuration. *)
Definition step_cases (c : config req resp act) (l : list (event req resp act))
    (c' : config req resp act) : Prop :=
  match stack c with
  | Ret _ :: stk => l = [] /\ c' = mkConfig stk (waiting c)
  | Throw _ :: stk => l = [] /\ c' = mkConfig stk (waiting c)
  | Do a k :: stk => l = [EvDo a] /\ c' = mkConfig (k :: stk) (waiting c)
  | Confirm m k :: stk =>
      exists b, l = [EvConfirm m b] /\ c' = mkConfig (k b :: stk) (waiting c)
  | Await q k :: stk =>
      l = [EvIssue q] /\ c' = mkConfig stk (waiting c ++ [Susp q k])
  | Spawn p k :: stk => l = [] /\ c' = mkConfig (p :: k :: stk) (waiting c)
  | [] =>
      exists w1 s w2 o,
        waiting c = w1 ++ s :: w2
        /\ l = [EvSettle (susp_req s) o]
        /\ c' = mkConfig [resume s o] (w1 ++ w2)
  end.

End Cases.

Arguments actions {req resp act} t.
Arguments requests {req resp act} t.
Arguments step_cases {req resp act} c l c'.

End Loop.

(* ===================================================================== *)
(** * pages/ZoneDrawer.jsx: the rest of the page                          *)
(* ===================================================================== *)

Module ZoneEdit.
Import Api Async ZoneDrawer.

Local Open Scope string_scope.
Local Open Scope prog_scope.

(** [img.onload] of the sample image: the canvas is as wide as the
    container allows (never wider than the image); its height is that
    width times the image's aspect ratio, here in exact arithmetic.
    [offsetWidth] is [containerRef.current?.offsetWidth]. *)
Definition containerWidth (offsetWidth : option Q) : Q :=
  match offsetWidth with
  | Some w => if Qeq_bool w 0 then 800 else w
  | None => 800
  end.

Definition onload (st : State) (offsetWidth : option Q) (img : Image) : State :=
  let aspectRatio := (height img / width img)%Q in
  let w := Qmin (containerWidth offsetWidth - 40) (width img) in
  let h := (w * aspectRatio)%Q in
  mkState (selectedCamera st) (Some img) (points st) (threshold st) (isDrawing st)
          (existingZone st) (loading st)
          {| canvas_width := w; canvas_height := h |}.

Definition handleClearZone (st : State) : State :=
  apply_action (apply_action st (setPoints [])) (setIsDrawing true).

(** A sequence of clicks on the stage.  The stored coordinates are the
    exact products; the browser rounds each to a double. *)
Fixpoint clicks (st : State) (positions : list (Q * Q)) : outcome State :=
  match positions with
  | [] => Returned st
  | pos :: rest =>
      match handleCanvasClick st pos with
      | Returned st' => clicks st' rest
      | Threw => Threw
      | OutOfFuel => OutOfFuel
      end
  end.

(** [zoneAPI.delete], the one endpoint [handleDeleteZone] calls. *)
Inductive request : Type :=
| zoneAPI_delete (cameraId : Z).

Definition response (q : request) : Type := unit.

Definition delete_question : string := "Are you sure you want to delete this zone?".

Definition handleDeleteZone (st : State) : prog request response action unit :=
  ok <- confirm delete_question ;;
  if negb ok then Ret tt else
  try_catch
    (match selectedCamera st with
     | None => Throw TypeError
     | Some cam =>
         await (zoneAPI_delete (id cam)) ;;
         do (setPoints []) ;;
         do (setExistingZone None) ;;
         do (alert "Zone deleted successfully")
     end)
    (fun error =>
       do (console_error "Error deleting zone:" error) ;;
       do (alert "Failed to delete zone")).

(** The component state after the setters in a list of effects. *)
Definition state_of (st : State) (effects : list action) : State :=
  fold_left apply_action effects st.

(** Two lists of points that agree as rationals. *)
Definition same_points (ps qs : list (Q * Q)) : Prop :=
  Forall2 (fun p q => (fst p == fst q)%Q /\ (snd p == snd q)%Q) ps qs.

(** How a finished run of [handleDeleteZone] can have gone: the user
    declined; the server deleted the zone; the server refused. *)
Definition delete_declined
    (t : list (event request response action)) : Prop :=
  In (EvConfirm delete_question false) t
  /\ Loop.requests t = [] /\ Loop.actions t = [].

Definition delete_done (st : State) (cameraId : Z)
    (t : list (event request response action)) : Prop :=
  In (EvSettle (zoneAPI_delete cameraId) (Fulfilled tt)) t
  /\ state_of st (Loop.actions t)
     = apply_action (apply_action st (setPoints [])) (setExistingZone None)
  /\ In (alert "Zone deleted successfully") (Loop.actions t).

Definition delete_failed (st : State) (cameraId : Z)
    (t : list (event request response action)) : Prop :=
  (exists e, In (EvSettle (zoneAPI_delete cameraId) (Rejected e)) t)
  /\ state_of st (Loop.actions t) = st
  /\ In (alert "Failed to delete zone") (Loop.actions t).

End ZoneEdit.

(* ===================================================================== *)
(** * pages/ZoneDrawer.jsx: what saving a zone does                       *)
(* ===================================================================== *)

Module ZoneSave.
Import Api Async ZoneDrawer.

Local Open Scope string_scope.
Local Open Scope list_scope.

(** The body [handleSaveZone] posts for state [st] and camera [cam]. *)
Definition payload (st : State) (cam : Camera) : ZonePayload :=
  {| camera_id := id cam;
     payload_points := points st;
     payload_threshold := threshold st |}.

(** The events of a save up to the answer to [zoneAPI.set]. *)
Definition asked (st : State) (cam : Camera) (o : settled unit) : trace :=
  [ EvDo (setLoading true);
    EvIssue (zoneAPI_set (payload st cam));
    EvSettle (zoneAPI_set (payload st cam)) o ].

(** The events after a fulfilled save up to the answer to [zoneAPI.get]:
    the zone is asked for, the save handler finishes, the answer arrives. *)
Definition read_back (cam : Camera) (o : settled (option ZoneConfig)) : trace :=
  [ EvDo (alert "Zone saved successfully!");
    EvDo (setIsDrawing false);
    EvIssue (zoneAPI_get (id cam));
    EvDo (setLoading false);
    EvSettle (zoneAPI_get (id cam)) o ].

(** The complete runs of a save. *)
Inductive complete_save (st : State) (cam : Camera) : trace -> Prop :=
| save_refused e :
    complete_save st cam
      (asked st cam (Rejected e)
       ++ [ EvDo (console_error "Error saving zone:" e);
            EvDo (alert "Failed to save zone");
            EvDo (setLoading false) ])
| save_read zone :
    complete_save st cam
      (asked st cam (Fulfilled tt)
       ++ read_back cam (Fulfilled (Some zone))
       ++ [ EvDo (setExistingZone (Some zone));
            EvDo (setPoints (zone_points zone));
            EvDo (setThreshold (zone_threshold zone)) ])
| save_read_none :
    complete_save st cam
      (asked st cam (Fulfilled tt)
       ++ read_back cam (Fulfilled None)
       ++ [ EvDo (setExistingZone None); EvDo (setPoints []) ])
| save_read_failed e :
    complete_save st cam
      (asked st cam (Fulfilled tt)
       ++ read_back cam (Rejected e)
       ++ [ EvDo (console_error "Error loading zone:" e) ]).

End ZoneSave.

(* ===================================================================== *)
(** * pages/CameraManager.jsx: the annotation page                        *)
(* ===================================================================== *)

Module AnnotationPage.
Import Async.

Local Open Scope string_scope.
Local Open Scope list_scope.
Local Open Scope Z_scope.

(** [arr.filter((item, idx) => keep(item, idx))] *)
Fixpoint filter_indexed {A} (keep : A -> nat -> bool) (idx : nat) (l : list A) : list A :=
  match l with
  | [] => []
  | x :: l' =>
      if keep x idx then x :: filter_indexed keep (S idx) l'
      else filter_indexed keep (S idx) l'
  end.

(** [arr[i]] for a JS number [i]: [undefined] outside the array. *)
Definition at_index {A} (l : list A) (i : Z) : option A :=
  if i <? 0 then None else nth_error l (Z.to_nat i).

(** An entry of [unlabeledImages]. *)
Record UnlabeledImage : Type := mkUnlabeledImage { filename : string; path : string }.

Record Camera : Type := mkCamera { id : Z; name : string }.

Record Dimensions : Type := mkDimensions { canvas_width : Q; canvas_height : Q }.

(** One detection of an inference result: two corner points and a
    confidence. *)
Record Detection : Type := mkDetection {
  points : (Q * Q) * (Q * Q);
  det_confidence : Q
}.

Record InferenceResult : Type := mkResult {
  image_name : string;
  detections : list Detection
}.

Record State : Type := mkState {
  selectedCamera : option Camera;
  unlabeledImages : list UnlabeledImage;
  currentImageIndex : Z;
  imageObj : option AnnotationTool.Image;
  bboxes : list AnnotationTool.Bbox;
  inferenceResults : option (list InferenceResult);
  dimensions : Dimensions;
  isDrawingMode : bool;
  newBbox : option NewBbox.t;
  isDrawing : bool
}.

(** State setters and browser calls of the page. *)
Inductive action : Type :=
| setUnlabeledImages (l : list UnlabeledImage)
| setCurrentImageIndex (i : Z)
| setImageObj (img : option AnnotationTool.Image)
| setBboxes (l : list AnnotationTool.Bbox)
| setIsDrawingMode (b : bool)
| setNewBbox (b : option NewBbox.t)
| setIsDrawing (b : bool)
| alert (msg : string)
| console_error (msg : string) (e : error).

Definition apply_action (st : State) (a : action) : State :=
  match a with
  | setUnlabeledImages l =>
      mkState (selectedCamera st) l (currentImageIndex st) (imageObj st) (bboxes st)
              (inferenceResults st) (dimensions st) (isDrawingMode st) (newBbox st)
              (isDrawing st)
  | setCurrentImageIndex i =>
      mkState (selectedCamera st) (unlabeledImages st) i (imageObj st) (bboxes st)
              (inferenceResults st) (dimensions st) (isDrawingMode st) (newBbox st)
              (isDrawing st)
  | setImageObj img =>
      mkState (selectedCamera st) (unlabeledImages st) (currentImageIndex st) img
              (bboxes st) (inferenceResults st) (dimensions st) (isDrawingMode st)
              (newBbox st) (isDrawing st)
  | setBboxes l =>
      mkState (selectedCamera st) (unlabeledImages st) (currentImageIndex st)
              (imageObj st) l (inferenceResults st) (dimensions st) (isDrawingMode st)
              (newBbox st) (isDrawing st)
  | setIsDrawingMode b =>
      mkState (selectedCamera st) (unlabeledImages st) (currentImageIndex st)
              (imageObj st) (bboxes st) (inferenceResults st) (dimensions st) b
              (newBbox st) (isDrawing st)
  | setNewBbox b =>
      mkState (selectedCamera st) (unlabeledImages st) (currentImageIndex st)
              (imageObj st) (bboxes st) (inferenceResults st) (dimensions st)
              (isDrawingMode st) b (isDrawing st)
  | setIsDrawing b =>
      mkState (selectedCamera st) (unlabeledImages st) (currentImageIndex st)
              (imageObj st) (bboxes st) (inferenceResults st) (dimensions st)
              (isDrawingMode st) (newBbox st) b
  | alert _ | console_error _ _ => st
  end.

Definition state_of (st : State) (effects : list action) : State :=
  fold_left apply_action effects st.

(** The part of the state [handleMouseUp] works on, and back. *)
Definition drawing (st : State) : AnnotationTool.State :=
  {| AnnotationTool.isDrawingMode := isDrawingMode st;
     AnnotationTool.isDrawing := isDrawing st;
     AnnotationTool.newBbox := newBbox st;
     AnnotationTool.imageObj := imageObj st;
     AnnotationTool.bboxes := bboxes st |}.

Definition with_drawing (st : State) (d : AnnotationTool.State) : State :=
  mkState (selectedCamera st) (unlabeledImages st) (currentImageIndex st)
          (AnnotationTool.imageObj d) (AnnotationTool.bboxes d) (inferenceResults st)
          (dimensions st) (AnnotationTool.isDrawingMode d) (AnnotationTool.newBbox d)
          (AnnotationTool.isDrawing d).

Definition handleMouseUp (st : State) : State :=
  with_drawing st (AnnotationTool.handleMouseUp (drawing st)).

(** [handleMouseDown], with [pos] the pointer position on the stage.  In
    this handler, in [handleMouseMove] and in [getCanvasBboxes] the scaled
    coordinates are the exact quotients and products; the browser rounds
    each to a double. *)
Definition handleMouseDown (st : State) (pos : Q * Q) : State :=
  match isDrawingMode st, imageObj st with
  | true, Some img =>
      let scaleX := (AnnotationTool.width img / canvas_width (dimensions st))%Q in
      let scaleY := (AnnotationTool.height img / canvas_height (dimensions st))%Q in
      let imgX := (fst pos * scaleX)%Q in
      let imgY := (snd pos * scaleY)%Q in
      apply_action (apply_action st (setIsDrawing true))
        (setNewBbox (Some {| NewBbox.x1 := imgX; NewBbox.y1 := imgY;
                             NewBbox.x2 := imgX; NewBbox.y2 := imgY |}))
  | _, _ => st
  end.

Definition handleMouseMove (st : State) (pos : Q * Q) : State :=
  match isDrawing st, imageObj st, newBbox st with
  | true, Some img, Some box =>
      let scaleX := (AnnotationTool.width img / canvas_width (dimensions st))%Q in
      let scaleY := (AnnotationTool.height img / canvas_height (dimensions st))%Q in
      let imgX := (fst pos * scaleX)%Q in
      let imgY := (snd pos * scaleY)%Q in
      apply_action st
        (setNewBbox (Some {| NewBbox.x1 := NewBbox.x1 box; NewBbox.y1 := NewBbox.y1 box;
                             NewBbox.x2 := imgX; NewBbox.y2 := imgY |}))
  | _, _, _ => st
  end.

Definition addManualBbox (st : State) : State :=
  apply_action st (setIsDrawingMode true).

Definition cancelDrawing (st : State) : State :=
  apply_action (apply_action (apply_action st (setIsDrawingMode false))
                             (setIsDrawing false))
               (setNewBbox None).

(** A rectangle handed to the canvas: the box it shows ([None] for the
    one being drawn) and where it is drawn. *)
Record CanvasBbox : Type := mkCanvasBbox {
  shown : option AnnotationTool.Bbox;
  x : Q;
  y : Q;
  width : Q;
  height : Q
}.

Definition getCanvasBboxes (st : State) : list CanvasBbox :=
  match imageObj st with
  | None => []
  | Some img =>
      let scaleX := (canvas_width (dimensions st) / AnnotationTool.width img)%Q in
      let scaleY := (canvas_height (dimensions st) / AnnotationTool.height img)%Q in
      let existingBboxes :=
        map (fun bbox =>
               {| shown := Some bbox;
                  x := AnnotationTool.x1 bbox * scaleX;
                  y := AnnotationTool.y1 bbox * scaleY;
                  width := (AnnotationTool.x2 bbox - AnnotationTool.x1 bbox) * scaleX;
                  height := (AnnotationTool.y2 bbox - AnnotationTool.y1 bbox) * scaleY |})
            (bboxes st) in
      match newBbox st, isDrawing st with
      | Some box, true =>
          let x1 := (Qmin (NewBbox.x1 box) (NewBbox.x2 box) * scaleX)%Q in
          let y1 := (Qmin (NewBbox.y1 box) (NewBbox.y2 box) * scaleY)%Q in
          let x2 := (Qmax (NewBbox.x1 box) (NewBbox.x2 box) * scaleX)%Q in
          let y2 := (Qmax (NewBbox.y1 box) (NewBbox.y2 box) * scaleY)%Q in
          existingBboxes
          ++ [ {| shown := None; x := x1; y := y1;
                  width := x2 - x1; height := y2 - y1 |} ]
      | _, _ => existingBboxes
      end
  end.

(** [toggleBboxApproval]: [newBboxes[index]] is [undefined] outside the
    list, and setting a property of it throws.  The copied array shares
    its boxes with the old one; what is modelled is the array handed to
    [setBboxes]. *)
Definition toggle (b : AnnotationTool.Bbox) : AnnotationTool.Bbox :=
  {| AnnotationTool.id := AnnotationTool.id b;
     AnnotationTool.x1 := AnnotationTool.x1 b;
     AnnotationTool.y1 := AnnotationTool.y1 b;
     AnnotationTool.x2 := AnnotationTool.x2 b;
     AnnotationTool.y2 := AnnotationTool.y2 b;
     AnnotationTool.approved := negb (AnnotationTool.approved b);
     AnnotationTool.confidence := AnnotationTool.confidence b |}.

Fixpoint update_at {A} (f : A -> A) (index : nat) (l : list A) : list A :=
  match l, index with
  | [], _ => []
  | a :: l', O => f a :: l'
  | a :: l', S index' => a :: update_at f index' l'
  end.

Definition toggleBboxApproval (st : State) (index : nat) : outcome State :=
  match nth_error (bboxes st) index with
  | None => Threw
  | Some _ => Returned (apply_action st (setBboxes (update_at toggle index (bboxes st))))
  end.

Definition deleteBbox (st : State) (index : nat) : State :=
  apply_action st
    (setBboxes (filter_indexed (fun _ idx => negb (idx =? index)%nat) 0 (bboxes st))).

(** The Prev, Next and Skip buttons. *)
Definition prev (st : State) : State :=
  apply_action st (setCurrentImageIndex (Z.max 0 (currentImageIndex st - 1))).

Definition next (st : State) : State :=
  apply_action st
    (setCurrentImageIndex (Z.min (len (unlabeledImages st) - 1) (currentImageIndex st + 1))).

Definition skip (st : State) : State :=
  apply_action (next st) (setBboxes []).

(** The boxes shown for an inference result ([img.onload]). *)
Fixpoint boxes_from (idx : nat) (dets : list Detection) : list AnnotationTool.Bbox :=
  match dets with
  | [] => []
  | det :: rest =>
      {| AnnotationTool.id := idx;
         AnnotationTool.x1 := fst (fst (points det));
         AnnotationTool.y1 := snd (fst (points det));
         AnnotationTool.x2 := fst (snd (points det));
         AnnotationTool.y2 := snd (snd (points det));
         AnnotationTool.approved := true;
         AnnotationTool.confidence := Some (det_confidence det) |}
      :: boxes_from (S idx) rest
  end.

Definition scaledBboxes (result : InferenceResult) : list AnnotationTool.Bbox :=
  boxes_from 0 (detections result).

(** ** approveAnnotation *)

Record Shape : Type := mkShape {
  label : string;
  shape_points : (Q * Q) * (Q * Q);
  shape_type : string
}.

Record Annotations : Type := mkAnnotations {
  shapes : list Shape;
  imagePath : string;
  imageHeight : Q;
  imageWidth : Q
}.

(** The body of [inferenceAPI.approve]. *)
Record Annotation : Type := mkAnnotation {
  camera_id : Z;
  annotation_image_name : string;
  annotations : Annotations
}.

Inductive request : Type :=
| inferenceAPI_approve (data : Annotation).

Definition response (q : request) : Type := unit.

Definition shapes_of (l : list AnnotationTool.Bbox) : list Shape :=
  map (fun b => {| label := "person";
                   shape_points := ((AnnotationTool.x1 b, AnnotationTool.y1 b),
                                    (AnnotationTool.x2 b, AnnotationTool.y2 b));
                   shape_type := "rectangle" |})
      (filter AnnotationTool.approved l).

Definition annotation_of (st : State) (cam : Camera) (currentImage : UnlabeledImage)
    (img : AnnotationTool.Image) : Annotation :=
  {| camera_id := id cam;
     annotation_image_name := filename currentImage;
     annotations :=
       {| shapes := shapes_of (bboxes st);
          imagePath := filename currentImage;
          imageHeight := AnnotationTool.height img;
          imageWidth := AnnotationTool.width img |} |}.

Definition empty_question : string := "No detections found. Save empty annotation?".

Local Open Scope prog_scope.

(** [approveAnnotation].  Reading [selectedCamera.id], [currentImage.filename]
    or [img.height] of a missing value throws before the request is made. *)
Definition approveAnnotation (st : State) : prog request response action unit :=
  proceed <- (if (len (bboxes st) =? 0) then confirm empty_question else Ret true) ;;
  if negb proceed then Ret tt else
  match selectedCamera st, at_index (unlabeledImages st) (currentImageIndex st),
        imageObj st with
  | Some cam, Some currentImage, Some img =>
      let annotation := annotation_of st cam currentImage img in
      try_catch
        (await (inferenceAPI_approve annotation) ;;
         let newUnlabeled :=
           filter_indexed
             (fun _ idx => negb (Z.of_nat idx =? currentImageIndex st))
             0 (unlabeledImages st) in
         do (setUnlabeledImages newUnlabeled) ;;
         do (setBboxes []) ;;
         do (setIsDrawingMode false) ;;
         do (setIsDrawing false) ;;
         do (setNewBbox None) ;;
         if (len newUnlabeled =? 0) then
           do (alert "All images processed!") ;;
           do (setImageObj None)
         else if (len newUnlabeled <=? currentImageIndex st) then
           do (setCurrentImageIndex (len newUnlabeled - 1))
         else
           do (setCurrentImageIndex (currentImageIndex st)))
        (fun error =>
           do (console_error "Error approving annotation:" error) ;;
           do (alert "Failed to save annotation"))
  | _, _, _ => Throw TypeError
  end.

(** The list without its entry at position [i]. *)
Definition without {A} (i : nat) (l : list A) : list A :=
  firstn i l ++ skipn (S i) l.

(** The current index points at an image of the list. *)
Definition index_valid (st : State) : Prop :=
  0 <= currentImageIndex st < len (unlabeledImages st).

(** Every box carries its position in the list as its [id]. *)
Fixpoint ids_from (idx : nat) (l : list AnnotationTool.Bbox) : Prop :=
  match l with
  | [] => True
  | b :: l' => AnnotationTool.id b = idx /\ ids_from (S idx) l'
  end.

(** How a finished run of [approveAnnotation] can have gone: the user
    declined to save an empty annotation; the server stored the
    annotation; the server refused. *)
Definition approve_declined (st : State)
    (t : list (event request response action)) : Prop :=
  bboxes st = []
  /\ In (EvConfirm empty_question false) t
  /\ Loop.requests t = [] /\ Loop.actions t = [].

Definition approve_saved (st : State) (data : Annotation)
    (t : list (event request response action)) : Prop :=
  let st' := state_of st (Loop.actions t) in
  In (EvSettle (inferenceAPI_approve data) (Fulfilled tt)) t
  /\ unlabeledImages st'
     = without (Z.to_nat (currentImageIndex st)) (unlabeledImages st)
  /\ bboxes st' = [] /\ isDrawingMode st' = false /\ isDrawing st' = false
  /\ newBbox st' = None
  /\ ((unlabeledImages st' = [] /\ imageObj st' = None
       /\ In (alert "All images processed!") (Loop.actions t))
      \/ (index_valid st' /\ imageObj st' = imageObj st)).

Definition approve_failed (st : State) (data : Annotation)
    (t : list (event request response action)) : Prop :=
  (exists e, In (EvSettle (inferenceAPI_approve data) (Rejected e)) t)
  /\ state_of st (Loop.actions t) = st
  /\ In (alert "Failed to save annotation") (Loop.actions t).

End AnnotationPage.

(* ===================================================================== *)
(** * pages/Dashboard.jsx: what the page shows during and after a run     *)
(* ===================================================================== *)

Module DashboardView.
Import Api Async Dashboard.

Local Open Scope list_scope.
Local Open Scope string_scope.

(** The state the handlers write. *)
Record View : Type := mkView {
  processingImages : bool;
  processProgress : Progress;
  logs : list LogRow;
  stats : option DashboardStats;
  loading : bool
}.

Definition apply_action (v : View) (a : action) : View :=
  match a with
  | setProcessingImages b =>
      mkView b (processProgress v) (logs v) (stats v) (loading v)
  | setProcessProgress p =>
      mkView (processingImages v) p (logs v) (stats v) (loading v)
  | setLogs rows =>
      mkView (processingImages v) (processProgress v) rows (stats v) (loading v)
  | setStats s =>
      mkView (processingImages v) (processProgress v) (logs v) s (loading v)
  | setLoading b =>
      mkView (processingImages v) (processProgress v) (logs v) (stats v) b
  | alert _ | console_error _ _ => v
  end.

(** The view after the setters of a trace have been applied. *)
Fixpoint view_after (v : View) (t : trace) : View :=
  match t with
  | [] => v
  | EvDo a :: t' => view_after (apply_action v a) t'
  | _ :: t' => view_after v t'
  end.

(** The number under the progress bar:
    [total > 0 ? Math.round((current / total) * 100) : 0]. *)
Definition percent (p : Progress) : Z :=
  if (0 <? total p)%nat
  then Math_round (inject_Z (Z.of_nat (current p)) / inject_Z (Z.of_nat (total p)) * 100)
  else 0%Z.

(** The values [setProcessProgress] is called with along a trace. *)
Fixpoint progress_updates (t : trace) : list Progress :=
  match t with
  | [] => []
  | EvDo (setProcessProgress p) :: t' => p :: progress_updates t'
  | _ :: t' => progress_updates t'
  end.

(** The messages shown with [alert] along a trace. *)
Fixpoint alerts (t : trace) : list string :=
  match t with
  | [] => []
  | EvDo (alert msg) :: t' => msg :: alerts t'
  | _ :: t' => alerts t'
  end.

(** What an event tells about a frame: [Some true] when the server has
    processed it, [Some false] when the server has refused it. *)
Definition frame_answer (e : event request response action) : option bool :=
  match e with
  | EvSettle q o =>
      match q with
      | dashboardAPI_processImage _ _ =>
          Some (match o with Fulfilled _ => true | Rejected _ => false end)
      | _ => None
      end
  | _ => None
  end.

Fixpoint processed (t : trace) : nat :=
  match t with
  | [] => 0
  | e :: t' =>
      (match frame_answer e with Some true => 1 | _ => 0 end + processed t')%nat
  end.

Fixpoint failed (t : trace) : nat :=
  match t with
  | [] => 0
  | e :: t' =>
      (match frame_answer e with Some false => 1 | _ => 0 end + failed t')%nat
  end.

(** The progress the [finally] block of [processAllImages] leaves. *)
Definition cleared : Progress := {| current := 0; total := 0; stage := EmptyString |}.

(** The message that closes a run over [processedCount + errorCount]
    frames. *)
Definition report (processedCount errorCount : nat) : string :=
  if (0 <? processedCount)%nat then
    let successMsg :=
      "Successfully processed ALL " ++ String_of_nat processedCount
      ++ " images! "
      ++ (if (0 <? errorCount)%nat
          then nl ++ "(" ++ String_of_nat errorCount ++ " failed)"
          else EmptyString) in
    successMsg ++ nl ++ nl ++ "Dashboard updated!" ++ nl ++ nl
    ++ "Note: Chart shows max 50 aggregated points covering the entire time range."
  else "No images were processed successfully. Check console for errors.".

(** A progress value the bar can show. *)
Definition bounded (p : Progress) : Prop := (current p <= total p)%nat.

(** What holds between two steps of a run that has counted
    [processedCount] and [errorCount] frames and shown the alerts [al]. *)
Definition counted (processedCount errorCount : nat) (al : list string) (h : trace)
  : Prop :=
  Forall bounded (progress_updates h)
  /\ processed h = processedCount
  /\ failed h = errorCount
  /\ List.length (issued h) = (processedCount + errorCount)%nat
  /\ alerts h = al.

Definition process_question : string :=
  "Process all images (labeled + unlabeled) to generate comprehensive analytics? This will reset existing logs. This may take a few minutes.".

(** The two requests of [loadDashboardData]. *)
Definition stats_request (st : State) (cam : Camera) : request :=
  dashboardAPI_getStats (id cam) (or_undefined (startDate st))
                        (or_undefined (endDate st)).

Definition logs_request (st : State) (cam : Camera) : request :=
  dashboardAPI_getLogs {| filter_camera_id := id cam;
                          start_date := or_undefined (startDate st);
                          end_date := or_undefined (endDate st);
                          limit := logsLimit st;
                          offset := 0 |}.

(** How a finished run of [processAllImages] that the user confirmed
    ends: the page is no longer processing, the progress is cleared, every
    frame requested has been counted once, and one alert tells the
    result. *)
Definition accounted (v : View) (h : trace) : Prop :=
  processingImages (view_after v h) = false
  /\ processProgress (view_after v h) = cleared
  /\ (processed h + failed h)%nat = List.length (issued h)
  /\ ((issued h = [] /\ alerts h = ["No images found. Please upload images first."])
      \/ (issued h = []
          /\ exists e, alerts h = ["Failed to process images: " ++ message e])
      \/ (issued h <> [] /\ alerts h = [report (processed h) (failed h)])).

(** An effect that is neither an alert nor a progress value out of
    range. *)
Definition silent (a : action) : Prop :=
  match a with
  | setProcessProgress p => bounded p
  | alert _ => False
  | _ => True
  end.

Definition not_a_frame (q : request) : Prop :=
  match q with
  | dashboardAPI_processImage _ _ => False
  | _ => True
  end.

(** ** The frames of a run

    The two listings [processAllImages] asks for, and how a finished run
    stands to them. *)
Definition listed (cam : Camera) (stats : CameraStats) (u : UnlabeledList) (t : trace)
  : Prop :=
  In (EvSettle (cameraAPI_getStats (id cam)) (Fulfilled stats)) t
  /\ In (EvSettle (inferenceAPI_getUnlabeled (id cam)) (Fulfilled u)) t.

(** The frame-processing requests for a camera with these listings: every
    labeled image by ascending index, then every unlabeled image as
    listed. *)
Definition frames_of (cam : Camera) (stats : CameraStats) (u : UnlabeledList)
  : list (Z * string) :=
  map (pair (id cam)) (frame_order stats u).

Definition run_declined (t : trace) : Prop :=
  t = [EvConfirm process_question false].

Definition listing_refused (cam : Camera) (t : trace) : Prop :=
  issued t = []
  /\ exists e,
       In (EvSettle (cameraAPI_getStats (id cam)) (Rejected e)) t
       \/ In (EvSettle (inferenceAPI_getUnlabeled (id cam)) (Rejected e)) t.

Definition all_frames_processed (cam : Camera) (t : trace) : Prop :=
  exists stats u,
    listed cam stats u t
    /\ issued t = frames_of cam stats u
    /\ in_flight t = 0%Z.

End DashboardView.


(* ===================================================================== *)
(** * pages/CameraManager.jsx: uploading images                           *)
(* ===================================================================== *)

Module CameraManager.
Import Api Async.

Local Open Scope list_scope.
Local Open Scope string_scope.

(** A dropped file: only the number of files is read. *)
Definition File : Type := string.

Record UploadProgress : Type := mkUploadProgress { current : nat; total : nat }.

(** [cameraAPI.upload] answers with the number of images stored. *)
Record UploadResult : Type := mkUploadResult { uploaded : nat }.

Inductive request : Type :=
| cameraAPI_getStats (cameraId : Z)
| cameraAPI_upload (cameraId : Z) (files : list File).

Definition response (q : request) : Type :=
  match q with
  | cameraAPI_getStats _ => CameraStats
  | cameraAPI_upload _ _ => UploadResult
  end.

Record State : Type := mkState {
  selectedCamera : option Camera;
  cameraStats : option CameraStats;
  uploadProgress : option UploadProgress
}.

Inductive action : Type :=
| setCameraStats (s : option CameraStats)
| setUploadProgress (p : option UploadProgress)
| alert (msg : string)
| console_error (msg : string) (e : error).

Definition apply_action (st : State) (a : action) : State :=
  match a with
  | setCameraStats s => mkState (selectedCamera st) s (uploadProgress st)
  | setUploadProgress p => mkState (selectedCamera st) (cameraStats st) p
  | alert _ | console_error _ _ => st
  end.

Definition trace : Type := list (event request response action).

Fixpoint state_after (st : State) (t : trace) : State :=
  match t with
  | [] => st
  | EvDo a :: t' => state_after (apply_action st a) t'
  | _ :: t' => state_after st t'
  end.

Local Open Scope prog_scope.

Definition loadCameraStats (cameraId : Z) : prog request response action unit :=
  try_catch
    (response <- await (cameraAPI_getStats cameraId) ;;
     do (setCameraStats (Some response)))
    (fun error => do (console_error "Error loading stats:" error)).

Definition no_camera : string := "Please select a camera first".

Definition uploaded_message (r : UploadResult) : string :=
  "Uploaded " ++ String_of_nat (uploaded r) ++ " images successfully!".

Definition onDrop (st : State) (acceptedFiles : list File)
  : prog request response action unit :=
  match selectedCamera st with
  | None => do (alert no_camera)
  | Some cam =>
      do (setUploadProgress
            (Some {| current := 0; total := List.length acceptedFiles |})) ;;
      try_finally
        (try_catch
           (response <- await (cameraAPI_upload (id cam) acceptedFiles) ;;
            do (alert (uploaded_message response)) ;;
            loadCameraStats (id cam))
           (fun error =>
              do (console_error "Error uploading files:" error) ;;
              do (alert "Failed to upload images")))
        (do (setUploadProgress None))
  end.

(** The messages shown with [alert] along a trace. *)
Fixpoint alerts (t : trace) : list string :=
  match t with
  | [] => []
  | EvDo (alert msg) :: t' => msg :: alerts t'
  | _ :: t' => alerts t'
  end.

End CameraManager.

(* ===================================================================== *)
(** * More sample data                                                    *)
(* ===================================================================== *)

Module MoreSamples.

Local Open Scope string_scope.

(** The clock of a browser one hour further east than [Samples.clock]. *)
Definition clock_east (t : nat) : string := Samples.clock (t + 60).

(** The zone page of [Samples.triangle] before its image has loaded. *)
Definition photo : ZoneDrawer.Image :=
  {| ZoneDrawer.width := 1280; ZoneDrawer.height := 720 |}.

(** Three clicks on the stage. *)
Definition three_clicks : list (Q * Q) := [(10, 20); (300, 40); (150, 200)]%Q.

(** Deleting the zone of camera 1: the user confirms, the server deletes. *)
Definition delete_run
  : list (Async.event ZoneEdit.request ZoneEdit.response ZoneDrawer.action) :=
  [ Async.EvConfirm ZoneEdit.delete_question true;
    Async.EvIssue (ZoneEdit.zoneAPI_delete 1);
    Async.EvSettle (ZoneEdit.zoneAPI_delete 1) (Async.Fulfilled tt);
    Async.EvDo (ZoneDrawer.setPoints []);
    Async.EvDo (ZoneDrawer.setExistingZone None);
    Async.EvDo (ZoneDrawer.alert "Zone deleted successfully") ].

(** The annotation tool on the first of two unlabeled images, 1280x720
    shown at half size, with three detections of which the second has been
    rejected, ready to draw. *)
Definition box (i : nat) (x y : Q) (ok : bool) : AnnotationTool.Bbox :=
  {| AnnotationTool.id := i;
     AnnotationTool.x1 := x; AnnotationTool.y1 := y;
     AnnotationTool.x2 := x + 50; AnnotationTool.y2 := y + 120;
     AnnotationTool.approved := ok;
     AnnotationTool.confidence := Some (9 # 10) |}.

Definition frame_a : AnnotationPage.UnlabeledImage :=
  {| AnnotationPage.filename := "frame_a.jpg";
     AnnotationPage.path := "cameras/1/unlabeled/frame_a.jpg" |}.
Definition frame_b : AnnotationPage.UnlabeledImage :=
  {| AnnotationPage.filename := "frame_b.jpg";
     AnnotationPage.path := "cameras/1/unlabeled/frame_b.jpg" |}.

Definition entrance : AnnotationPage.Camera :=
  {| AnnotationPage.id := 1; AnnotationPage.name := "Entrance" |}.

Definition picture : AnnotationTool.Image :=
  {| AnnotationTool.width := 1280; AnnotationTool.height := 720 |}.

Definition annotating : AnnotationPage.State :=
  {| AnnotationPage.selectedCamera := Some entrance;
     AnnotationPage.unlabeledImages := [frame_a; frame_b];
     AnnotationPage.currentImageIndex := 0;
     AnnotationPage.imageObj := Some picture;
     AnnotationPage.bboxes :=
       [box 0 100 100 true; box 1 400 100 false; box 2 700 100 true];
     AnnotationPage.inferenceResults := None;
     AnnotationPage.dimensions :=
       {| AnnotationPage.canvas_width := 640; AnnotationPage.canvas_height := 360 |};
     AnnotationPage.isDrawingMode := true;
     AnnotationPage.newBbox := None;
     AnnotationPage.isDrawing := false |}.

(** A drag on the stage from (10, 20) to (110, 220). *)
Definition drag_from : Q * Q := (10, 20)%Q.
Definition drag_to : Q * Q := (110, 220)%Q.

(** The first box is deleted, then the drag is made up to the release of
    the button. *)
Definition dragging_after_delete : AnnotationPage.State :=
  AnnotationPage.handleMouseMove
    (AnnotationPage.handleMouseDown (AnnotationPage.deleteBbox annotating 0) drag_from)
    drag_to.

(** Approving the annotation of [frame_a]: the server stores it. *)
Definition approve_data : AnnotationPage.Annotation :=
  AnnotationPage.annotation_of annotating entrance frame_a picture.

Definition approve_run
  : list (Async.event AnnotationPage.request AnnotationPage.response
                      AnnotationPage.action) :=
  [ Async.EvIssue (AnnotationPage.inferenceAPI_approve approve_data);
    Async.EvSettle (AnnotationPage.inferenceAPI_approve approve_data)
                   (Async.Fulfilled tt);
    Async.EvDo (AnnotationPage.setUnlabeledImages [frame_b]);
    Async.EvDo (AnnotationPage.setBboxes []);
    Async.EvDo (AnnotationPage.setIsDrawingMode false);
    Async.EvDo (AnnotationPage.setIsDrawing false);
    Async.EvDo (AnnotationPage.setNewBbox None);
    Async.EvDo (AnnotationPage.setCurrentImageIndex 0) ].

(** The dashboard as first shown. *)
Definition first_view : DashboardView.View :=
  {| DashboardView.processingImages := false;
     DashboardView.processProgress := DashboardView.cleared;
     DashboardView.logs := [];
     DashboardView.stats := None;
     DashboardView.loading := false |}.

(** Loading the dashboard of camera 1: the statistics arrive, the logs
    are refused. *)
Definition load_run : Dashboard.trace :=
  [ Async.EvDo (Dashboard.setLoading true);
    Async.EvIssue (Api.dashboardAPI_getStats 1 None None);
    Async.EvSettle (Api.dashboardAPI_getStats 1 None None)
                   (Async.Fulfilled (Chart.mkStats None));
    Async.EvDo (Dashboard.setStats (Some (Chart.mkStats None)));
    Async.EvIssue (Api.dashboardAPI_getLogs Samples.no_filter_logs);
    Async.EvSettle (Api.dashboardAPI_getLogs Samples.no_filter_logs)
                   (Async.Rejected Samples.server_error);
    Async.EvDo (Dashboard.console_error "Error loading dashboard data:"
                                        Samples.server_error);
    Async.EvDo (Dashboard.setLoading false) ].

(** The camera page with camera 1 selected, and with none. *)
Definition camera_page : CameraManager.State :=
  {| CameraManager.selectedCamera := Some Samples.camera1;
     CameraManager.cameraStats := None;
     CameraManager.uploadProgress := None |}.

Definition no_camera_page : CameraManager.State :=
  {| CameraManager.selectedCamera := None;
     CameraManager.cameraStats := None;
     CameraManager.uploadProgress := None |}.

Definition two_files : list CameraManager.File := ["a.jpg"; "b.jpg"].

(** Dropping two files: both are stored, the statistics are reloaded. *)
Definition drop_run : CameraManager.trace :=
  [ Async.EvDo (CameraManager.setUploadProgress
                  (Some {| CameraManager.current := 0; CameraManager.total := 2 |}));
    Async.EvIssue (CameraManager.cameraAPI_upload 1 two_files);
    Async.EvSettle (CameraManager.cameraAPI_upload 1 two_files)
                   (Async.Fulfilled {| CameraManager.uploaded := 2 |});
    Async.EvDo (CameraManager.alert "Uploaded 2 images successfully!");
    Async.EvIssue (CameraManager.cameraAPI_getStats 1);
    Async.EvSettle (CameraManager.cameraAPI_getStats 1)
                   (Async.Fulfilled Samples.one_labeled);
    Async.EvDo (CameraManager.setCameraStats (Some Samples.one_labeled));
    Async.EvDo (CameraManager.setUploadProgress None) ].

End MoreSamples.

(* ===================================================================== *)
(** * Facts about the JavaScript primitives                               *)
(* ===================================================================== *)

Lemma Math_round_div (s n : Z) :
  0 < n -> Math_round (num s / num n) = (2 * s + n) / (2 * n).
Proof.
  intros Hn. unfold Math_round, num.
  rewrite Zdiv_Qdiv. apply Qfloor_comp.
  rewrite !inject_Z_plus, !inject_Z_mult. simpl (inject_Z 2).
  field. intros E.
  pose proof (proj1 (inject_Z_injective n 0) E). lia.
Qed.

Lemma Math_round_nearest (s n : Z) :
  0 < n ->
  let r := Math_round (num s / num n) in
  2 * n * r <= 2 * s + n < 2 * n * (r + 1).
Proof.
  intros Hn r. subst r. rewrite Math_round_div by assumption.
  pose proof (Z.div_mod (2 * s + n) (2 * n) ltac:(lia)) as E.
  pose proof (Z.mod_pos_bound (2 * s + n) (2 * n) ltac:(lia)) as B.
  nia.
Qed.

Lemma Math_ceil_div (a b : Z) :
  0 < b -> Math_ceil (num a / num b) = - ((- a) / b).
Proof.
  intros Hb. unfold Math_ceil, Qceiling, num. f_equal.
  rewrite Zdiv_Qdiv. apply Qfloor_comp.
  rewrite inject_Z_opp. field. intros E.
  pose proof (proj1 (inject_Z_injective b 0) E). lia.
Qed.

Lemma Math_ceil_bounds (a b : Z) :
  0 < b ->
  let c := Math_ceil (num a / num b) in
  b * (c - 1) < a <= b * c.
Proof.
  intros Hb c. subst c. rewrite Math_ceil_div by assumption.
  pose proof (Z.div_mod (- a) b ltac:(lia)) as E.
  pose proof (Z.mod_pos_bound (- a) b Hb) as B.
  nia.
Qed.

(** Normalises [length (x :: l)] without touching subtractions. *)
Ltac len_cons := rewrite ?length_cons in *.

Lemma slice_from {A} (l : list A) (i c : nat) :
  slice l i (i + c) = firstn c (skipn i l).
Proof. unfold slice. f_equal. lia. Qed.

Lemma in_firstn {A} (l : list A) (n : nat) (a : A) : In a (firstn n l) -> In a l.
Proof.
  revert n. induction l as [|b l IH]; intros [|n]; simpl; try tauto.
  intros [H|H]; [auto | right; eapply IH; exact H].
Qed.

Lemma in_skipn {A} (l : list A) (n : nat) (a : A) : In a (skipn n l) -> In a l.
Proof.
  revert n. induction l as [|b l IH]; intros [|n]; simpl; try tauto.
  intros H. right. eapply IH; exact H.
Qed.

(* ===================================================================== *)
(** * Dashboard.jsx: prepareChartData                                     *)
(* ===================================================================== *)

Section ChartFacts.
Import Chart.

Variable timestamp_t : Type.
Variable format_HHmm : timestamp_t -> string.

Local Abbreviation point := (TimeSeriesPoint timestamp_t).

Lemma reduce_sum_from (f : point -> Z) (chunk : list point) (a : Z) :
  fold_left (fun sum item => sum + f item) chunk a
  = a + fold_right Z.add 0 (map f chunk).
Proof.
  revert a. induction chunk as [|x chunk IH]; intros a; simpl.
  - lia.
  - rewrite IH. lia.
Qed.

Lemma reduce_sum_map (f : point -> Z) (chunk : list point) :
  reduce_sum f chunk = fold_right Z.add 0 (map f chunk).
Proof. unfold reduce_sum. rewrite reduce_sum_from. lia. Qed.

Lemma avg_nearest (f : point -> Z) (chunk : list point) :
  chunk <> [] -> nearest_to_mean f chunk (avg f chunk).
Proof.
  intros Hne. unfold nearest_to_mean, avg.
  rewrite <- reduce_sum_map.
  apply Math_round_nearest.
  unfold len. destruct chunk; [congruence | simpl; lia].
Qed.

Lemma aggregate_chunk_summarises (chunk : list point) (p : ChartPoint) :
  aggregate_chunk format_HHmm chunk = Some p -> summarises format_HHmm chunk p.
Proof.
  destruct chunk as [|first rest]; simpl; intros E; [discriminate|].
  injection E as <-. unfold summarises; simpl.
  repeat split; try apply (avg_nearest _ (first :: rest)); discriminate.
Qed.

Lemma aggregate_chunk_nonempty (chunk : list point) :
  chunk <> [] -> exists p, aggregate_chunk format_HHmm chunk = Some p.
Proof. destruct chunk; [congruence | simpl; eauto]. Qed.

(** ** The chunks *)

Lemma chunks_upto_nil (fuel c : nat) : chunks_upto fuel c ([] : list point) = [].
Proof. destruct fuel; reflexivity. Qed.

Lemma chunks_upto_concat (fuel c : nat) (l : list point) :
  (0 < c)%nat -> (List.length l <= fuel)%nat -> List.concat (chunks_upto fuel c l) = l.
Proof.
  intros Hc. revert l. induction fuel as [|fuel IH]; intros l Hl.
  - destruct l; [reflexivity | simpl in Hl; lia].
  - destruct l as [|x l]; [reflexivity|].
    change (chunks_upto (S fuel) c (x :: l))
      with (firstn c (x :: l) :: chunks_upto fuel c (skipn c (x :: l))).
    rewrite concat_cons, IH.
    + apply firstn_skipn.
    + rewrite length_skipn. len_cons. lia.
Qed.

Lemma chunks_upto_fuel (fuel fuel' c : nat) (l : list point) :
  (0 < c)%nat -> (List.length l <= fuel)%nat -> (List.length l <= fuel')%nat ->
  chunks_upto fuel c l = chunks_upto fuel' c l.
Proof.
  intros Hc. revert fuel' l. induction fuel as [|fuel IH]; intros fuel' l H1 H2.
  - destruct l; [now rewrite !chunks_upto_nil | simpl in H1; lia].
  - destruct l as [|x l]; [now rewrite !chunks_upto_nil|].
    destruct fuel' as [|fuel']; [simpl in H2; lia|].
    change (chunks_upto (S fuel) c (x :: l))
      with (firstn c (x :: l) :: chunks_upto fuel c (skipn c (x :: l))).
    change (chunks_upto (S fuel') c (x :: l))
      with (firstn c (x :: l) :: chunks_upto fuel' c (skipn c (x :: l))).
    f_equal. apply IH; rewrite length_skipn; len_cons; lia.
Qed.

(** Shape of the cut: full chunks followed by one last chunk. *)
Lemma chunks_upto_shape (fuel c : nat) (l : list point) :
  (0 < c)%nat -> (List.length l <= fuel)%nat -> l <> [] ->
  exists full last_chunk,
    chunks_upto fuel c l = full ++ [last_chunk]
    /\ Forall (fun chunk => List.length chunk = c) full
    /\ (1 <= List.length last_chunk <= c)%nat.
Proof.
  intros Hc. revert l. induction fuel as [|fuel IH]; intros l Hl Hne.
  - destruct l; [congruence | simpl in Hl; lia].
  - destruct l as [|x l]; [congruence|].
    change (chunks_upto (S fuel) c (x :: l))
      with (firstn c (x :: l) :: chunks_upto fuel c (skipn c (x :: l))).
    destruct (skipn c (x :: l)) as [|y r] eqn:Er.
    + exists [], (firstn c (x :: l)). rewrite chunks_upto_nil.
      repeat split; [constructor | |].
      * rewrite length_firstn. simpl. lia.
      * rewrite length_firstn. lia.
    + assert (Hlen : (c < List.length (x :: l))%nat).
      { destruct (Nat.lt_ge_cases c (List.length (x :: l))) as [?|G]; [assumption|].
        apply skipn_all2 in G. congruence. }
      destruct (IH (y :: r)) as (full & lst & E & Hfull & Hlast).
      * rewrite <- Er, length_skipn. len_cons. lia.
      * discriminate.
      * exists (firstn c (x :: l) :: full), lst. rewrite E.
        repeat split; try lia.
        constructor; [|assumption].
        rewrite length_firstn. lia.
Qed.

Lemma chunks_upto_count (fuel c : nat) (l : list point) :
  (0 < c)%nat -> (List.length l <= fuel)%nat ->
  (c * List.length (chunks_upto fuel c l) < List.length l + c)%nat.
Proof.
  intros Hc. revert l. induction fuel as [|fuel IH]; intros l Hl.
  - destruct l; simpl in *; lia.
  - destruct l as [|x l]; [simpl; lia|].
    change (chunks_upto (S fuel) c (x :: l))
      with (firstn c (x :: l) :: chunks_upto fuel c (skipn c (x :: l))).
    simpl List.length at 1.
    assert (Hs : (List.length (skipn c (x :: l)) <= fuel)%nat)
      by (rewrite length_skipn; len_cons; lia).
    specialize (IH _ Hs). rewrite length_skipn in IH.
    destruct (Nat.le_gt_cases c (List.length (x :: l))) as [G|G].
    + nia.
    + rewrite skipn_all2, chunks_upto_nil by lia. simpl List.length. nia.
Qed.

(** ** The loop *)

Lemma aggregate_loop_chunks (fuel : nat) (ts : list point) (c i : nat)
    (agg : list ChartPoint) :
  (0 < c)%nat -> (List.length ts - i <= fuel)%nat ->
  exists out,
    aggregate_loop format_HHmm fuel ts c i agg = Returned (agg ++ out)
    /\ Forall2 (summarises format_HHmm) (chunks_upto fuel c (skipn i ts)) out.
Proof.
  intros Hc. revert i agg. induction fuel as [|fuel IH]; intros i agg Hfuel.
  - simpl. destruct (Nat.ltb_spec i (List.length ts)); [lia|].
    exists []. rewrite app_nil_r. split; [reflexivity|].
    rewrite skipn_all2 by lia. constructor.
  - simpl aggregate_loop. destruct (Nat.ltb_spec i (List.length ts)) as [Hi|Hi].
    + rewrite slice_from.
      destruct (skipn i ts) as [|x r] eqn:Er.
      { apply skipn_all_iff in Er. lia. }
      destruct (aggregate_chunk_nonempty (firstn c (x :: r))) as [p Ep].
      { destruct c; [lia | discriminate]. }
      rewrite Ep.
      destruct (IH (i + c)%nat (agg ++ [p]) ltac:(lia)) as (out & Eout & Hout).
      exists (p :: out). split.
      * rewrite Eout, <- app_assoc. reflexivity.
      * change (chunks_upto (S fuel) c (x :: r))
          with (firstn c (x :: r) :: chunks_upto fuel c (skipn c (x :: r))).
        constructor.
        -- now apply aggregate_chunk_summarises.
        -- rewrite <- Er, skipn_skipn, (Nat.add_comm c i). exact Hout.
    + exists []. rewrite app_nil_r. split; [reflexivity|].
      rewrite skipn_all2 by lia. rewrite chunks_upto_nil. constructor.
Qed.

Lemma chunkSize_of_spec (ts : list point) :
  chunkSize_of ts = ceil_div50 (List.length ts).
Proof.
  unfold chunkSize_of, ceil_div50, maxPoints, len.
  rewrite Math_ceil_div by lia.
  set (N := List.length ts).
  apply Nat2Z.inj. rewrite Nat2Z.inj_div, Nat2Z.inj_add. simpl (Z.of_nat 49). simpl (Z.of_nat 50).
  pose proof (Z.div_mod (- Z.of_nat N) 50 ltac:(lia)) as E1.
  pose proof (Z.mod_pos_bound (- Z.of_nat N) 50 ltac:(lia)) as B1.
  pose proof (Z.div_mod (Z.of_nat N + 49) 50 ltac:(lia)) as E2.
  pose proof (Z.mod_pos_bound (Z.of_nat N + 49) 50 ltac:(lia)) as B2.
  rewrite Z2Nat.id by lia. lia.
Qed.

Lemma ceil_div50_bounds (N : nat) :
  (50 * (ceil_div50 N - 1) < N + 50 /\ N <= 50 * ceil_div50 N)%nat.
Proof.
  unfold ceil_div50.
  pose proof (Nat.div_mod_eq (N + 49) 50) as E.
  pose proof (Nat.mod_upper_bound (N + 49) 50 ltac:(lia)) as B.
  lia.
Qed.

Local Abbreviation stats_of ts := (Some (mkStats (Some ts))).

Lemma prepareChartData_large (ts : list point) :
  (50 < List.length ts)%nat ->
  prepareChartData format_HHmm (stats_of ts)
  = aggregate_loop format_HHmm (List.length ts) ts (chunkSize_of ts) 0 [].
Proof.
  intros H. cbv beta iota delta [prepareChartData time_series].
  assert (E1 : (len ts =? 0) = false) by (apply Z.eqb_neq; unfold len; lia).
  assert (E2 : (len ts <=? maxPoints) = false)
    by (apply Z.leb_gt; unfold len, maxPoints; lia).
  now rewrite E1, E2.
Qed.

Lemma prepareChartData_fits (ts : list point) :
  (List.length ts <= 50)%nat ->
  prepareChartData format_HHmm (stats_of ts) = Returned (show_all format_HHmm ts).
Proof.
  intros H. cbv beta iota delta [prepareChartData time_series].
  destruct ts as [|item ts]; [reflexivity|].
  assert (E1 : (len (item :: ts) =? 0) = false)
    by (apply Z.eqb_neq; unfold len; simpl; lia).
  assert (E2 : (len (item :: ts) <=? maxPoints) = true)
    by (apply Z.leb_le; unfold len, maxPoints; lia).
  now rewrite E1, E2.
Qed.

Lemma chunkSize_of_pos (ts : list point) :
  ts <> [] -> (0 < chunkSize_of ts)%nat.
Proof.
  intros Hne. rewrite chunkSize_of_spec.
  pose proof (ceil_div50_bounds (List.length ts)) as [_ B].
  destruct ts; [congruence | simpl in *; lia].
Qed.

Lemma prepareChartData_chunks (ts : list point) :
  (50 < List.length ts)%nat ->
  exists out,
    prepareChartData format_HHmm (stats_of ts) = Returned out
    /\ Forall2 (summarises format_HHmm) (chunks_of (chunkSize_of ts) ts) out.
Proof.
  intros H. rewrite prepareChartData_large by assumption.
  assert (Hne : ts <> []) by (destruct ts; [simpl in H; lia | discriminate]).
  destruct (aggregate_loop_chunks (List.length ts) ts
              (chunkSize_of ts) 0 [] (chunkSize_of_pos ts Hne) ltac:(lia))
    as (out & E & F).
  exists out. split; [exact E | exact F].
Qed.

Lemma prepareChartData_returns (stats : option (Stats timestamp_t)) :
  exists out, prepareChartData format_HHmm stats = Returned out.
Proof.
  destruct stats as [[[ts|]]|]; try (eexists; reflexivity).
  destruct (Nat.le_gt_cases (List.length ts) 50) as [H|H].
  - eexists. now apply prepareChartData_fits.
  - destruct (prepareChartData_chunks ts H) as (out & E & _). eauto.
Qed.

Lemma length_concat_uniform {A} (c : nat) (chunks : list (list A)) :
  Forall (fun chunk => List.length chunk = c) chunks ->
  List.length (List.concat chunks) = (c * List.length chunks)%nat.
Proof.
  induction 1 as [|x xs Hx _ IH]; simpl; [lia|].
  rewrite length_app, IH, Hx. lia.
Qed.

(** C6. A series of at most 50 points is not compressed: the chart gets one
    point per item, in the same order, carrying the item's two counts
    unchanged (and its formatted timestamp). *)
Theorem prepareChartData_no_compression (ts : list point) :
  (List.length ts <= 50)%nat ->
  exists out,
    prepareChartData format_HHmm (stats_of ts) = Returned out
    /\ List.length out = List.length ts
    /\ Forall2 (fun item p =>
                  Total_People p = total_people item
                  /\ In_Zone p = people_in_zone item
                  /\ time p = format_HHmm (timestamp item)) ts out.
Proof.
  intros H. exists (show_all format_HHmm ts).
  split; [now apply prepareChartData_fits|].
  unfold show_all. split; [apply length_map|].
  clear H. induction ts as [|item ts IH]; simpl; constructor; auto.
Qed.

(** C2. Whatever the [stats] state holds, [prepareChartData] returns, and
    returns at most 50 chart points. *)
Theorem prepareChartData_at_most_50 (stats : option (Stats timestamp_t)) :
  exists out,
    prepareChartData format_HHmm stats = Returned out
    /\ (List.length out <= 50)%nat.
Proof.
  destruct stats as [[[ts|]]|]; try (exists []; split; [reflexivity | simpl; lia]).
  destruct (Nat.le_gt_cases (List.length ts) 50) as [H|H].
  - exists (show_all format_HHmm ts). split; [now apply prepareChartData_fits|].
    unfold show_all. rewrite length_map. exact H.
  - destruct (prepareChartData_chunks ts H) as (out & E & F).
    exists out. split; [exact E|].
    apply Forall2_length in F. rewrite <- F. unfold chunks_of.
    assert (Hne : ts <> []) by (destruct ts; [simpl in H; lia | discriminate]).
    pose proof (chunkSize_of_pos ts Hne) as Hc.
    pose proof (chunks_upto_count (List.length ts) (chunkSize_of ts) ts
                  Hc (Nat.le_refl _)) as Hcount.
    rewrite chunkSize_of_spec in *.
    pose proof (ceil_div50_bounds (List.length ts)) as [_ B].
    nia.
Qed.

(** C1, as the loop does it. A series of more than 50 points is cut, in
    order, into chunks of [ceil(N/50)] points, the last chunk holding the
    one to [ceil(N/50)] points that remain; each chunk gives one chart
    point with the chunk's first timestamp and, for both counts, the mean
    over the chunk rounded to the nearest integer. *)
Theorem prepareChartData_compresses (ts : list point) :
  (50 < List.length ts)%nat ->
  exists out,
    prepareChartData format_HHmm (stats_of ts) = Returned out
    /\ compressed_in_chunks format_HHmm ts out.
Proof.
  intros H.
  destruct (prepareChartData_chunks ts H) as (out & E & F).
  exists out. split; [exact E|].
  assert (Hne : ts <> []) by (destruct ts; [simpl in H; lia | discriminate]).
  pose proof (chunkSize_of_pos ts Hne) as Hc.
  unfold chunks_of in F.
  destruct (chunks_upto_shape (List.length ts) (chunkSize_of ts) ts
              Hc (Nat.le_refl _) Hne) as (full & lst & Ecs & Hfull & Hlast).
  exists full, lst. rewrite <- Ecs, <- chunkSize_of_spec.
  repeat split; try assumption; try lia.
  apply chunks_upto_concat; [assumption | lia].
Qed.

End ChartFacts.

(** ** Two runs of the compression *)

Section ChartRuns.
Import Chart.

Variable timestamp_t : Type.

(** The date formatting of two runs: [format] reads the time zone of the
    browser the run is made in. *)
Variables format_1 format_2 : timestamp_t -> string.

Local Abbreviation point := (TimeSeriesPoint timestamp_t).

Lemma aggregate_chunk_counts (chunk : list point) :
  option_map counts (aggregate_chunk format_1 chunk)
  = option_map counts (aggregate_chunk format_2 chunk).
Proof. destruct chunk; reflexivity. Qed.

Lemma aggregate_chunk_agree (chunk : list point) :
  (forall item, In item chunk -> format_1 (timestamp item) = format_2 (timestamp item)) ->
  aggregate_chunk format_1 chunk = aggregate_chunk format_2 chunk.
Proof.
  destruct chunk as [|first chunk]; [reflexivity|]. intros H.
  cbn [aggregate_chunk]. rewrite (H first) by (left; reflexivity). reflexivity.
Qed.

Lemma aggregate_loop_counts (fuel : nat) (ts : list point) (c i : nat)
    (agg1 agg2 : list ChartPoint) :
  map counts agg1 = map counts agg2 ->
  match aggregate_loop format_1 fuel ts c i agg1,
        aggregate_loop format_2 fuel ts c i agg2 with
  | Returned out1, Returned out2 => map counts out1 = map counts out2
  | Threw, Threw => True
  | OutOfFuel, OutOfFuel => True
  | _, _ => False
  end.
Proof.
  revert i agg1 agg2. induction fuel as [|fuel IH]; intros i agg1 agg2 H;
    cbn [aggregate_loop]; destruct (i <? List.length ts)%nat; auto.
  pose proof (aggregate_chunk_counts (slice ts i (i + c))) as K.
  destruct (aggregate_chunk format_1 (slice ts i (i + c))) as [p1|],
           (aggregate_chunk format_2 (slice ts i (i + c))) as [p2|];
    cbn [option_map] in K; try discriminate; auto.
  apply IH. rewrite !map_app, H. cbn [map]. congruence.
Qed.

Lemma aggregate_loop_agree (fuel : nat) (ts : list point) (c i : nat)
    (agg : list ChartPoint) :
  (forall item, In item ts -> format_1 (timestamp item) = format_2 (timestamp item)) ->
  aggregate_loop format_1 fuel ts c i agg = aggregate_loop format_2 fuel ts c i agg.
Proof.
  intros H. revert i agg. induction fuel as [|fuel IH]; intros i agg;
    cbn [aggregate_loop]; destruct (i <? List.length ts)%nat; auto.
  rewrite (aggregate_chunk_agree (slice ts i (i + c))).
  - destruct (aggregate_chunk format_2 (slice ts i (i + c))); auto.
  - intros item Hin. apply H. unfold slice in Hin.
    eapply in_skipn, in_firstn, Hin.
Qed.

Lemma show_all_counts (ts : list point) :
  map counts (show_all format_1 ts) = map counts (show_all format_2 ts).
Proof. unfold show_all. rewrite !map_map. reflexivity. Qed.

Lemma show_all_agree (ts : list point) :
  (forall item, In item ts -> format_1 (timestamp item) = format_2 (timestamp item)) ->
  show_all format_1 ts = show_all format_2 ts.
Proof.
  intros H. unfold show_all. apply map_ext_in. intros item Hin.
  now rewrite (H item Hin).
Qed.


End ChartRuns.

(* ===================================================================== *)
(** * services/api.js: getImageURL                                        *)
(* ===================================================================== *)

Section ApiFacts.
Import Api.
Local Open Scope string_scope.

Variable API_BASE_URL : string.

Lemma startsWith_append (pre s : string) : startsWith (pre ++ s) pre = true.
Proof.
  unfold startsWith. induction pre as [|c pre IH]; simpl.
  - destruct s; reflexivity.
  - destruct (ascii_dec c c); [exact IH | congruence].
Qed.

Lemma image_path_prefixed (imagePath : string) :
  startsWith (image_path imagePath) "cameras/" = true.
Proof.
  unfold image_path.
  destruct (startsWith imagePath "cameras/") eqn:E; [exact E|].
  apply startsWith_append.
Qed.

(** C10. [getImageURL] returns [API_BASE_URL + '/' + p] where [p] starts
    with ['cameras/']: [p] is the input itself when that already starts
    with ['cameras/'], the input prefixed with ['cameras/'] otherwise; and
    prefixing twice is prefixing once. *)
Theorem getImageURL_prefix_rule (imagePath : string) :
  getImageURL API_BASE_URL imagePath
  = API_BASE_URL ++ "/" ++ image_path imagePath
  /\ startsWith (image_path imagePath) "cameras/" = true
  /\ image_path imagePath
     = (if startsWith imagePath "cameras/" then imagePath
        else "cameras/" ++ imagePath)
  /\ image_path (image_path imagePath) = image_path imagePath.
Proof.
  repeat split.
  - apply image_path_prefixed.
  - unfold image_path at 1. now rewrite image_path_prefixed.
Qed.

End ApiFacts.

(* ===================================================================== *)
(** * pages/CameraManager.jsx: handleMouseUp                              *)
(* ===================================================================== *)

Section AnnotationFacts.
Import AnnotationTool.

Lemma gt_spec (a b : Q) : gt a b = true <-> (b < a)%Q.
Proof.
  unfold gt. rewrite negb_true_iff, <- not_true_iff_false, Qle_bool_iff.
  split; [apply Qnot_le_lt | apply Qlt_not_le].
Qed.

Lemma span_of_extremes (a b : Q) : (Qmax a b - Qmin a b == Qabs (b - a))%Q.
Proof.
  destruct (Qlt_le_dec b a) as [H|H].
  - rewrite (Q.max_l a b), (Q.min_r a b) by (apply Qlt_le_weak; exact H).
    rewrite Qabs_neg; [ring|].
    apply Qlt_le_weak. rewrite <- (Qplus_opp_r a).
    apply Qplus_lt_l. exact H.
  - rewrite (Q.max_r a b), (Q.min_l a b) by exact H.
    rewrite Qabs_pos; [reflexivity|].
    rewrite <- (Qplus_opp_r a). apply Qplus_le_compat; [exact H | apply Qle_refl].
Qed.

Lemma wide_enough (a b : Q) :
  (10 < Qabs (b - a))%Q ->
  (Qmin a b < Qmax a b /\ 10 < Qmax a b - Qmin a b)%Q.
Proof.
  intros H. rewrite <- span_of_extremes in H. split; [|exact H].
  apply (Qplus_lt_l _ _ (- Qmin a b)). rewrite Qplus_opp_r.
  eapply Qlt_trans; [|exact H]. reflexivity.
Qed.

(** C9. A box committed by [handleMouseUp] is normalised and not
    degenerate ([x1 < x2], [y1 < y2], both sides longer than 10 px); at most
    one box is added per call, and none when the drag is 10 px or less wide
    or high. *)
Theorem handleMouseUp_commits_well_formed (st : State) :
  exists added : list Bbox,
    bboxes (handleMouseUp st) = bboxes st ++ added
    /\ (List.length added <= 1)%nat
    /\ Forall well_formed added
    /\ (forall drag, newBbox st = Some drag ->
          (Qabs (NewBbox.x2 drag - NewBbox.x1 drag) <= 10
           \/ Qabs (NewBbox.y2 drag - NewBbox.y1 drag) <= 10)%Q ->
          added = []).
Proof.
  unfold handleMouseUp.
  destruct (isDrawing st) eqn:Ed; [|exists []; rewrite app_nil_r; auto].
  destruct (newBbox st) as [nb|] eqn:En; [|exists []; rewrite app_nil_r; auto].
  destruct (imageObj st) as [img|] eqn:Ei; [|exists []; rewrite app_nil_r; auto].
  cbv zeta.
  destruct (gt (Qabs (NewBbox.x2 nb - NewBbox.x1 nb)) minSize) eqn:Ew;
  destruct (gt (Qabs (NewBbox.y2 nb - NewBbox.y1 nb)) minSize) eqn:Eh;
    cbn [andb bboxes];
    try (exists []; rewrite app_nil_r; auto; fail).
  eexists [_]. split; [reflexivity|]. split; [simpl; lia|].
  apply gt_spec in Ew, Eh. unfold minSize in *.
  split.
  - constructor; [|constructor]. unfold well_formed; cbn [x1 x2 y1 y2].
    destruct (wide_enough _ _ Ew), (wide_enough _ _ Eh). auto.
  - intros drag [= <-] [H|H]; exfalso;
      [apply (Qlt_not_le _ _ Ew) | apply (Qlt_not_le _ _ Eh)]; exact H.
Qed.

End AnnotationFacts.

(* ===================================================================== *)
(** * The event loop: every trace of an awaiting function                 *)
(* ===================================================================== *)

Section AsyncFacts.
Import Async.

Variable req : Type.
Variable resp : req -> Type.
Variable act : Type.

Local Abbreviation prog := (Async.prog req resp act).
Local Abbreviation event := (Async.event req resp act).
Local Abbreviation config := (Async.config req resp act).

Section Post.

Variable Qr : unit -> list event -> Prop.
Variable Qe : error -> list event -> Prop.
Variable Inv : list event -> Prop.

Lemma all_traces_inv {R} (p : Async.prog req resp act R) h Q1 Q2 :
  all_traces p h Q1 Q2 Inv -> Inv h.
Proof. destruct p; simpl; tauto. Qed.

Lemma cfg_ok_inv h c : cfg_ok Qr Qe Inv h c -> Inv h.
Proof.
  unfold cfg_ok. destruct c as [[|p [|]] [|s [|]]]; simpl; try tauto.
  apply all_traces_inv.
Qed.

Lemma cfg_ok_step h c l c' :
  cfg_ok Qr Qe Inv h c -> step c l c' -> cfg_ok Qr Qe Inv (h ++ l) c'.
Proof.
  intros H S. destruct S; unfold cfg_ok in *; simpl in *.
  - destruct stk; [destruct w; [|contradiction]|contradiction].
    rewrite app_nil_r. destruct H as [Hi Hq]. eauto.
  - destruct stk; [destruct w; [|contradiction]|contradiction].
    rewrite app_nil_r. destruct H as [Hi Hq]. eauto.
  - destruct stk; [destruct w; [|contradiction]|contradiction].
    apply H.
  - destruct stk; [destruct w; [|contradiction]|contradiction].
    apply H.
  - destruct stk; [destruct w; [|contradiction]|contradiction].
    simpl. destruct H as (_ & Hi & Hk). split; [exact Hi|].
    intros o. rewrite <- app_assoc. apply Hk.
  - destruct stk; [destruct w; [|contradiction]|contradiction].
    destruct H as [_ []].
  - destruct w1 as [|s1 w1]; simpl in *.
    + destruct w2; [|contradiction]. apply H.
    + destruct w1; contradiction.
Qed.

Lemma cfg_ok_reach h c t c' :
  cfg_ok Qr Qe Inv h c -> reach c t c' -> cfg_ok Qr Qe Inv (h ++ t) c'.
Proof.
  intros H R. revert h H. induction R as [c | c l c1 t c2 S R IH]; intros h H.
  - now rewrite app_nil_r.
  - rewrite app_assoc. apply IH. eapply cfg_ok_step; eassumption.
Qed.

(** Soundness: what [all_traces] says of a function holds of every trace
    the event loop can produce when the function is called. *)
Lemma all_traces_sound (p : prog unit) (t : list event) (c : config) :
  all_traces p [] Qr Qe Inv ->
  reach (start p) t c ->
  Inv t /\ (terminal c -> (exists r, Qr r t) \/ (exists e, Qe e t)).
Proof.
  intros H R.
  pose proof (cfg_ok_reach [] (start p) t c H R) as K. simpl in K.
  split; [eapply cfg_ok_inv; exact K|].
  intros [Hs Hw]. unfold cfg_ok in K. rewrite Hs, Hw in K. apply K.
Qed.

End Post.

(** ** Rules *)

Lemma all_traces_mono {R} (p : Async.prog req resp act R) :
  forall h (Qr Qr' : R -> list event -> Prop) (Qe Qe' : error -> list event -> Prop) Inv,
  (forall r h', Qr r h' -> Qr' r h') ->
  (forall e h', Qe e h' -> Qe' e h') ->
  all_traces p h Qr Qe Inv -> all_traces p h Qr' Qe' Inv.
Proof.
  induction p as [R r | R e | R a k IH | R m k IH | R q k IH | R p' _ k _];
    intros h Qr Qr' Qe Qe' Inv Hr He; simpl; intros [Hi H]; (split; [exact Hi|]).
  - auto.
  - auto.
  - eapply IH; eauto.
  - intros b. eapply IH; eauto.
  - destruct H as [Hq H]. split; [exact Hq|]. intros o. eapply IH; eauto.
  - exact H.
Qed.

Lemma all_traces_bind2 {A B} (p : Async.prog req resp act A) :
  forall h (fr : A -> Async.prog req resp act B) (fe : error -> Async.prog req resp act B)
         (Qr : B -> list event -> Prop) (Qe : error -> list event -> Prop) Inv,
  all_traces p h (fun r h' => all_traces (fr r) h' Qr Qe Inv)
                 (fun e h' => all_traces (fe e) h' Qr Qe Inv) Inv ->
  all_traces (bind2 p fr fe) h Qr Qe Inv.
Proof.
  induction p as [A r | A e | A a k IH | A m k IH | A q k IH | A p' _ k _];
    intros h fr fe Qr Qe Inv; simpl; intros [Hi H].
  - exact H.
  - exact H.
  - split; [exact Hi|]. now apply IH.
  - split; [exact Hi|]. intros b. now apply IH.
  - destruct H as [Hq H]. split; [exact Hi|]. split; [exact Hq|].
    intros o. now apply IH.
  - destruct H.
Qed.

Lemma all_traces_bind {A B} (p : Async.prog req resp act A)
    (f : A -> Async.prog req resp act B) h
    (Qr : B -> list event -> Prop) (Qe : error -> list event -> Prop) Inv :
  all_traces p h (fun r h' => all_traces (f r) h' Qr Qe Inv)
                 (fun e h' => Inv h' /\ Qe e h') Inv ->
  all_traces (bind p f) h Qr Qe Inv.
Proof. intros H. unfold bind. apply all_traces_bind2. exact H. Qed.

Lemma all_traces_try_catch {A} (p : Async.prog req resp act A)
    (handler : error -> Async.prog req resp act A) h
    (Qr : A -> list event -> Prop) (Qe : error -> list event -> Prop) Inv :
  all_traces p h (fun r h' => Inv h' /\ Qr r h')
                 (fun e h' => all_traces (handler e) h' Qr Qe Inv) Inv ->
  all_traces (try_catch p handler) h Qr Qe Inv.
Proof. intros H. unfold try_catch. apply all_traces_bind2. exact H. Qed.

Lemma all_traces_try_finally {A} (p : Async.prog req resp act A)
    (fin : Async.prog req resp act unit) h
    (Qr : A -> list event -> Prop) (Qe : error -> list event -> Prop) Inv :
  all_traces p h
    (fun r h' => all_traces fin h' (fun _ h'' => Inv h'' /\ Qr r h'')
                                   (fun e h'' => Inv h'' /\ Qe e h'') Inv)
    (fun e h' => all_traces fin h' (fun _ h'' => Inv h'' /\ Qe e h'')
                                   (fun e' h'' => Inv h'' /\ Qe e' h'') Inv) Inv ->
  all_traces (try_finally p fin) h Qr Qe Inv.
Proof.
  intros H. unfold try_finally. apply all_traces_bind2.
  eapply all_traces_mono; [| |exact H]; cbv beta; intros x h' K;
    apply all_traces_bind; exact K.
Qed.

(** One rule per construct, for stepping through a function body. *)
Lemma all_traces_Ret {R} (r : R) h (Qr : R -> list event -> Prop)
    (Qe : error -> list event -> Prop) (Inv : list event -> Prop) :
  Inv h -> Qr r h -> all_traces (@Ret req resp act R r) h Qr Qe Inv.
Proof. simpl. auto. Qed.

Lemma all_traces_Throw {R} (e : error) h (Qr : R -> list event -> Prop)
    (Qe : error -> list event -> Prop) (Inv : list event -> Prop) :
  Inv h -> Qe e h -> all_traces (@Throw req resp act R e) h Qr Qe Inv.
Proof. simpl. auto. Qed.

Lemma all_traces_Do {R} (a : act) (k : Async.prog req resp act R) h
    (Qr : R -> list event -> Prop) (Qe : error -> list event -> Prop)
    (Inv : list event -> Prop) :
  Inv h -> all_traces k (h ++ [EvDo a]) Qr Qe Inv ->
  all_traces (Do a k) h Qr Qe Inv.
Proof. simpl. auto. Qed.

Lemma all_traces_Confirm {R} (m : string) (k : bool -> Async.prog req resp act R) h
    (Qr : R -> list event -> Prop) (Qe : error -> list event -> Prop)
    (Inv : list event -> Prop) :
  Inv h -> (forall b, all_traces (k b) (h ++ [EvConfirm m b]) Qr Qe Inv) ->
  all_traces (Confirm m k) h Qr Qe Inv.
Proof. simpl. auto. Qed.

Lemma all_traces_Await {R} (q : req) (k : settled (resp q) -> Async.prog req resp act R) h
    (Qr : R -> list event -> Prop) (Qe : error -> list event -> Prop)
    (Inv : list event -> Prop) :
  Inv h -> Inv (h ++ [EvIssue q]) ->
  (forall o, all_traces (k o) ((h ++ [EvIssue q]) ++ [EvSettle q o]) Qr Qe Inv) ->
  all_traces (Await q k) h Qr Qe Inv.
Proof.
  intros H1 H2 H3. cbn [all_traces]. repeat split; auto.
  intros o. specialize (H3 o). rewrite <- app_assoc in H3. exact H3.
Qed.

(** A counted loop, with [L i s h] the loop invariant before iteration
    [i]. *)
Lemma all_traces_for_range {S} (body : nat -> S -> Async.prog req resp act S)
    (L : nat -> S -> list event -> Prop) (Qe : error -> list event -> Prop) Inv :
  forall count start s h,
  (forall i s h, (start <= i < start + count)%nat -> L i s h ->
                 all_traces (body i s) h (L (Datatypes.S i))
                            (fun e h' => Inv h' /\ Qe e h') Inv) ->
  (forall i s h, L i s h -> Inv h) ->
  L start s h ->
  all_traces (for_range count start body s) h
             (L (start + count)%nat) Qe Inv.
Proof.
  induction count as [|count IH]; intros start s h Hbody Hinv HL; simpl.
  - rewrite Nat.add_0_r. split; [eapply Hinv; exact HL | exact HL].
  - apply all_traces_bind.
    eapply all_traces_mono; [| |apply (Hbody start s h); [lia | exact HL]];
      cbv beta; [|auto].
    intros s' h' HL'.
    replace (start + Datatypes.S count)%nat with (Datatypes.S start + count)%nat by lia.
    apply IH; [|exact Hinv|exact HL'].
    intros i s0 h0 Hi. apply Hbody. lia.
Qed.

(** ** Replaying a given trace *)

Lemma reach_event (c c1 c2 : config) (e : event) (t : list event) :
  step c [e] c1 -> reach c1 t c2 -> reach c (e :: t) c2.
Proof. intros S R. exact (reach_step c [e] c1 t c2 S R). Qed.

Lemma reach_silent (c c1 c2 : config) (t : list event) :
  step c [] c1 -> reach c1 t c2 -> reach c t c2.
Proof. intros S R. exact (reach_step c [] c1 t c2 S R). Qed.

Lemma step_settle_first q (k : settled (resp q) -> prog unit) o w :
  step (mkConfig [] (Susp q k :: w)) [EvSettle q o] (mkConfig [k o] w).
Proof. exact (step_settle (Susp q k) o [] w). Qed.

End AsyncFacts.

Ltac compute_config :=
  match goal with
  | |- Async.reach ?c _ _ => let c' := eval cbv in c in change c with c'
  end.

(** Runs the function on top of the stack until it returns or suspends. *)
Ltac run_sync :=
  compute_config;
  repeat first
    [ eapply reach_silent; [apply Async.step_ret|]
    | eapply reach_silent; [apply Async.step_throw|]
    | eapply reach_silent; [apply Async.step_spawn|]
    | eapply reach_event; [apply Async.step_do|]
    | eapply reach_event; [apply Async.step_confirm|]
    | eapply reach_event; [apply Async.step_await|] ];
  compute_config.

(** Settles the request the trace says is answered next. *)
Ltac settle_next :=
  lazymatch goal with
  | |- Async.reach (Async.mkConfig [] (Async.Susp ?q ?k :: ?w))
                   (Async.EvSettle _ ?o :: _) _ =>
      eapply reach_event; [exact (step_settle_first _ _ _ q k o w)|]
  end.

Ltac replay := run_sync; repeat (settle_next; run_sync); apply Async.reach_here.

(* ===================================================================== *)
(** * pages/ZoneDrawer.jsx                                                *)
(* ===================================================================== *)

Section ZoneDrawerFacts.
Import Api Async ZoneDrawer.
Local Open Scope string_scope.

Lemma Qpos_nonzero (q : Q) : (0 < q)%Q -> ~ (q == 0)%Q.
Proof. intros H E. rewrite E in H. discriminate. Qed.

(** C8. With positive image and canvas sizes, the point that
    [handleCanvasClick] stores for a pointer position is drawn back by
    [getCanvasPoints] at that same position (exact arithmetic). *)
Theorem canvas_point_round_trip (st : State) (img : Image) (pos : Q * Q) :
  isDrawing st = true ->
  imageObj st = Some img ->
  (0 < width img)%Q -> (0 < height img)%Q ->
  (0 < canvas_width (dimensions st))%Q -> (0 < canvas_height (dimensions st))%Q ->
  exists st' cx cy,
    handleCanvasClick st pos = Returned st'
    /\ getCanvasPoints st' = (getCanvasPoints st ++ [(cx, cy)])%list
    /\ (cx == fst pos)%Q /\ (cy == snd pos)%Q.
Proof.
  intros Hd Hi Hw Hh Hcw Hch.
  unfold handleCanvasClick. rewrite Hd, Hi. cbn [negb].
  eexists _, _, _. split; [reflexivity|].
  unfold getCanvasPoints. cbn [apply_action imageObj points dimensions].
  rewrite Hi, map_app. cbn [map].
  split; [reflexivity|].
  apply Qpos_nonzero in Hw, Hh, Hcw, Hch.
  split; field; auto.
Qed.

Lemma handleSaveZone_guard (st : State) :
  (List.length (points st) < 3)%nat ->
  handleSaveZone st = Do (alert too_few) (Ret tt).
Proof.
  intros H. unfold handleSaveZone.
  destruct (Nat.ltb_spec (List.length (points st)) 3); [reflexivity | lia].
Qed.

(** C4. Saving with fewer than three points is refused: in every run of
    [handleSaveZone] no request is issued (so [zoneAPI.set] is never
    called), no state setter runs (points, threshold, existing zone and
    the rest stay as they were), and the user is told why. *)
Theorem handleSaveZone_rejects_small_zone (st : State) (t : trace)
    (c : config request response action) :
  (List.length (points st) < 3)%nat ->
  reach (start (handleSaveZone st)) t c ->
  submitted t = []
  /\ (forall q, ~ In (EvIssue q) t)
  /\ state_after st t = st
  /\ (terminal c -> In (EvDo (alert too_few)) t).
Proof.
  intros Hlen R. rewrite handleSaveZone_guard in R by assumption.
  pose (Inv := fun t : trace => t = [] \/ t = [EvDo (alert too_few)]).
  pose (Qr := fun (_ : unit) (t : trace) => t = [EvDo (alert too_few)]).
  destruct (all_traces_sound request response action Qr (fun _ _ => False) Inv
              (Do (alert too_few) (Ret tt)) t c) as [Hinv Hfin]; [|exact R|].
  { subst Inv Qr. simpl. auto. }
  assert (Hno : t = [EvDo (alert too_few)] -> forall q, ~ In (EvIssue q) t).
  { intros -> q [E|[]]. discriminate. }
  repeat split.
  - destruct Hinv as [-> | ->]; reflexivity.
  - destruct Hinv as [-> | E]; [intros q [] | now apply Hno].
  - destruct Hinv as [-> | ->]; reflexivity.
  - intros Ht. destruct (Hfin Ht) as [[r E] | [e []]].
    subst Qr. cbv beta in E. rewrite E. now left.
Qed.

(** C5, at the value 150 typed into the threshold field: the state takes
    1.5, which is outside [0, 1], and [handleSaveZone] submits it as it is.
    An emptied field gives NaN. *)
Theorem threshold_not_validated :
  let st := onChange_threshold Samples.triangle "150" in
  (exists q, threshold st = Num q /\ (q == 3 # 2)%Q)
  /\ ~ in_unit_interval (threshold st)
  /\ (exists c,
        reach (start (handleSaveZone st))
              [EvDo (setLoading true);
               EvIssue (zoneAPI_set {| camera_id := 1;
                                       payload_points := points Samples.triangle;
                                       payload_threshold := threshold st |})] c)
  /\ threshold (onChange_threshold Samples.triangle EmptyString) = NaN.
Proof.
  cbv zeta. repeat split.
  - eexists. split; [reflexivity|]. vm_compute. reflexivity.
  - vm_compute. intros [_ H]. apply H. reflexivity.
  - eexists.
    eapply (reach_step _ [EvDo (setLoading true)] _ [EvIssue _]).
    { apply step_do. }
    eapply (reach_step _ [EvIssue _] _ []).
    { apply step_await. }
    apply reach_here.
Qed.

End ZoneDrawerFacts.

(* ===================================================================== *)
(** * pages/Dashboard.jsx: processAllImages                                *)
(* ===================================================================== *)

Section DashboardFacts.
Import Api Async Dashboard.

Lemma issued_app (h t : trace) : issued (h ++ t) = issued h ++ issued t.
Proof.
  induction h as [|e h IH]; simpl; [reflexivity|].
  destruct (issued_by e); simpl; now rewrite IH.
Qed.

Lemma in_flight_app (h t : trace) : in_flight (h ++ t) = in_flight h + in_flight t.
Proof.
  induction h as [|e h IH]; simpl; [reflexivity|]. rewrite IH. lia.
Qed.

Lemma first_answer_app {A} (f : event request response action -> option A) (h t : trace) :
  first_answer f (h ++ t)
  = match first_answer f h with Some a => Some a | None => first_answer f t end.
Proof.
  induction h as [|e h IH]; simpl; [reflexivity|].
  destruct (f e); [reflexivity | exact IH].
Qed.

Lemma quiet_expected h e : quiet e -> expected_frames (h ++ [e]) = expected_frames h.
Proof.
  intros (H3 & H4). unfold expected_frames.
  rewrite !first_answer_app. simpl. rewrite H3, H4.
  destruct (first_answer stats_of_event h), (first_answer unlabeled_of_event h);
    reflexivity.
Qed.

Lemma inert_issued h e : inert e -> issued (h ++ [e]) = issued h.
Proof.
  intros (H & _). rewrite issued_app. simpl. rewrite H. apply app_nil_r.
Qed.

Lemma inert_in_flight h e : inert e -> in_flight (h ++ [e]) = in_flight h.
Proof.
  intros (H1 & H2 & _). rewrite in_flight_app. simpl. rewrite H1, H2. lia.
Qed.

Lemma inert_expected h e : inert e -> expected_frames (h ++ [e]) = expected_frames h.
Proof. intros (_ & _ & H). now apply quiet_expected. Qed.

Lemma firstn_snoc {A} (l : list A) (k : nat) (x : A) :
  nth_error l k = Some x -> firstn (S k) l = firstn k l ++ [x].
Proof.
  revert k. induction l as [|y l IH]; intros [|k] H; simpl in *; try discriminate.
  - now injection H as ->.
  - f_equal. now apply IH.
Qed.

Lemma bind2_Ret {A B} (r : A) (fr : A -> handler B) (fe : error -> handler B) :
  bind2 (Ret r) fr fe = fr r.
Proof. reflexivity. Qed.

Variable st : State.
Variable cam : Camera.
Hypothesis Hcam : selectedCamera st = Some cam.

Local Abbreviation Inv := (sequential cam).
Local Abbreviation Fin := (finished cam).
Local Abbreviation J := (between_frames cam).

Lemma map_snd_pair {A B} (a : A) (l : list B) : map snd (map (pair a) l) = l.
Proof. induction l; simpl; congruence. Qed.

Lemma Forall_fst_pair {B} (a : Z) (l : list B) :
  Forall (fun f => fst f = a) (map (pair a) l).
Proof. induction l; simpl; constructor; auto. Qed.

Lemma J_Inv frames k h : J frames k h -> Inv h.
Proof.
  intros (Hf & He & Hi). repeat split.
  - unfold one_at_a_time. lia.
  - rewrite Hi. apply Forall_fst_pair.
  - exists (skipn k frames). rewrite He, Hi, map_snd_pair.
    symmetry. apply firstn_skipn.
Qed.

Lemma J_Fin frames k h : (List.length frames <= k)%nat -> J frames k h -> Fin h.
Proof.
  intros Hk (Hf & He & Hi). rewrite firstn_all2 in Hi by exact Hk.
  repeat split.
  - now rewrite He, Hi, map_snd_pair.
  - exact Hf.
  - rewrite Hi. apply Forall_fst_pair.
Qed.

Lemma J_inert frames k h e : inert e -> J frames k h -> J frames k (h ++ [e]).
Proof.
  intros Hi (Hf & He & Hs). unfold between_frames.
  rewrite inert_issued, inert_in_flight, inert_expected by exact Hi. auto.
Qed.

Lemma Fin_Inv h : Fin h -> Inv h.
Proof.
  intros [[E F] A]. repeat split.
  - unfold one_at_a_time. lia.
  - exact A.
  - exists []. now rewrite app_nil_r.
Qed.

(** One frame: the request goes out alone, and its answer, whatever it
    is, closes it. *)
Lemma J_issue frames k h name :
  nth_error frames k = Some name -> J frames k h ->
  Inv (h ++ [EvIssue (dashboardAPI_processImage (id cam) name)]).
Proof.
  intros Hn (Hf & He & Hi). unfold sequential, one_at_a_time, in_order.
  rewrite quiet_expected by (split; reflexivity).
  rewrite in_flight_app, issued_app. simpl.
  repeat split.
  - lia.
  - rewrite Hi. apply Forall_app. split; [apply Forall_fst_pair|].
    constructor; [reflexivity | constructor].
  - exists (skipn (S k) frames).
    rewrite He, Hi, map_app, map_snd_pair. simpl.
    rewrite <- app_assoc. simpl.
    symmetry. now apply firstn_skipn_middle.
Qed.

Lemma J_settle frames k h name o :
  nth_error frames k = Some name -> J frames k h ->
  J frames (S k)
    ((h ++ [EvIssue (dashboardAPI_processImage (id cam) name)])
       ++ [EvSettle (dashboardAPI_processImage (id cam) name) o]).
Proof.
  intros Hn (Hf & He & Hi). unfold between_frames.
  rewrite !quiet_expected by (split; reflexivity).
  rewrite !in_flight_app, !issued_app, (firstn_snoc _ _ _ Hn), map_app.
  cbn [issued issued_by in_flight settles_frame map].
  repeat split.
  - lia.
  - exact He.
  - rewrite Hi, app_nil_r. reflexivity.
Qed.

Ltac concrete :=
  unfold sequential, finished, one_at_a_time, in_order, all_processed, expected_frames;
  simpl;
  repeat split; try lia; try (constructor; fail);
  try (eexists; reflexivity).

Ltac norm :=
  cbv beta;
  unfold bind, try_catch, try_finally, do, confirm, await, spawn;
  cbn [bind2];
  rewrite ?bind2_Ret.

(** Stepping while the trace so far is known event by event. *)
Ltac wp_step :=
  norm;
  lazymatch goal with
  | |- all_traces (Do _ _) _ _ _ _ => apply all_traces_Do; [concrete|]
  | |- all_traces (Ret _) _ _ _ _ => apply all_traces_Ret; [concrete|]
  | |- all_traces (Throw _) _ _ _ _ => apply all_traces_Throw; [concrete|]
  | |- all_traces (Confirm _ _) _ _ _ _ =>
      apply all_traces_Confirm; [concrete | intros ?b]
  | |- all_traces (Await _ _) _ _ _ _ =>
      apply all_traces_Await; [concrete | concrete | intros [?a | ?e]]
  | |- all_traces (if negb ?b then _ else _) _ _ _ _ => destruct b; cbn [negb]
  end.

Ltac inert_tac := repeat split; reflexivity.

(** Stepping on from a trace [h] known through [HJ : J frames k h], over
    events that leave [J] as it is. *)
Ltac sym_step HJ :=
  norm;
  lazymatch goal with
  | |- all_traces (Do ?a _) ?h _ _ _ =>
      apply all_traces_Do; [exact (J_Inv _ _ _ HJ)|];
      apply (J_inert _ _ _ (EvDo a)) in HJ; [|inert_tac]
  | |- all_traces (Ret _) _ _ _ _ =>
      apply all_traces_Ret; [exact (J_Inv _ _ _ HJ)|]
  | |- all_traces (Await ?q _) ?h _ _ _ =>
      apply all_traces_Await;
      [ exact (J_Inv _ _ _ HJ)
      | apply (J_Inv _ _ _ (J_inert _ _ _ (EvIssue q) ltac:(inert_tac) HJ))
      | let o := fresh "o" in
        intros o;
        apply (J_inert _ _ _ (EvIssue q)) in HJ; [|inert_tac];
        apply (J_inert _ _ _ (EvSettle q o)) in HJ; [|inert_tac];
        destruct o ]
  end.

Lemma frame_order_labeled stats u i :
  (i < labeled_count stats)%nat ->
  nth_error (frame_order stats u) i = Some (labeled_name i).
Proof.
  intros H. unfold frame_order.
  rewrite nth_error_app1 by (rewrite length_map, length_seq; exact H).
  rewrite nth_error_map, nth_error_seq.
  destruct (Nat.ltb_spec i (labeled_count stats)); [reflexivity | lia].
Qed.

Lemma frame_order_unlabeled stats u i image :
  nth_error (match images u with Some l => l | None => [] end) i = Some image ->
  nth_error (frame_order stats u) (labeled_count stats + i) = Some (filename image).
Proof.
  intros H. unfold frame_order.
  rewrite nth_error_app2 by (rewrite length_map, length_seq; lia).
  rewrite length_map, length_seq.
  replace (labeled_count stats + i - labeled_count stats)%nat with i by lia.
  rewrite nth_error_map, H. reflexivity.
Qed.

Lemma frame_order_length stats u :
  List.length (frame_order stats u)
  = (labeled_count stats
     + List.length (match images u with Some l => l | None => [] end))%nat.
Proof. unfold frame_order. now rewrite length_app, !length_map, length_seq. Qed.

(** Processing one frame between two others. *)
Lemma processImageForDetection_ok frames k h name
    (Q : bool -> trace -> Prop) (Qe : error -> trace -> Prop) :
  nth_error frames k = Some name -> J frames k h ->
  (forall b h', J frames (S k) h' -> Q b h') ->
  all_traces (processImageForDetection st name) h Q Qe Inv.
Proof.
  intros Hn HJ HQ. unfold processImageForDetection. rewrite Hcam. norm.
  apply all_traces_Await;
    [exact (J_Inv _ _ _ HJ) | exact (J_issue _ _ _ _ Hn HJ) | intros o].
  pose proof (J_settle _ _ _ _ o Hn HJ) as HJ'.
  destruct o as [[]|e]; norm.
  - apply all_traces_Ret; [exact (J_Inv _ _ _ HJ') | now apply HQ].
  - sym_step HJ'. apply all_traces_Ret; [exact (J_Inv _ _ _ HJ') | now apply HQ].
Qed.

Lemma loadDashboardData_ok frames k h
    (Q : unit -> trace -> Prop) (Qe : error -> trace -> Prop) :
  J frames k h ->
  (forall h', J frames k h' -> Q tt h') ->
  all_traces (loadDashboardData st) h Q Qe Inv.
Proof.
  intros HJ HQ. unfold loadDashboardData. rewrite Hcam.
  sym_step HJ. sym_step HJ.
  - sym_step HJ. sym_step HJ.
    + repeat sym_step HJ. now apply HQ.
    + repeat sym_step HJ. now apply HQ.
  - repeat sym_step HJ. now apply HQ.
Qed.



Lemma processAllImages_ok :
  all_traces (processAllImages st) [] (fun _ h => Fin h) (fun _ _ => False) Inv.
Proof.
  unfold processAllImages. rewrite Hcam.
  repeat wp_step.
  all: try (concrete; fail).
  rename a into stats, a0 into u. norm.
  set (unlabeledImages := match images u with Some l => l | None => [] end).
  pose proof (frame_order_length stats u) as Hlen. fold unlabeledImages in Hlen.
  destruct (Nat.eqb_spec (labeled_count stats + List.length unlabeledImages) 0) as [E|E].
  - assert (Hnil : frame_order stats u = [])
      by (apply length_zero_iff_nil; lia).
    repeat wp_step; concrete; exact Hnil.
  - match goal with |- all_traces _ ?h0 _ _ _ => set (h := h0) end.
    assert (HJ : J (frame_order stats u) 0 h)
      by (subst h; unfold between_frames; concrete).
    clearbody h. set (frames := frame_order stats u) in *.
    sym_step HJ.
    (* the labeled images *)
    do 3 apply all_traces_bind2.
    eapply all_traces_mono;
      [ | | apply (all_traces_for_range _ _ _ _
                     (fun i (_ : nat * nat) h' => J frames i h')
                     (fun _ _ => False)) ];
      [ | intros e h' [] | | intros i s h' HL; exact (J_Inv _ _ _ HL) | exact HJ ].
    2:{ intros i counts h' Hi HL. norm. apply all_traces_bind2.
        apply (processImageForDetection_ok frames i); [|exact HL|].
        { apply frame_order_labeled. lia. }
        intros success h'' HJ'. repeat sym_step HJ'. exact HJ'. }
    clear h HJ. intros counts h HJ. cbv beta in HJ. cbn [Nat.add] in HJ.
    (* the unlabeled images *)
    norm. apply all_traces_bind2.
    eapply all_traces_mono;
      [ | | apply (all_traces_for_range _ _ _ _
                     (fun i (_ : nat * nat) h' => J frames (labeled_count stats + i) h')
                     (fun _ _ => False)) ];
      [ | intros e h' [] | | intros i s h' HL; exact (J_Inv _ _ _ HL)
        | rewrite Nat.add_0_r; exact HJ ].
    2:{ intros i counts' h' Hi HL.
        destruct (nth_error unlabeledImages i) as [image|] eqn:Eimg.
        2:{ apply nth_error_None in Eimg. lia. }
        norm. apply all_traces_bind2.
        apply (processImageForDetection_ok frames (labeled_count stats + i)); [|exact HL|].
        { now apply frame_order_unlabeled. }
        intros success h'' HJ'. rewrite <- Nat.add_succ_r in HJ'.
        repeat sym_step HJ'. exact HJ'. }
    clear h HJ. intros [processedCount errorCount] h HJ. cbv beta in HJ.
    cbn [Nat.add] in HJ.
    assert (HF : forall h', J frames (labeled_count stats + List.length unlabeledImages) h'
                            -> Fin h').
    { intros h'. apply J_Fin. lia. }
    sym_step HJ.
    destruct (0 <? processedCount)%nat.
    + norm. apply all_traces_bind2.
      apply (loadDashboardData_ok frames _ _ _ _ HJ).
      clear h HJ. intros h HJ.
      repeat sym_step HJ. now apply HF.
    + repeat sym_step HJ. now apply HF.
Qed.

Lemma labeled_name_examples :
  labeled_name 0 = "000000.jpg"%string
  /\ labeled_name 1 = "000001.jpg"%string
  /\ labeled_name 12 = "000012.jpg"%string.
Proof. repeat split. Qed.

End DashboardFacts.

(* ===================================================================== *)
(** * The statements at sample inputs                                     *)
(* ===================================================================== *)

Section Instances.
Import Chart Api Async.
Local Open Scope string_scope.

Local Abbreviation stats_of ts := (Some (mkStats (Some ts))).

(** 120 frames give 40 chart points (chunks of 3); 51 frames give 26 chart
    points, the last one standing for the single frame left over. *)
Example prepareChartData_120 :
  exists out,
    prepareChartData Samples.clock (stats_of (Samples.series 120)) = Returned out
    /\ List.length out = 40%nat
    /\ nth_error out 1 = Some {| time := "00:03"; Total_People := 4; In_Zone := 2 |}.
Proof. eexists. split; [vm_compute; reflexivity|]. split; reflexivity. Qed.

Example prepareChartData_51 :
  exists out,
    prepareChartData Samples.clock (stats_of (Samples.series 51)) = Returned out
    /\ List.length out = 26%nat
    /\ nth_error out 0 = Some {| time := "00:00"; Total_People := 1; In_Zone := 0 |}
    /\ nth_error out 25 = Some {| time := "00:50"; Total_People := 50; In_Zone := 25 |}.
Proof. eexists. split; [vm_compute; reflexivity|]. repeat split. Qed.

(** C1 as worded fails on 51 frames: the chart gets 26 points, and 51
    frames cannot be cut into chunks that all have [ceil(51/50) = 2]
    frames. *)
Lemma prepareChartData_equal_chunks_fails :
  exists out,
    prepareChartData Samples.clock (stats_of (Samples.series 51)) = Returned out
    /\ List.length out = 26%nat
    /\ ~ compressed_in_equal_chunks Samples.clock (Samples.series 51) out.
Proof.
  eexists. split; [vm_compute; reflexivity|]. split; [reflexivity|].
  intros (chunks & Hcat & Hall & _).
  apply length_concat_uniform in Hall. rewrite Hcat in Hall.
  change (List.length (Samples.series 51)) with 51%nat in Hall.
  change (ceil_div50 51) with 2%nat in Hall. lia.
Qed.

Lemma prepareChartData_compresses_witness :
  (50 < List.length (Samples.series 120))%nat
  /\ exists out,
       prepareChartData Samples.clock (stats_of (Samples.series 120)) = Returned out
       /\ compressed_in_chunks Samples.clock (Samples.series 120) out.
Proof.
  split; [vm_compute; lia|].
  apply (prepareChartData_compresses nat Samples.clock (Samples.series 120)).
  vm_compute; lia.
Defined.

Lemma prepareChartData_no_compression_witness :
  (List.length (Samples.series 3) <= 50)%nat
  /\ exists out,
       prepareChartData Samples.clock (stats_of (Samples.series 3)) = Returned out
       /\ List.length out = List.length (Samples.series 3)
       /\ Forall2 (fun item p =>
                     Total_People p = total_people item
                     /\ In_Zone p = people_in_zone item
                     /\ time p = Samples.clock (timestamp item))
                  (Samples.series 3) out.
Proof.
  split; [vm_compute; lia|].
  apply (prepareChartData_no_compression nat Samples.clock (Samples.series 3)).
  vm_compute; lia.
Defined.

Lemma handleSaveZone_rejects_small_zone_witness :
  let t := [EvDo (ZoneDrawer.alert ZoneDrawer.too_few)] in
  ZoneDrawer.submitted t = []
  /\ (forall q, ~ In (EvIssue q) t)
  /\ ZoneDrawer.state_after Samples.two_points t = Samples.two_points
  /\ (terminal (@mkConfig request response ZoneDrawer.action [] []) -> In (EvDo (ZoneDrawer.alert ZoneDrawer.too_few)) t).
Proof.
  cbv zeta.
  apply (handleSaveZone_rejects_small_zone Samples.two_points
           [EvDo (ZoneDrawer.alert ZoneDrawer.too_few)] (@mkConfig request response ZoneDrawer.action [] [])).
  - simpl. lia.
  - apply (reach_step _ [EvDo (ZoneDrawer.alert ZoneDrawer.too_few)] _ [] _
             (step_do _ _ _ _)
             (reach_step _ [] _ [] _ (step_ret _ _ _) (reach_here _))).
Defined.

Lemma canvas_point_round_trip_witness :
  exists st' cx cy,
    ZoneDrawer.handleCanvasClick Samples.triangle (10, 20)%Q = Returned st'
    /\ ZoneDrawer.getCanvasPoints st'
       = (ZoneDrawer.getCanvasPoints Samples.triangle ++ [(cx, cy)])%list
    /\ (cx == 10)%Q /\ (cy == 20)%Q.
Proof.
  apply (canvas_point_round_trip Samples.triangle
           {| ZoneDrawer.width := 1280; ZoneDrawer.height := 720 |} (10, 20)%Q);
    reflexivity.
Defined.

(** The sample runs are runs of the model. *)
Example processAllImages_full_run :
  reach (start (Dashboard.processAllImages Samples.dashboard)) Samples.full_run
        (@mkConfig request response Dashboard.action [] [])
  /\ map snd (Dashboard.issued Samples.full_run) = ["000000.jpg"; "frame_a.jpg"].
Proof. split; [unfold Samples.full_run; replay | reflexivity]. Qed.

Example handleSaveZone_save_run :
  reach (start (ZoneDrawer.handleSaveZone Samples.triangle)) Samples.save_run
        (@mkConfig request response ZoneDrawer.action [] [])
  /\ ZoneDrawer.submitted Samples.save_run = [Samples.triangle_payload].
Proof. split; [unfold Samples.save_run; replay | reflexivity]. Qed.

End Instances.

(* ===================================================================== *)
(** * pages/Dashboard.jsx: more about the chart                           *)
(* ===================================================================== *)

Section ChartMore.
Import Chart.

Variable timestamp_t : Type.
Variable format_HHmm : timestamp_t -> string.

Local Abbreviation point := (TimeSeriesPoint timestamp_t).
Local Abbreviation stats_of ts := (Some (mkStats (Some ts))).

(** The loop again, keeping which chunk each chart point comes from. *)
Lemma aggregate_loop_exact (fuel : nat) (ts : list point) (c i : nat)
    (agg : list ChartPoint) :
  (0 < c)%nat -> (List.length ts - i <= fuel)%nat ->
  exists out,
    aggregate_loop format_HHmm fuel ts c i agg = Returned (agg ++ out)
    /\ Forall2 (fun chunk p => aggregate_chunk format_HHmm chunk = Some p)
               (chunks_upto fuel c (skipn i ts)) out.
Proof.
  intros Hc. revert i agg. induction fuel as [|fuel IH]; intros i agg Hfuel.
  - simpl. destruct (Nat.ltb_spec i (List.length ts)); [lia|].
    exists []. rewrite app_nil_r. split; [reflexivity|].
    rewrite skipn_all2 by lia. constructor.
  - simpl aggregate_loop. destruct (Nat.ltb_spec i (List.length ts)) as [Hi|Hi].
    + rewrite slice_from.
      destruct (skipn i ts) as [|x r] eqn:Er.
      { apply skipn_all_iff in Er. lia. }
      destruct (aggregate_chunk_nonempty _ format_HHmm (firstn c (x :: r))) as [p Ep].
      { destruct c; [lia | discriminate]. }
      rewrite Ep.
      destruct (IH (i + c)%nat (agg ++ [p]) ltac:(lia)) as (out & Eout & Hout).
      exists (p :: out). split.
      * rewrite Eout, <- app_assoc. reflexivity.
      * change (chunks_upto (S fuel) c (x :: r))
          with (firstn c (x :: r) :: chunks_upto fuel c (skipn c (x :: r))).
        constructor; [exact Ep|].
        rewrite <- Er, skipn_skipn, (Nat.add_comm c i). exact Hout.
    + exists []. rewrite app_nil_r. split; [reflexivity|].
      rewrite skipn_all2 by lia. rewrite chunks_upto_nil. constructor.
Qed.

Lemma chunks_upto_nth (fuel c : nat) (l : list point) (k : nat) :
  (0 < c)%nat -> (List.length l <= fuel)%nat ->
  nth_error (chunks_upto fuel c l) k
  = if (k * c <? List.length l)%nat then Some (firstn c (skipn (k * c) l)) else None.
Proof.
  intros Hc. revert l k. induction fuel as [|fuel IH]; intros l k Hl.
  - destruct l; [|simpl in Hl; lia]. simpl.
    destruct (Nat.ltb_spec (k * c) 0); [lia|]. now destruct k.
  - destruct l as [|x l].
    { simpl. destruct (Nat.ltb_spec (k * c) 0); [lia|]. now destruct k. }
    change (chunks_upto (S fuel) c (x :: l))
      with (firstn c (x :: l) :: chunks_upto fuel c (skipn c (x :: l))).
    destruct k as [|k].
    + simpl. reflexivity.
    + cbn [nth_error]. rewrite IH by (rewrite length_skipn; len_cons; lia).
      rewrite length_skipn, skipn_skipn.
      replace (S k * c)%nat with (k * c + c)%nat by lia.
      destruct (Nat.ltb_spec (k * c) (List.length (x :: l) - c));
        destruct (Nat.ltb_spec (k * c + c) (List.length (x :: l)));
        try lia; reflexivity.
Qed.

Lemma Forall2_nth_error {A B} (R : A -> B -> Prop) (l : list A) (l' : list B) :
  Forall2 R l l' ->
  forall k, match nth_error l k, nth_error l' k with
            | Some a, Some b => R a b
            | None, None => True
            | _, _ => False
            end.
Proof.
  induction 1 as [|a b l l' Hab _ IH]; intros [|k]; simpl; auto. apply IH.
Qed.

Lemma prepareChartData_point_of_chunk (ts : list point) :
  (50 < List.length ts)%nat ->
  exists out,
    prepareChartData format_HHmm (stats_of ts) = Returned out
    /\ forall k,
         nth_error out k
         = if (k * chunkSize_of ts <? List.length ts)%nat
           then aggregate_chunk format_HHmm
                  (slice ts (k * chunkSize_of ts) (k * chunkSize_of ts + chunkSize_of ts))
           else None.
Proof.
  intros H. rewrite prepareChartData_large by assumption.
  assert (Hne : ts <> []) by (destruct ts; [simpl in H; lia | discriminate]).
  pose proof (chunkSize_of_pos _ ts Hne) as Hc.
  destruct (aggregate_loop_exact (List.length ts) ts (chunkSize_of ts) 0 [] Hc ltac:(lia))
    as (out & E & F).
  exists out. split; [exact E|]. intros k.
  pose proof (Forall2_nth_error _ _ _ F k) as Hk. simpl skipn in Hk.
  rewrite chunks_upto_nth in Hk by (auto; lia).
  rewrite slice_from.
  destruct (Nat.ltb_spec (k * chunkSize_of ts) (List.length ts)).
  - destruct (nth_error out k); [congruence | contradiction].
  - destruct (nth_error out k); [contradiction | reflexivity].
Qed.


Lemma aggregate_chunk_of_nonempty (chunk : list point) (p : ChartPoint) :
  aggregate_chunk format_HHmm chunk = Some p ->
  chunk <> []
  /\ Total_People p = avg total_people chunk
  /\ In_Zone p = avg people_in_zone chunk.
Proof.
  destruct chunk as [|first rest]; simpl; [discriminate|].
  intros [= <-]. repeat split. discriminate.
Qed.

Lemma sum_within (f : point -> Z) (chunk : list point) (lo hi : Z) :
  Forall (fun item => lo <= f item <= hi) chunk ->
  len chunk * lo <= reduce_sum f chunk <= len chunk * hi.
Proof.
  rewrite reduce_sum_map. unfold len.
  induction 1 as [|x l Hx _ IH]; [simpl; lia|].
  rewrite length_cons, Nat2Z.inj_succ. simpl map. simpl fold_right. lia.
Qed.

Lemma avg_within (f : point -> Z) (chunk : list point) (lo hi : Z) :
  chunk <> [] ->
  Forall (fun item => lo <= f item <= hi) chunk ->
  lo <= avg f chunk <= hi.
Proof.
  intros Hne HF. pose proof (sum_within f chunk lo hi HF) as Hs.
  assert (Hn : 0 < len chunk)
    by (unfold len; destruct chunk; [congruence | rewrite length_cons; lia]).
  unfold avg. rewrite Math_round_div by exact Hn. split.
  - apply Z.div_le_lower_bound; nia.
  - apply Z.lt_succ_r. apply Z.div_lt_upper_bound; nia.
Qed.

Lemma sum_le_sum (f g : point -> Z) (chunk : list point) :
  Forall (fun item => f item <= g item) chunk ->
  reduce_sum f chunk <= reduce_sum g chunk.
Proof.
  rewrite !reduce_sum_map.
  induction 1 as [|x l Hx _ IH]; simpl; lia.
Qed.

Lemma avg_le_avg (f g : point -> Z) (chunk : list point) :
  chunk <> [] ->
  Forall (fun item => f item <= g item) chunk ->
  avg f chunk <= avg g chunk.
Proof.
  intros Hne HF. pose proof (sum_le_sum f g chunk HF) as Hs.
  assert (Hn : 0 < len chunk)
    by (unfold len; destruct chunk; [congruence | rewrite length_cons; lia]).
  unfold avg. rewrite !Math_round_div by exact Hn.
  apply Z.div_le_mono; lia.
Qed.

Lemma chunks_upto_Forall (P : point -> Prop) (fuel c : nat) (l : list point) :
  (0 < c)%nat -> (List.length l <= fuel)%nat ->
  Forall P l -> Forall (Forall P) (chunks_upto fuel c l).
Proof.
  intros Hc Hl HP. apply Forall_forall. intros chunk Hin.
  apply Forall_forall. intros x Hx.
  rewrite Forall_forall in HP. apply HP.
  rewrite <- (chunks_upto_concat _ fuel c l Hc Hl).
  apply in_concat. eauto.
Qed.

(** What holds of every frame and survives averaging holds of every chart
    point. *)
Lemma prepareChartData_pointwise (ts : list point) (P : point -> Prop)
    (Q : ChartPoint -> Prop) :
  (forall item, P item ->
     Q {| time := format_HHmm (timestamp item);
          Total_People := total_people item; In_Zone := people_in_zone item |}) ->
  (forall chunk p, Forall P chunk ->
     aggregate_chunk format_HHmm chunk = Some p -> Q p) ->
  Forall P ts ->
  exists out,
    prepareChartData format_HHmm (stats_of ts) = Returned out /\ Forall Q out.
Proof.
  intros Hitem Hchunk HP.
  destruct (Nat.le_gt_cases (List.length ts) 50) as [H|H].
  - exists (show_all format_HHmm ts). split; [now apply prepareChartData_fits|].
    unfold show_all. apply Forall_map.
    eapply Forall_impl; [|exact HP]. exact Hitem.
  - rewrite prepareChartData_large by assumption.
    assert (Hne : ts <> []) by (destruct ts; [simpl in H; lia | discriminate]).
    pose proof (chunkSize_of_pos _ ts Hne) as Hc.
    destruct (aggregate_loop_exact (List.length ts) ts (chunkSize_of ts) 0 [] Hc ltac:(lia))
      as (out & E & F).
    exists out. split; [exact E|]. simpl skipn in F.
    pose proof (chunks_upto_Forall P (List.length ts) (chunkSize_of ts) ts Hc
                  (Nat.le_refl _) HP) as HC.
    clear E. induction F as [|chunk p chunks out' Hp _ IH]; constructor.
    + inversion HC; subst. eapply Hchunk; eassumption.
    + inversion HC; subst. now apply IH.
Qed.

(** X2. Whatever the length of the series, the counts the chart shows
    stay within the bounds of the counts of the frames. *)
Theorem prepareChartData_within_range (ts : list point) (lo hi lo' hi' : Z) :
  Forall (fun item => lo <= total_people item <= hi
                      /\ lo' <= people_in_zone item <= hi') ts ->
  exists out,
    prepareChartData format_HHmm (stats_of ts) = Returned out
    /\ Forall (fun p => lo <= Total_People p <= hi /\ lo' <= In_Zone p <= hi') out.
Proof.
  apply prepareChartData_pointwise.
  - intros item H. exact H.
  - intros chunk p HF Hp.
    apply aggregate_chunk_of_nonempty in Hp. destruct Hp as (Hne & -> & ->).
    split; apply avg_within; try assumption;
      (eapply Forall_impl; [|exact HF]); cbv beta; tauto.
Qed.

(** X3. When no frame has more people in the zone than in total, no chart
    point has. *)
Theorem prepareChartData_zone_le_total (ts : list point) :
  Forall (fun item => people_in_zone item <= total_people item) ts ->
  exists out,
    prepareChartData format_HHmm (stats_of ts) = Returned out
    /\ Forall (fun p => In_Zone p <= Total_People p) out.
Proof.
  apply prepareChartData_pointwise.
  - intros item H. exact H.
  - intros chunk p HF Hp.
    apply aggregate_chunk_of_nonempty in Hp. destruct Hp as (Hne & -> & ->).
    now apply avg_le_avg.
Qed.

Lemma ceil_div50_tight (N : nat) :
  (0 < N)%nat -> (50 * (ceil_div50 N - 1) < N)%nat.
Proof.
  intros H. unfold ceil_div50.
  pose proof (Nat.div_mod_eq (N + 49) 50) as E.
  pose proof (Nat.mod_upper_bound (N + 49) 50 ltac:(lia)) as B.
  lia.
Qed.

(** X1. A series of more than 50 frames gives between 26 and 50 chart
    points: as many as there are chunks of [ceil(N/50)] frames, the last
    one possibly shorter. *)
Theorem prepareChartData_point_count (ts : list point) :
  (50 < List.length ts)%nat ->
  exists out,
    prepareChartData format_HHmm (stats_of ts) = Returned out
    /\ ((List.length out - 1) * chunkSize_of ts < List.length ts
        <= List.length out * chunkSize_of ts)%nat
    /\ (26 <= List.length out <= 50)%nat.
Proof.
  intros H.
  destruct (prepareChartData_point_of_chunk ts H) as (out & E & Hnth).
  exists out. split; [exact E|].
  assert (Hne : ts <> []) by (destruct ts; [simpl in H; lia | discriminate]).
  pose proof (chunkSize_of_pos _ ts Hne) as Hc.
  set (c := chunkSize_of ts) in *.
  assert (Hsome : forall k, (k * c < List.length ts)%nat -> nth_error out k <> None).
  { intros k Hk. rewrite Hnth.
    destruct (Nat.ltb_spec (k * c) (List.length ts)); [|lia].
    rewrite slice_from.
    destruct (skipn (k * c) ts) as [|x r] eqn:Er.
    { apply skipn_all_iff in Er. lia. }
    destruct c; [lia|]. simpl. discriminate. }
  assert (Hnone : forall k, (List.length ts <= k * c)%nat -> nth_error out k = None).
  { intros k Hk. rewrite Hnth.
    destruct (Nat.ltb_spec (k * c) (List.length ts)); [lia | reflexivity]. }
  assert (Hup : (List.length ts <= List.length out * c)%nat).
  { destruct (Nat.le_gt_cases (List.length ts) (List.length out * c)) as [G|G];
      [exact G|].
    exfalso. apply (Hsome _ G). apply nth_error_None. lia. }
  assert (Hlow : ((List.length out - 1) * c < List.length ts)%nat).
  { destruct (Nat.le_gt_cases (List.length ts) ((List.length out - 1) * c)) as [G|G];
      [|exact G].
    apply Hnone in G. apply nth_error_None in G.
    assert (List.length out = 0)%nat by lia. nia. }
  split; [split; assumption|].
  subst c. rewrite chunkSize_of_spec in *.
  pose proof (ceil_div50_bounds (List.length ts)) as [_ B].
  pose proof (ceil_div50_tight (List.length ts) ltac:(lia)) as T.
  nia.
Qed.

End ChartMore.

(* ===================================================================== *)
(** * pages/Dashboard.jsx: the names of the labeled frames                *)
(* ===================================================================== *)

Section LabeledNames.
Import Dashboard.
Local Open Scope string_scope.

Lemma append_cancel_r (a b s : string) : a ++ s = b ++ s -> a = b.
Proof.
  assert (L : forall x y, String.length (x ++ y) = (String.length x + String.length y)%nat).
  { induction x; simpl; intros; [reflexivity | now rewrite IHx]. }
  revert b. induction a as [|c a IH]; intros [|d b] H; simpl in *.
  - reflexivity.
  - apply (f_equal String.length) in H. simpl in H. rewrite L in H. lia.
  - apply (f_equal String.length) in H. simpl in H. rewrite L in H. lia.
  - injection H as -> H. f_equal. now apply IH.
Qed.

Lemma to_uint_nonnil (i : nat) : Nat.to_uint i <> Nil.
Proof.
  rewrite <- (DecimalNat.Unsigned.of_to i) at 1. rewrite DecimalNat.Unsigned.to_of.
  unfold unorm. destruct (nzhead (Nat.to_uint i)); discriminate.
Qed.

Lemma padded_digits (k : nat) (d : uint) :
  repeat_char "0" k ++ NilEmpty.string_of_uint d
  = NilEmpty.string_of_uint (Nat.iter k D0 d).
Proof. induction k as [|k IH]; simpl; [reflexivity | now rewrite IH]. Qed.

Lemma of_uint_leading_zeros (k : nat) (d : uint) :
  Nat.of_uint (Nat.iter k D0 d) = Nat.of_uint d.
Proof.
  rewrite <- (DecimalNat.Unsigned.of_uint_norm (Nat.iter k D0 d)), <- (DecimalNat.Unsigned.of_uint_norm d).
  unfold unorm. now rewrite DecimalFacts.nzhead_iter_D0.
Qed.

Lemma padStart_zero_value (i n : nat) :
  exists d, padStart (String_of_nat i) n "0" = NilEmpty.string_of_uint d
            /\ Nat.of_uint d = i.
Proof.
  unfold padStart, String_of_nat.
  exists (Nat.iter (n - String.length (NilZero.string_of_uint (Nat.to_uint i))) D0
                   (Nat.to_uint i)).
  split.
  - rewrite <- padded_digits. f_equal.
    pose proof (to_uint_nonnil i). unfold NilZero.string_of_uint.
    destruct (Nat.to_uint i); [congruence | reflexivity ..].
  - rewrite of_uint_leading_zeros. apply DecimalNat.Unsigned.of_to.
Qed.

(** X4. Two labeled frames with different indexes get different file
    names, also beyond six digits. *)
Theorem labeled_name_injective (i j : nat) :
  i <> j -> labeled_name i <> labeled_name j.
Proof.
  intros Hij H. apply Hij. clear Hij.
  unfold labeled_name in H. apply append_cancel_r in H.
  destruct (padStart_zero_value i 6) as (di & Ei & Vi).
  destruct (padStart_zero_value j 6) as (dj & Ej & Vj).
  rewrite Ei, Ej in H.
  apply (f_equal NilEmpty.uint_of_string) in H. rewrite !NilEmpty.usu in H.
  injection H as ->. congruence.
Qed.
End LabeledNames.

(* ===================================================================== *)
(** * More of the event loop: stepping and exploring                      *)
(* ===================================================================== *)

Section LoopFacts.
Import Async Loop.

Variable req : Type.
Variable resp : req -> Type.
Variable act : Type.

Lemma step_inv (c c' : config req resp act) (l : list (event req resp act)) :
  step c l c' -> step_cases c l c'.
Proof. destruct 1; unfold step_cases; simpl; eauto 10. Qed.

Lemma reach_inv (c c2 : config req resp act) (t : list (event req resp act)) :
  reach c t c2 ->
  (t = [] /\ c2 = c)
  \/ exists l c1 t', t = l ++ t' /\ step_cases c l c1 /\ reach c1 t' c2.
Proof.
  destruct 1 as [c | c l c1 t c2 S R]; [left; auto|].
  right. exists l, c1, t. auto using step_inv.
Qed.

Lemma waiting_single (s0 s : suspended req resp act) w1 w2 :
  [s0] = w1 ++ s :: w2 -> w1 = [] /\ s = s0 /\ w2 = [].
Proof.
  destruct w1 as [|x w1]; simpl; intros H.
  - injection H as -> <-. auto.
  - injection H as _ H. destruct w1; discriminate.
Qed.

Lemma bind2_Ret_any {A B} (r : A) (fr : A -> prog req resp act B)
    (fe : error -> prog req resp act B) :
  bind2 (Ret r) fr fe = fr r.
Proof. reflexivity. Qed.

Lemma bind2_Throw_any {A B} (e : error) (fr : A -> prog req resp act B)
    (fe : error -> prog req resp act B) :
  bind2 (@Throw req resp act A e) fr fe = fe e.
Proof. reflexivity. Qed.

Lemma actions_app (h t : list (event req resp act)) :
  actions (h ++ t) = actions h ++ actions t.
Proof.
  induction h as [|e h IH]; simpl; [reflexivity|].
  destruct e; simpl; now rewrite IH.
Qed.

Lemma requests_app (h t : list (event req resp act)) :
  requests (h ++ t) = requests h ++ requests t.
Proof.
  induction h as [|e h IH]; simpl; [reflexivity|].
  destruct e; simpl; now rewrite IH.
Qed.

End LoopFacts.

(** Normal form of a function body's head. *)
Ltac body_norm :=
  cbv beta;
  unfold Async.bind, Async.try_catch, Async.try_finally, Async.do,
         Async.confirm, Async.await, Async.spawn;
  cbn [Async.bind2 negb];
  rewrite ?bind2_Ret_any, ?bind2_Throw_any.

(** Steps through a body whose trace so far is known event by event;
    [solve_inv] proves the invariant at each point. *)
Ltac wp_known solve_inv :=
  repeat
    (body_norm;
     lazymatch goal with
     | |- Async.all_traces (Async.Do _ _) _ _ _ _ =>
         apply all_traces_Do; [solve_inv|]
     | |- Async.all_traces (Async.Ret _) _ _ _ _ =>
         apply all_traces_Ret; [solve_inv|]
     | |- Async.all_traces (Async.Throw _) _ _ _ _ =>
         apply all_traces_Throw; [solve_inv|]
     | |- Async.all_traces (Async.Confirm _ _) _ _ _ _ =>
         apply all_traces_Confirm; [solve_inv | intros [|]; cbn [negb]]
     | |- Async.all_traces (Async.Await _ _) _ _ _ _ =>
         apply all_traces_Await; [solve_inv | solve_inv | intros [?a | ?e]]
     end).

(* ===================================================================== *)
(** * pages/ZoneDrawer.jsx: the rest of the page                          *)
(* ===================================================================== *)

Section ZoneEditFacts.
Import Api Async Loop ZoneDrawer ZoneEdit.
Local Open Scope string_scope.

(** X8. The canvas computed when the sample image has loaded has a
    positive size and is as wide as the image, or as the container less
    40 px when the image is wider than that; a container whose width is
    not known counts as 800 px wide. *)
Theorem onload_fits_image (st : State) (offsetWidth : option Q) (img : Image) :
  (0 < width img)%Q -> (0 < height img)%Q ->
  (40 < containerWidth offsetWidth)%Q ->
  let st' := onload st offsetWidth img in
  imageObj st' = Some img
  /\ (0 < canvas_width (dimensions st'))%Q
  /\ (0 < canvas_height (dimensions st'))%Q
  /\ (canvas_width (dimensions st') <= width img)%Q
  /\ (canvas_width (dimensions st') <= containerWidth offsetWidth - 40)%Q
  /\ ((width img <= containerWidth offsetWidth - 40)%Q ->
      (canvas_width (dimensions st') == width img)%Q)
  /\ ((containerWidth offsetWidth - 40 <= width img)%Q ->
      (canvas_width (dimensions st') == containerWidth offsetWidth - 40)%Q)
  /\ (offsetWidth = None -> containerWidth offsetWidth = 800%Q)
  /\ (forall w, offsetWidth = Some w -> (w == 0)%Q -> containerWidth offsetWidth = 800%Q)
  /\ points st' = points st /\ isDrawing st' = isDrawing st.
Proof.
  intros Hw Hh Hc. cbv zeta. unfold onload.
  cbn [imageObj dimensions canvas_width canvas_height points isDrawing].
  set (w := Qmin (containerWidth offsetWidth - 40) (width img)).
  assert (Hpos : (0 < w)%Q).
  { subst w. apply Q.min_glb_lt; [|exact Hw].
    apply (Qplus_lt_l _ _ 40). ring_simplify. exact Hc. }
  assert (Hh' : (0 < w * (height img / width img))%Q).
  { apply Qmult_lt_0_compat; [exact Hpos|].
    apply Qlt_shift_div_l; [exact Hw|]. now rewrite Qmult_0_l. }
  split; [reflexivity|]. split; [exact Hpos|]. split; [exact Hh'|].
  split; [apply Q.le_min_r|]. split; [apply Q.le_min_l|].
  split; [intros H; subst w; now apply Q.min_r|].
  split; [intros H; subst w; now apply Q.min_l|].
  split; [intros ->; reflexivity|].
  split; [|split; reflexivity].
  intros w0 -> Hz. unfold containerWidth.
  destruct (Qeq_bool w0 0) eqn:E; [reflexivity|].
  apply Qeq_bool_neq in E. destruct (E Hz).
Qed.

Lemma same_points_refl (ps : list (Q * Q)) : same_points ps ps.
Proof. induction ps; constructor; auto. split; reflexivity. Qed.

Lemma same_points_app (ps ps' qs qs' : list (Q * Q)) :
  same_points ps ps' -> same_points qs qs' -> same_points (ps ++ qs) (ps' ++ qs').
Proof. apply Forall2_app. Qed.

Lemma same_points_trans (ps qs rs : list (Q * Q)) :
  same_points ps qs -> same_points qs rs -> same_points ps rs.
Proof.
  intros H. revert rs. induction H as [|p q ps qs [H1 H2] _ IH]; intros rs K;
    inversion K as [|? r ? rs' [K1 K2] K']; subst; constructor.
  - split; etransitivity; eassumption.
  - now apply IH.
Qed.

Lemma click_stores (st : State) (img : Image) (pos : Q * Q) :
  isDrawing st = true -> imageObj st = Some img ->
  (0 < width img)%Q -> (0 < height img)%Q ->
  (0 < canvas_width (dimensions st))%Q -> (0 < canvas_height (dimensions st))%Q ->
  exists st',
    handleCanvasClick st pos = Returned st'
    /\ isDrawing st' = true /\ imageObj st' = Some img
    /\ dimensions st' = dimensions st
    /\ List.length (points st') = S (List.length (points st))
    /\ same_points (getCanvasPoints st') (getCanvasPoints st ++ [pos]).
Proof.
  intros Hd Hi Hw Hh Hcw Hch.
  unfold handleCanvasClick. rewrite Hd, Hi. cbn [negb].
  eexists. split; [reflexivity|].
  unfold getCanvasPoints. cbn [apply_action imageObj points dimensions isDrawing].
  rewrite Hi, map_app, length_app. cbn [map List.length].
  repeat split; auto; [lia|].
  apply same_points_app; [apply same_points_refl|].
  apply Qpos_nonzero in Hw, Hh, Hcw, Hch.
  constructor; [|constructor]. destruct pos as [x y]. cbn [fst snd].
  split; field; auto.
Qed.

Lemma clicks_stored (st : State) (img : Image)
    (positions : list (Q * Q)) :
  isDrawing st = true -> imageObj st = Some img ->
  (0 < width img)%Q -> (0 < height img)%Q ->
  (0 < canvas_width (dimensions st))%Q -> (0 < canvas_height (dimensions st))%Q ->
  exists st',
    clicks st positions = Returned st'
    /\ List.length (points st')
       = (List.length (points st) + List.length positions)%nat
    /\ same_points (getCanvasPoints st') (getCanvasPoints st ++ positions).
Proof.
  intros Hd Hi Hw Hh. revert st Hd Hi.
  induction positions as [|pos rest IH]; intros st Hd Hi Hcw Hch.
  - exists st. rewrite app_nil_r, Nat.add_0_r.
    repeat split. apply same_points_refl.
  - destruct (click_stores st img pos Hd Hi Hw Hh Hcw Hch)
      as (st1 & E1 & Hd1 & Hi1 & Hdim & Hlen & Hsame).
    destruct (IH st1 Hd1 Hi1) as (st' & E & Hlen' & Hsame');
      [now rewrite Hdim | now rewrite Hdim |].
    exists st'. cbn [clicks]. rewrite E1. split; [exact E|]. split.
    + rewrite Hlen', Hlen. simpl. lia.
    + eapply same_points_trans; [exact Hsame'|].
      change (pos :: rest) with ([pos] ++ rest)%list. rewrite app_assoc.
      apply same_points_app; [exact Hsame | apply same_points_refl].
Qed.

Lemma clicks_ignored (st : State) (positions : list (Q * Q)) :
  isDrawing st = false -> clicks st positions = Returned st.
Proof.
  intros Hd. induction positions as [|pos rest IH]; [reflexivity|].
  cbn [clicks]. unfold handleCanvasClick. rewrite Hd. cbn [negb]. exact IH.
Qed.

Lemma clicks_appended (st : State) (img : Image) (positions : list (Q * Q)) :
  isDrawing st = true -> imageObj st = Some img ->
  exists st' added,
    clicks st positions = Returned st'
    /\ points st' = (points st ++ added)%list
    /\ List.length added = List.length positions
    /\ isDrawing st' = true
    /\ imageObj st' = Some img
    /\ threshold st' = threshold st
    /\ existingZone st' = existingZone st
    /\ dimensions st' = dimensions st.
Proof.
  revert st. induction positions as [|pos rest IH]; intros st Hd Hi.
  - exists st, []. rewrite app_nil_r. repeat split; auto.
  - cbn [clicks]. unfold handleCanvasClick. rewrite Hd, Hi. cbn [negb]. cbv zeta.
    match goal with
    | |- context [apply_action st ?a] => set (st1 := apply_action st a)
    end.
    destruct (IH st1) as (st' & added & E & Hp & Hl & Hd' & Hi' & Ht & Hz & Hdim);
      [exact Hd | exact Hi |].
    exists st'. eexists (_ :: added). split; [exact E|].
    split; [rewrite Hp; subst st1; cbn [apply_action points];
            rewrite <- app_assoc; reflexivity|].
    split; [cbn [List.length]; now rewrite Hl|].
    repeat split; assumption.
Qed.

(** X9. Clicks on the stage are ignored while the page is not drawing;
    while it is, and an image is loaded, each click appends one point to
    the points already stored and changes nothing else of the zone; a click
    before any image is loaded throws.  After [handleClearZone] there are as
    many points as clicks made since. *)
Theorem clicks_add_one_point_each (st : State) (positions : list (Q * Q)) :
  (isDrawing st = false -> clicks st positions = Returned st)
  /\ (isDrawing st = true -> imageObj st = None -> positions <> [] ->
      clicks st positions = Threw)
  /\ (isDrawing st = true -> imageObj st <> None ->
      exists st' added,
        clicks st positions = Returned st'
        /\ points st' = (points st ++ added)%list
        /\ List.length added = List.length positions
        /\ isDrawing st' = true
        /\ threshold st' = threshold st
        /\ existingZone st' = existingZone st)
  /\ (imageObj st <> None ->
      exists st',
        clicks (handleClearZone st) positions = Returned st'
        /\ List.length (points st') = List.length positions
        /\ isDrawing st' = true).
Proof.
  split; [apply clicks_ignored|]. split; [|split].
  - intros Hd Hi Hne. destruct positions as [|pos rest]; [congruence|].
    cbn [clicks]. unfold handleCanvasClick. rewrite Hd, Hi. reflexivity.
  - intros Hd Hi. destruct (imageObj st) as [img|] eqn:Ei; [|congruence].
    destruct (clicks_appended st img positions Hd Ei)
      as (st' & added & E & Hp & Hl & Hd' & _ & Ht & Hz & _).
    exists st', added. repeat split; assumption.
  - intros Hi. destruct (imageObj st) as [img|] eqn:Ei; [|congruence].
    destruct (clicks_appended (handleClearZone st) img positions)
      as (st' & added & E & Hp & Hl & Hd' & _); [reflexivity | exact Ei |].
    exists st'. split; [exact E|]. split; [|exact Hd'].
    rewrite Hp. unfold handleClearZone. cbn [apply_action points app]. exact Hl.
Qed.

(** X22. In exact arithmetic (coordinates as rationals, the rounding of
    doubles aside, as for a single click in C8): while the page is drawing,
    the vertices [getCanvasPoints] draws after a sequence of clicks are the
    vertices drawn before followed by the positions clicked, and after
    [handleClearZone] they are the positions clicked since. *)
Theorem clicks_drawn_where_clicked (st : State) (img : Image)
    (positions : list (Q * Q)) :
  imageObj st = Some img ->
  (0 < width img)%Q -> (0 < height img)%Q ->
  (0 < canvas_width (dimensions st))%Q -> (0 < canvas_height (dimensions st))%Q ->
  (isDrawing st = true ->
   exists st',
     clicks st positions = Returned st'
     /\ same_points (getCanvasPoints st') (getCanvasPoints st ++ positions)%list)
  /\ (exists st',
        clicks (handleClearZone st) positions = Returned st'
        /\ same_points (getCanvasPoints st') positions).
Proof.
  intros Hi Hw Hh Hcw Hch. split.
  - intros Hd.
    destruct (clicks_stored st img positions Hd Hi Hw Hh Hcw Hch)
      as (st' & E & _ & Hsame).
    exists st'. split; assumption.
  - destruct (clicks_stored (handleClearZone st) img positions)
      as (st' & E & Hlen & Hsame); try assumption; try reflexivity.
    exists st'. split; [exact E|].
    unfold getCanvasPoints at 2 in Hsame.
    unfold handleClearZone in Hsame.
    cbn [apply_action imageObj points dimensions] in Hsame.
    rewrite Hi in Hsame. exact Hsame.
Qed.

(** X11. [handleDeleteZone] sends at most one delete request, for the
    selected camera, and only after the user has confirmed; a finished run
    was declined (nothing done), or has cleared the points and the zone, or
    has left the state as it was and told the failure. *)
Theorem handleDeleteZone_outcomes (st : State) (cam : Camera)
    (t : list (event ZoneEdit.request ZoneEdit.response action))
    (c : config ZoneEdit.request ZoneEdit.response action) :
  selectedCamera st = Some cam ->
  reach (start (handleDeleteZone st)) t c ->
  (requests t = [] \/ requests t = [zoneAPI_delete (id cam)])
  /\ (requests t = [] \/ In (EvConfirm delete_question true) t)
  /\ (terminal c ->
      delete_declined t \/ delete_done st (id cam) t \/ delete_failed st (id cam) t).
Proof.
  intros Hcam R.
  pose (Inv := fun t : list (event ZoneEdit.request ZoneEdit.response action) =>
                 (requests t = [] \/ requests t = [zoneAPI_delete (id cam)])
                 /\ (requests t = [] \/ In (EvConfirm delete_question true) t)).
  pose (Qr := fun (_ : unit) (t : list (event ZoneEdit.request ZoneEdit.response action)) =>
                delete_declined t \/ delete_done st (id cam) t
                \/ delete_failed st (id cam) t).
  destruct (all_traces_sound _ _ _ Qr (fun _ _ => False) Inv
              (handleDeleteZone st) t c) as [[H1 H2] H3]; [|exact R|].
  { unfold handleDeleteZone. rewrite Hcam. subst Inv Qr.
    wp_known ltac:(cbv beta; simpl; intuition (try discriminate; eauto)).
    - destruct a. right. left. unfold delete_done. simpl. auto 10.
    - right. right. unfold delete_failed. simpl. split; [eauto|]. auto 10.
    - left. unfold delete_declined. simpl. auto. }
  split; [exact H1|]. split; [exact H2|].
  intros Hend. destruct (H3 Hend) as [[r K] | [e []]]. exact K.
Qed.

End ZoneEditFacts.

(* ===================================================================== *)
(** * pages/ZoneDrawer.jsx: what saving a zone does                       *)
(* ===================================================================== *)

(** One step of exploring the runs from a known configuration: either the
    run stops there ([stop] proves the goal) or the loop takes a step. *)
Ltac explore_norm R :=
  cbv beta in R;
  unfold Async.start, Async.bind, Async.try_catch, Async.try_finally, Async.do,
         Async.confirm, Async.await, Async.spawn in R;
  cbn [Async.bind2 Async.resume Async.susp_req app negb] in R;
  rewrite ?bind2_Ret_any, ?bind2_Throw_any in R.

(** The loop's step from a known configuration, spelled out. *)
Ltac advance S :=
  lazymatch type of S with
  | _ = _ /\ _ = _ => destruct S as [-> ->]
  | exists b : bool, _ => destruct S as ([|] & -> & ->)
  | exists w1 s w2 o, _ =>
      let Hw := fresh "Hw" in
      destruct S as (?w1 & ?s & ?w2 & ?o & Hw & -> & ->);
      first
        [ apply waiting_single in Hw; destruct Hw as (-> & -> & ->);
          cbn [Async.susp_req] in *
        | destruct w1; discriminate Hw ]
  end.

(** Explores the runs from the configuration in [R] until an answer of
    the environment has to be looked at. *)
Ltac explore R stop :=
  repeat
    (explore_norm R;
     let S := fresh "S" in
     apply reach_inv in R;
     destruct R as [[-> ->] | (?l & ?c1 & ?t' & -> & S & R)];
     [ stop
     | unfold Loop.step_cases in S; cbn [Async.stack Async.waiting app] in S;
       advance S ]).

(** Membership in a list that is known element by element. *)
Ltac in_tac := cbn [In app]; solve [repeat first [left; reflexivity | right]].

Section ZoneSaveFacts.
Import Api Async Loop ZoneDrawer ZoneSave.
Local Open Scope string_scope.

Ltac stop_check :=
  split;
  [ unfold asked, read_back, payload; cbn [app]; reflexivity
  | first [ intros [? ?]; discriminate | intros _; reflexivity ] ].

Ltac stop_save st cam :=
  first
    [ exists (asked st cam (Rejected TypeError)
              ++ [ EvDo (console_error "Error saving zone:" TypeError);
                   EvDo (alert "Failed to save zone");
                   EvDo (setLoading false) ])%list; eexists;
      split; [apply save_refused | stop_check]
    | eexists _, _; split; [eapply save_refused | stop_check]
    | eexists _, _; split; [eapply save_read_none | stop_check]
    | eexists _, _; split; [eapply save_read | stop_check]
    | eexists _, _; split; [eapply save_read_failed | stop_check] ].

Lemma handleSaveZone_runs (st : State) (cam : Camera) (t : trace)
    (c : config request response action) :
  (3 <= List.length (points st))%nat ->
  selectedCamera st = Some cam ->
  reach (start (handleSaveZone st)) t c ->
  exists full rest,
    complete_save st cam full /\ full = (t ++ rest)%list /\ (terminal c -> rest = []).
Proof.
  intros Hlen Hcam R.
  unfold handleSaveZone, loadExistingZone in R. rewrite Hcam in R.
  destruct (Nat.ltb_spec (List.length (points st)) 3) as [?|_]; [lia|].
  explore R ltac:(stop_save st cam).
  destruct o as [[]|e]; explore R ltac:(stop_save st cam).
  destruct o as [[zone|]|e]; explore R ltac:(stop_save st cam).
Qed.

Lemma submitted_app (t1 t2 : trace) :
  submitted (t1 ++ t2)%list = (submitted t1 ++ submitted t2)%list.
Proof.
  induction t1 as [|[a | m b | q | q o] t1 IH]; simpl; auto.
  destruct q; simpl; rewrite ?IH; reflexivity.
Qed.

(** X10. With three points or more [handleSaveZone] submits the drawn zone
    once; when everything has settled [loading] is false, and either the
    save was refused and the drawing is as it was, or the page has left
    drawing mode and shows what the server then returned for the camera:
    its zone, no zone (the points are cleared), or, the read failing, the
    points as drawn. *)
Theorem handleSaveZone_saves_then_reloads (st : State) (cam : Camera) (t : trace)
    (c : config request response action) :
  (3 <= List.length (points st))%nat ->
  selectedCamera st = Some cam ->
  reach (start (handleSaveZone st)) t c ->
  (submitted t = [] \/ submitted t = [payload st cam])
  /\ (terminal c ->
      submitted t = [payload st cam]
      /\ loading (state_after st t) = false
      /\ dimensions (state_after st t) = dimensions st
      /\ ((exists e,
             In (EvSettle (zoneAPI_set (payload st cam)) (Rejected e)) t
             /\ requests t = [zoneAPI_set (payload st cam)]
             /\ In (EvDo (alert "Failed to save zone")) t
             /\ state_after st t = apply_action st (setLoading false))
          \/ (In (EvSettle (zoneAPI_set (payload st cam)) (Fulfilled tt)) t
              /\ requests t = [zoneAPI_set (payload st cam); zoneAPI_get (id cam)]
              /\ In (EvDo (alert "Zone saved successfully!")) t
              /\ isDrawing (state_after st t) = false
              /\ ((exists zone,
                     In (EvSettle (zoneAPI_get (id cam)) (Fulfilled (Some zone))) t
                     /\ points (state_after st t) = zone_points zone
                     /\ threshold (state_after st t) = zone_threshold zone
                     /\ existingZone (state_after st t) = Some zone)
                  \/ (In (EvSettle (zoneAPI_get (id cam)) (Fulfilled None)) t
                      /\ points (state_after st t) = []
                      /\ threshold (state_after st t) = threshold st
                      /\ existingZone (state_after st t) = None)
                  \/ (exists e,
                        In (EvSettle (zoneAPI_get (id cam)) (Rejected e)) t
                        /\ points (state_after st t) = points st
                        /\ threshold (state_after st t) = threshold st
                        /\ existingZone (state_after st t) = existingZone st))))).
Proof.
  intros Hlen Hcam R.
  destruct (handleSaveZone_runs st cam t c Hlen Hcam R) as (full & rest & Hfull & E & Hend).
  split.
  - assert (K : submitted full = [payload st cam]) by (destruct Hfull; reflexivity).
    rewrite E, submitted_app in K.
    destruct (submitted t) as [|p l]; [left; reflexivity|].
    right. destruct l; [|destruct l; discriminate].
    simpl in K. congruence.
  - intros Ht. rewrite (Hend Ht), app_nil_r in E. subst t.
    destruct Hfull as [e | zone | | e];
      (split; [reflexivity|]); (split; [reflexivity|]); (split; [reflexivity|]).
    + left. exists e. simpl. auto 10.
    + right. simpl. repeat (split; [solve [auto 10]|]).
      left. exists zone. simpl. auto 12.
    + right. simpl. repeat (split; [solve [auto 10]|]).
      right. left. simpl. auto 12.
    + right. simpl. repeat (split; [solve [auto 10]|]).
      right. right. exists e. simpl. auto 12.
Qed.

End ZoneSaveFacts.

(* ===================================================================== *)
(** * pages/CameraManager.jsx: the annotation page                        *)
(* ===================================================================== *)

Section AnnotationPageFacts.
Import Async Loop AnnotationPage.

Lemma Qmin_scale (a b s : Q) : (0 < s)%Q -> (Qmin (a * s) (b * s) == Qmin a b * s)%Q.
Proof.
  intros Hs. destruct (Qlt_le_dec b a) as [H|H].
  - rewrite (Q.min_r a b) by (apply Qlt_le_weak; exact H).
    apply Q.min_r. apply Qmult_le_compat_r; [|apply Qlt_le_weak; exact Hs].
    apply Qlt_le_weak; exact H.
  - rewrite (Q.min_l a b) by exact H.
    apply Q.min_l. apply Qmult_le_compat_r; [exact H|apply Qlt_le_weak; exact Hs].
Qed.

Lemma Qabs_scale (a b s : Q) :
  (0 < s)%Q -> (Qabs (b * s - a * s) == Qabs (b - a) * s)%Q.
Proof.
  intros Hs.
  assert (E : (b * s - a * s == (b - a) * s)%Q) by ring.
  rewrite E, Qabs_Qmult, (Qabs_pos s); [reflexivity|].
  apply Qlt_le_weak; exact Hs.
Qed.

(** Where a drag from [p] to [q] is drawn, in canvas coordinates. *)
Lemma drag_geometry (p q s s' : Q) :
  (0 < s)%Q -> (s * s' == 1)%Q ->
  (Qmin (p * s) (q * s) * s' == Qmin p q)%Q
  /\ ((Qmax (p * s) (q * s) - Qmin (p * s) (q * s)) * s' == Qabs (q - p))%Q.
Proof.
  intros Hs E. split.
  - rewrite Qmin_scale by exact Hs. rewrite <- Qmult_assoc, E. ring.
  - rewrite span_of_extremes, Qabs_scale by exact Hs.
    rewrite <- Qmult_assoc, E. ring.
Qed.

Lemma scale_inverse (a b : Q) : (0 < a)%Q -> (0 < b)%Q ->
  (0 < a / b)%Q /\ (a / b * (b / a) == 1)%Q.
Proof.
  intros Ha Hb. split.
  - apply Qlt_shift_div_l; [exact Hb | now rewrite Qmult_0_l].
  - apply Qpos_nonzero in Ha, Hb. field. auto.
Qed.


Ltac page_simpl :=
  cbn [apply_action isDrawingMode isDrawing newBbox imageObj bboxes dimensions
       selectedCamera unlabeledImages currentImageIndex inferenceResults
       drawing with_drawing
       AnnotationTool.isDrawingMode AnnotationTool.isDrawing AnnotationTool.newBbox
       AnnotationTool.imageObj AnnotationTool.bboxes
       NewBbox.x1 NewBbox.x2 NewBbox.y1 NewBbox.y2 negb andb fst snd] in *.

Lemma dragging (st : State) (img : AnnotationTool.Image) (p q : Q * Q) :
  isDrawingMode st = true -> imageObj st = Some img ->
  let sx := (AnnotationTool.width img / canvas_width (dimensions st))%Q in
  let sy := (AnnotationTool.height img / canvas_height (dimensions st))%Q in
  let st2 := handleMouseMove (handleMouseDown st p) q in
  isDrawing st2 = true /\ imageObj st2 = Some img /\ bboxes st2 = bboxes st
  /\ dimensions st2 = dimensions st /\ isDrawingMode st2 = true
  /\ newBbox st2 = Some {| NewBbox.x1 := fst p * sx; NewBbox.y1 := snd p * sy;
                           NewBbox.x2 := fst q * sx; NewBbox.y2 := snd q * sy |}.
Proof.
  intros Hm Hi. cbv zeta. unfold handleMouseDown. rewrite Hm, Hi.
  unfold handleMouseMove. page_simpl. rewrite Hi. page_simpl.
  repeat split; auto.
Qed.

(** The preview rectangle, in exact arithmetic. *)
Lemma preview_rectangle (st : State) (img : AnnotationTool.Image) (p q : Q * Q) :
  isDrawingMode st = true -> imageObj st = Some img ->
  (0 < AnnotationTool.width img)%Q -> (0 < AnnotationTool.height img)%Q ->
  (0 < canvas_width (dimensions st))%Q -> (0 < canvas_height (dimensions st))%Q ->
  exists preview,
    getCanvasBboxes (handleMouseMove (handleMouseDown st p) q)
    = getCanvasBboxes (cancelDrawing st) ++ [preview]
    /\ shown preview = None
    /\ (x preview == Qmin (fst p) (fst q))%Q
    /\ (y preview == Qmin (snd p) (snd q))%Q
    /\ (width preview == Qabs (fst q - fst p))%Q
    /\ (height preview == Qabs (snd q - snd p))%Q.
Proof.
  intros Hm Hi Hw Hh Hcw Hch.
  destruct (dragging st img p q Hm Hi) as (Hd & Hi2 & Hb & Hdim & _ & Hn).
  cbv zeta in Hn.
  unfold getCanvasBboxes at 1. rewrite Hi2, Hn, Hd, Hb, Hdim. cbv zeta.
  eexists. split.
  { unfold getCanvasBboxes, cancelDrawing. page_simpl. rewrite Hi. reflexivity. }
  cbn [shown x y width height NewBbox.x1 NewBbox.x2 NewBbox.y1 NewBbox.y2].
  destruct (scale_inverse _ _ Hw Hcw) as [Hsx Ex].
  destruct (scale_inverse _ _ Hh Hch) as [Hsy Ey].
  destruct (drag_geometry (fst p) (fst q) _ _ Hsx Ex) as [Gx1 Gx2].
  destruct (drag_geometry (snd p) (snd q) _ _ Hsy Ey) as [Gy1 Gy2].
  split; [reflexivity|]. split; [exact Gx1|]. split; [exact Gy1|].
  split.
  - rewrite <- Gx2. ring.
  - rewrite <- Gy2. ring.
Qed.


Lemma Qabs_drag (p q s : Q) : (0 < s)%Q -> (Qabs (q * s - p * s) == Qabs (q - p) * s)%Q.
Proof.
  intros Hs. rewrite <- Qabs_scale by exact Hs.
  apply Qabs_wd. ring.
Qed.

(** The committed rectangle, in exact arithmetic. *)
Lemma commit_rectangle (st : State) (img : AnnotationTool.Image) (p q : Q * Q) :
  isDrawingMode st = true -> imageObj st = Some img ->
  (0 < AnnotationTool.width img)%Q -> (0 < AnnotationTool.height img)%Q ->
  (0 < canvas_width (dimensions st))%Q -> (0 < canvas_height (dimensions st))%Q ->
  let sx := (AnnotationTool.width img / canvas_width (dimensions st))%Q in
  let sy := (AnnotationTool.height img / canvas_height (dimensions st))%Q in
  let st' := handleMouseUp (handleMouseMove (handleMouseDown st p) q) in
  isDrawing st' = false /\ newBbox st' = None /\ isDrawingMode st' = true
  /\ (((Qabs (fst q - fst p) * sx <= 10 \/ Qabs (snd q - snd p) * sy <= 10)%Q
       /\ bboxes st' = bboxes st)
      \/ ((10 < Qabs (fst q - fst p) * sx)%Q /\ (10 < Qabs (snd q - snd p) * sy)%Q
          /\ exists b rect,
               bboxes st' = bboxes st ++ [b]
               /\ AnnotationTool.id b = List.length (bboxes st)
               /\ AnnotationTool.approved b = true
               /\ getCanvasBboxes st' = getCanvasBboxes (cancelDrawing st) ++ [rect]
               /\ shown rect = Some b
               /\ (x rect == Qmin (fst p) (fst q))%Q
               /\ (y rect == Qmin (snd p) (snd q))%Q
               /\ (width rect == Qabs (fst q - fst p))%Q
               /\ (height rect == Qabs (snd q - snd p))%Q)).
Proof.
  intros Hm Hi Hw Hh Hcw Hch sx sy.
  destruct (dragging st img p q Hm Hi) as (Hd & Hi2 & Hb & Hdim & Hm2 & Hn).
  fold sx sy in Hn. cbv zeta.
  set (st2 := handleMouseMove (handleMouseDown st p) q) in *.
  destruct (scale_inverse _ _ Hw Hcw) as [Hsx Ex].
  destruct (scale_inverse _ _ Hh Hch) as [Hsy Ey].
  fold sx in Hsx, Ex. fold sy in Hsy, Ey.
  unfold handleMouseUp, AnnotationTool.handleMouseUp. page_simpl.
  rewrite Hd, Hn, Hi2, Hb, Hm2. cbv zeta. page_simpl.
  split; [reflexivity|]. split; [reflexivity|]. split; [reflexivity|].
  unfold AnnotationTool.minSize.
  destruct (gt (Qabs (fst q * sx - fst p * sx)) 10) eqn:Ew;
  destruct (gt (Qabs (snd q * sy - snd p * sy)) 10) eqn:Eh; cbn [andb].
  2-4: left; split; [|reflexivity].
  - right. apply gt_spec in Ew, Eh.
    rewrite Qabs_drag in Ew, Eh by assumption.
    split; [exact Ew|]. split; [exact Eh|].
    eexists. eexists. split; [reflexivity|].
    cbn [AnnotationTool.id AnnotationTool.approved].
    split; [reflexivity|]. split; [reflexivity|].
    split.
    { unfold getCanvasBboxes, cancelDrawing. page_simpl. rewrite Hi, Hdim.
      cbv zeta. rewrite map_app. reflexivity. }
    cbn [shown x y width height AnnotationTool.x1 AnnotationTool.x2
         AnnotationTool.y1 AnnotationTool.y2].
    destruct (drag_geometry (fst p) (fst q) _ _ Hsx Ex) as [Gx1 Gx2].
    destruct (drag_geometry (snd p) (snd q) _ _ Hsy Ey) as [Gy1 Gy2].
    split; [reflexivity|]. split; [exact Gx1|]. split; [exact Gy1|].
    split; [exact Gx2 | exact Gy2].
  - right. apply not_true_iff_false in Eh. rewrite gt_spec in Eh.
    apply Qnot_lt_le in Eh. rewrite Qabs_drag in Eh by assumption. exact Eh.
  - left. apply not_true_iff_false in Ew. rewrite gt_spec in Ew.
    apply Qnot_lt_le in Ew. rewrite Qabs_drag in Ew by assumption. exact Ew.
  - left. apply not_true_iff_false in Ew. rewrite gt_spec in Ew.
    apply Qnot_lt_le in Ew. rewrite Qabs_drag in Ew by assumption. exact Ew.
Qed.



Lemma degenerate_span (a b s : Q) :
  (a == b)%Q -> (Qmax a b * s - Qmin a b * s == 0)%Q.
Proof.
  intros E.
  assert (K : (Qmax a b * s - Qmin a b * s == (Qmax a b - Qmin a b) * s)%Q) by ring.
  rewrite K, span_of_extremes.
  assert (Z : (b - a == 0)%Q) by (rewrite E; ring).
  rewrite Z. reflexivity.
Qed.

Lemma nonneg_span (a b s : Q) :
  (0 <= s)%Q -> (0 <= Qmax a b * s - Qmin a b * s)%Q.
Proof.
  intros Hs.
  assert (K : (Qmax a b * s - Qmin a b * s == (Qmax a b - Qmin a b) * s)%Q) by ring.
  rewrite K. apply Qmult_le_0_compat; [|exact Hs].
  rewrite span_of_extremes. apply Qabs_nonneg.
Qed.

(** X12. Pressing the mouse outside drawing mode does nothing.  In drawing
    mode, after a press and a move the canvas shows the committed boxes
    followed by one preview rectangle, which has a width and a height that
    are not negative, and zero along an axis on which the pointer has not
    moved; the committed boxes are untouched. *)
Theorem drag_preview (st : State) (img : AnnotationTool.Image) (p q : Q * Q) :
  imageObj st = Some img ->
  (0 < AnnotationTool.width img)%Q -> (0 < AnnotationTool.height img)%Q ->
  (0 < canvas_width (dimensions st))%Q -> (0 < canvas_height (dimensions st))%Q ->
  (isDrawingMode st = false -> handleMouseDown st p = st)
  /\ (isDrawingMode st = true ->
      let st' := handleMouseMove (handleMouseDown st p) q in
      bboxes st' = bboxes st
      /\ exists preview,
           getCanvasBboxes st' = getCanvasBboxes (cancelDrawing st) ++ [preview]
           /\ shown preview = None
           /\ (0 <= width preview)%Q
           /\ (0 <= height preview)%Q
           /\ ((fst p == fst q)%Q -> (width preview == 0)%Q)
           /\ ((snd p == snd q)%Q -> (height preview == 0)%Q)).
Proof.
  intros Hi Hw Hh Hcw Hch. split.
  { intros Hm. unfold handleMouseDown. rewrite Hm. reflexivity. }
  intros Hm. cbv zeta.
  destruct (dragging st img p q Hm Hi) as (Hd & Hi2 & Hb & Hdim & _ & Hn).
  cbv zeta in Hn. split; [exact Hb|].
  unfold getCanvasBboxes at 1. rewrite Hi2, Hn, Hd, Hb, Hdim. cbv zeta.
  eexists. split.
  { unfold getCanvasBboxes, cancelDrawing. page_simpl. rewrite Hi. reflexivity. }
  cbn [shown x y width height NewBbox.x1 NewBbox.x2 NewBbox.y1 NewBbox.y2].
  assert (Sx : (0 <= canvas_width (dimensions st) / AnnotationTool.width img)%Q).
  { apply Qlt_le_weak, Qlt_shift_div_l; [exact Hw | now rewrite Qmult_0_l]. }
  assert (Sy : (0 <= canvas_height (dimensions st) / AnnotationTool.height img)%Q).
  { apply Qlt_le_weak, Qlt_shift_div_l; [exact Hh | now rewrite Qmult_0_l]. }
  split; [reflexivity|].
  split; [now apply nonneg_span|]. split; [now apply nonneg_span|].
  split; intros E; apply degenerate_span; now rewrite E.
Qed.

(** X13. A press, a move and a release in drawing mode end the drag and
    stay in drawing mode.  At most one box is added, after the boxes there
    were: it has the next id, is approved, has no confidence and has
    [x1 <= x2] and [y1 <= y2]; the canvas then shows the boxes there were
    followed by the new one, and no preview.  A drag along which the
    pointer has not moved on one of the axes adds nothing. *)
Theorem drag_commits (st : State) (img : AnnotationTool.Image) (p q : Q * Q) :
  isDrawingMode st = true -> imageObj st = Some img ->
  let st' := handleMouseUp (handleMouseMove (handleMouseDown st p) q) in
  isDrawing st' = false /\ newBbox st' = None /\ isDrawingMode st' = true
  /\ exists added rects,
       bboxes st' = bboxes st ++ added
       /\ (List.length added <= 1)%nat
       /\ Forall (fun b =>
                    AnnotationTool.id b = List.length (bboxes st)
                    /\ AnnotationTool.approved b = true
                    /\ AnnotationTool.confidence b = None
                    /\ (AnnotationTool.x1 b <= AnnotationTool.x2 b)%Q
                    /\ (AnnotationTool.y1 b <= AnnotationTool.y2 b)%Q) added
       /\ getCanvasBboxes st' = getCanvasBboxes (cancelDrawing st) ++ rects
       /\ map shown rects = map Some added
       /\ ((fst p == fst q)%Q \/ (snd p == snd q)%Q -> added = []).
Proof.
  intros Hm Hi.
  destruct (dragging st img p q Hm Hi) as (Hd & Hi2 & Hb & Hdim & Hm2 & Hn).
  cbv zeta in Hn |- *.
  set (sx := (AnnotationTool.width img / canvas_width (dimensions st))%Q) in *.
  set (sy := (AnnotationTool.height img / canvas_height (dimensions st))%Q) in *.
  set (st2 := handleMouseMove (handleMouseDown st p) q) in *.
  unfold handleMouseUp, AnnotationTool.handleMouseUp. page_simpl.
  rewrite Hd, Hn, Hi2, Hb, Hm2. cbv zeta. page_simpl.
  split; [reflexivity|]. split; [reflexivity|]. split; [reflexivity|].
  unfold AnnotationTool.minSize.
  assert (Canvas : forall l,
    getCanvasBboxes
      (with_drawing st2
         {| AnnotationTool.isDrawingMode := true;
            AnnotationTool.isDrawing := false;
            AnnotationTool.newBbox := None;
            AnnotationTool.imageObj := Some img;
            AnnotationTool.bboxes := l |})
    = getCanvasBboxes
        (with_drawing (cancelDrawing st)
           {| AnnotationTool.isDrawingMode := false;
              AnnotationTool.isDrawing := false;
              AnnotationTool.newBbox := None;
              AnnotationTool.imageObj := Some img;
              AnnotationTool.bboxes := l |})).
  { intros l. unfold getCanvasBboxes, cancelDrawing. page_simpl.
    rewrite Hdim. reflexivity. }
  assert (Zero : forall a b s : Q, (a == b)%Q -> gt (Qabs (b * s - a * s)) 10 = false).
  { intros a b s E. apply not_true_iff_false. rewrite gt_spec.
    assert (K : (b * s - a * s == 0)%Q) by (rewrite E; ring).
    rewrite K. discriminate. }
  destruct (gt (Qabs (fst q * sx - fst p * sx)) 10
            && gt (Qabs (snd q * sy - snd p * sy)) 10) eqn:Ekeep.
  - eexists [_], [_]. split; [reflexivity|]. split; [cbn; lia|].
    split.
    { constructor; [|constructor].
      cbn [AnnotationTool.id AnnotationTool.approved AnnotationTool.confidence
           AnnotationTool.x1 AnnotationTool.x2 AnnotationTool.y1 AnnotationTool.y2].
      repeat split;
        (eapply Qle_trans; [apply Q.le_min_l | apply Q.le_max_l]). }
    split.
    { unfold getCanvasBboxes at 1, cancelDrawing. page_simpl. rewrite Hdim.
      unfold getCanvasBboxes. page_simpl. rewrite Hi. cbv zeta.
      rewrite map_app. reflexivity. }
    split; [reflexivity|].
    intros [E|E]; exfalso; apply andb_true_iff in Ekeep; destruct Ekeep as [K1 K2].
    + rewrite (Zero _ _ sx E) in K1. discriminate.
    + rewrite (Zero _ _ sy E) in K2. discriminate.
  - exists [], []. rewrite !app_nil_r. split; [reflexivity|]. split; [cbn; lia|].
    split; [constructor|]. split; [|split; reflexivity].
    unfold getCanvasBboxes, cancelDrawing. page_simpl. rewrite Hi, Hdim.
    reflexivity.
Qed.

(** X23. In exact arithmetic (coordinates as rationals, the rounding of
    doubles aside): the preview rectangle of a drag spans the press position
    and the pointer position, and on release the box is kept exactly when
    the drag is more than 10 image pixels wide and high, and is then drawn
    on the canvas where it was dragged. *)
Theorem drag_drawn_where_dragged (st : State) (img : AnnotationTool.Image)
    (p q : Q * Q) :
  isDrawingMode st = true -> imageObj st = Some img ->
  (0 < AnnotationTool.width img)%Q -> (0 < AnnotationTool.height img)%Q ->
  (0 < canvas_width (dimensions st))%Q -> (0 < canvas_height (dimensions st))%Q ->
  let sx := (AnnotationTool.width img / canvas_width (dimensions st))%Q in
  let sy := (AnnotationTool.height img / canvas_height (dimensions st))%Q in
  let st' := handleMouseUp (handleMouseMove (handleMouseDown st p) q) in
  (exists preview,
     getCanvasBboxes (handleMouseMove (handleMouseDown st p) q)
     = getCanvasBboxes (cancelDrawing st) ++ [preview]
     /\ (x preview == Qmin (fst p) (fst q))%Q
     /\ (y preview == Qmin (snd p) (snd q))%Q
     /\ (width preview == Qabs (fst q - fst p))%Q
     /\ (height preview == Qabs (snd q - snd p))%Q)
  /\ (((Qabs (fst q - fst p) * sx <= 10 \/ Qabs (snd q - snd p) * sy <= 10)%Q
       /\ bboxes st' = bboxes st)
      \/ ((10 < Qabs (fst q - fst p) * sx)%Q /\ (10 < Qabs (snd q - snd p) * sy)%Q
          /\ exists b rect,
               bboxes st' = bboxes st ++ [b]
               /\ getCanvasBboxes st' = getCanvasBboxes (cancelDrawing st) ++ [rect]
               /\ shown rect = Some b
               /\ (x rect == Qmin (fst p) (fst q))%Q
               /\ (y rect == Qmin (snd p) (snd q))%Q
               /\ (width rect == Qabs (fst q - fst p))%Q
               /\ (height rect == Qabs (snd q - snd p))%Q)).
Proof.
  intros Hm Hi Hw Hh Hcw Hch. cbv zeta. split.
  - destruct (preview_rectangle st img p q Hm Hi Hw Hh Hcw Hch)
      as (preview & E & _ & G).
    exists preview. split; assumption.
  - destruct (commit_rectangle st img p q Hm Hi Hw Hh Hcw Hch)
      as (_ & _ & _ & [K | (K1 & K2 & b & rect & E & _ & _ & G)]).
    + left. exact K.
    + right. split; [exact K1|]. split; [exact K2|].
      exists b, rect. split; assumption.
Qed.

(** ** Editing the list of boxes *)

Lemma filter_indexed_without {A} (l : list A) (index base : nat) :
  filter_indexed (fun _ idx => negb (idx =? base + index)%nat) base l
  = without index l.
Proof.
  unfold without. revert index base.
  induction l as [|a l IH]; intros index base.
  - now rewrite firstn_nil, skipn_nil.
  - cbn [filter_indexed]. destruct index as [|index].
    + rewrite Nat.add_0_r, Nat.eqb_refl. cbn [negb firstn skipn app].
      clear IH. assert (G : forall n, (base < n)%nat ->
        filter_indexed (fun (_ : A) idx => negb (idx =? base)%nat) n l = l).
      { induction l as [|b l IHl]; intros n Hn; [reflexivity|].
        cbn [filter_indexed].
        destruct (Nat.eqb_spec n base) as [->|_]; [lia|].
        cbn [negb]. f_equal. apply IHl. lia. }
      apply G. lia.
    + destruct (Nat.eqb_spec base (base + S index)) as [E|_]; [lia|].
      cbn [negb].
      change (firstn (S index) (a :: l) ++ skipn (S (S index)) (a :: l))
        with (a :: (firstn index l ++ skipn (S index) l)).
      f_equal.
      replace (base + S index)%nat with (S base + index)%nat by lia.
      apply IH.
Qed.

Lemma filter_indexed_Z {A} (l : list A) (i : Z) :
  0 <= i ->
  filter_indexed (fun _ idx => negb (Z.of_nat idx =? i)) 0 l
  = without (Z.to_nat i) l.
Proof.
  intros Hi. rewrite <- (filter_indexed_without l (Z.to_nat i) 0).
  assert (G : forall base,
    filter_indexed (fun (_ : A) idx => negb (Z.of_nat idx =? i)) base l
    = filter_indexed (fun (_ : A) idx => negb (idx =? Z.to_nat i)%nat) base l).
  { induction l as [|a l IH]; intros base; [reflexivity|].
    cbn [filter_indexed]. rewrite IH.
    destruct (Z.eqb_spec (Z.of_nat base) i), (Nat.eqb_spec base (Z.to_nat i));
      try reflexivity; lia. }
  apply G.
Qed.

Lemma without_length {A} (l : list A) (i : nat) :
  (i < List.length l)%nat -> S (List.length (without i l)) = List.length l.
Proof.
  intros H. unfold without.
  rewrite length_app, length_firstn, length_skipn. lia.
Qed.

Lemma without_beyond {A} (l : list A) (i : nat) :
  (List.length l <= i)%nat -> without i l = l.
Proof.
  intros H. unfold without.
  rewrite firstn_all2, skipn_all2, app_nil_r by lia. reflexivity.
Qed.

(** X15. [deleteBbox] removes the box at the index and nothing else; an
    index outside the list removes nothing. *)
Theorem deleteBbox_removes_one (st : State) (index : nat) :
  bboxes (deleteBbox st index) = without index (bboxes st)
  /\ ((index < List.length (bboxes st))%nat ->
      S (List.length (bboxes (deleteBbox st index))) = List.length (bboxes st))
  /\ ((List.length (bboxes st) <= index)%nat ->
      bboxes (deleteBbox st index) = bboxes st)
  /\ (forall b, In b (bboxes (deleteBbox st index)) -> In b (bboxes st)).
Proof.
  assert (E : bboxes (deleteBbox st index) = without index (bboxes st)).
  { unfold deleteBbox. cbn [apply_action bboxes].
    apply (filter_indexed_without (bboxes st) index 0). }
  rewrite E. split; [reflexivity|].
  split; [apply without_length|]. split; [apply without_beyond|].
  intros b Hb. unfold without in Hb. apply in_app_or in Hb.
  destruct Hb as [Hb|Hb]; [eapply in_firstn | eapply in_skipn]; exact Hb.
Qed.

Lemma toggle_toggle (b : AnnotationTool.Bbox) : toggle (toggle b) = b.
Proof. destruct b. unfold toggle. simpl. now rewrite negb_involutive. Qed.

Lemma update_at_nth {A} (f : A -> A) (l : list A) (index k : nat) :
  nth_error (update_at f index l) k
  = if (k =? index)%nat then option_map f (nth_error l k) else nth_error l k.
Proof.
  revert index k. induction l as [|a l IH]; intros index k.
  - destruct index, k; cbn [update_at nth_error option_map];
      try reflexivity. now destruct (Nat.eqb _ _).
  - destruct index as [|index], k as [|k]; cbn [update_at nth_error]; try reflexivity.
    + rewrite IH. reflexivity.
Qed.

Lemma update_at_length {A} (f : A -> A) (l : list A) (index : nat) :
  List.length (update_at f index l) = List.length l.
Proof.
  revert index. induction l as [|a l IH]; intros [|index]; simpl; auto.
Qed.

Lemma update_at_twice {A} (f : A -> A) (l : list A) (index : nat) :
  (forall a, f (f a) = a) -> update_at f index (update_at f index l) = l.
Proof.
  intros Hf. revert index. induction l as [|a l IH]; intros [|index]; simpl;
    rewrite ?Hf, ?IH; reflexivity.
Qed.

(** X14. [toggleBboxApproval] with an index in the list flips the
    approval of that box and leaves every other box, and the number of
    boxes, unchanged; done twice it restores the state; with an index
    outside the list it throws. *)
Theorem toggleBboxApproval_flips_one (st : State) (index : nat) :
  match toggleBboxApproval st index with
  | Returned st' =>
      (index < List.length (bboxes st))%nat
      /\ List.length (bboxes st') = List.length (bboxes st)
      /\ (forall k, k <> index -> nth_error (bboxes st') k = nth_error (bboxes st) k)
      /\ (exists b, nth_error (bboxes st) index = Some b
                    /\ nth_error (bboxes st') index = Some (toggle b))
      /\ toggleBboxApproval st' index = Returned st
  | Threw => (List.length (bboxes st) <= index)%nat
  | OutOfFuel => False
  end.
Proof.
  unfold toggleBboxApproval.
  destruct (nth_error (bboxes st) index) as [b|] eqn:E.
  - assert (Hlt : (index < List.length (bboxes st))%nat)
      by (apply nth_error_Some; congruence).
    cbn [apply_action bboxes]. split; [exact Hlt|].
    split; [apply update_at_length|]. split.
    { intros k Hk. rewrite update_at_nth.
      destruct (Nat.eqb_spec k index); [contradiction | reflexivity]. }
    split.
    { exists b. split; [reflexivity|].
      rewrite update_at_nth, Nat.eqb_refl, E. reflexivity. }
    rewrite update_at_nth, Nat.eqb_refl, E. cbn [option_map].
    rewrite update_at_twice by apply toggle_toggle.
    destruct st; reflexivity.
  - apply nth_error_None. exact E.
Qed.

(** ** The ids of the boxes *)

Lemma ids_from_app (l1 l2 : list AnnotationTool.Bbox) (base : nat) :
  ids_from base (l1 ++ l2)
  <-> ids_from base l1 /\ ids_from (base + List.length l1) l2.
Proof.
  revert base. induction l1 as [|b l1 IH]; intros base.
  - cbn [app ids_from List.length]. rewrite Nat.add_0_r. tauto.
  - change ((b :: l1) ++ l2) with (b :: (l1 ++ l2)).
    cbn [ids_from List.length]. rewrite IH.
    replace (S base + List.length l1)%nat with (base + S (List.length l1))%nat by lia.
    tauto.
Qed.

Lemma ids_from_nth (l : list AnnotationTool.Bbox) (base k : nat) (b : AnnotationTool.Bbox) :
  ids_from base l -> nth_error l k = Some b -> AnnotationTool.id b = (base + k)%nat.
Proof.
  revert base k. induction l as [|a l IH]; intros base k H Hk.
  - destruct k; discriminate.
  - destruct H as [Ha Hl]. destruct k as [|k]; cbn [nth_error] in Hk.
    + injection Hk as <-. lia.
    + rewrite (IH (S base) k Hl Hk). lia.
Qed.

Lemma boxes_from_ids (dets : list Detection) (base : nat) :
  ids_from base (boxes_from base dets).
Proof.
  revert base. induction dets as [|d dets IH]; intros base; simpl; auto.
Qed.

(** X16. The boxes made from an inference result carry their positions as
    ids, and drawing a box keeps that. *)
Theorem ids_are_positions (st : State) (result : InferenceResult) :
  ids_from 0 (scaledBboxes result)
  /\ (ids_from 0 (bboxes st) -> ids_from 0 (bboxes (handleMouseUp st))).
Proof.
  split; [apply boxes_from_ids|].
  intros H. unfold handleMouseUp, AnnotationTool.handleMouseUp. page_simpl.
  destruct (isDrawing st); [|exact H].
  destruct (newBbox st) as [nb|]; [|exact H].
  destruct (imageObj st) as [img|]; [|exact H].
  cbv zeta. page_simpl.
  destruct (_ && _); [|exact H].
  apply ids_from_app. split; [exact H|].
  cbn [ids_from AnnotationTool.id]. auto.
Qed.

(** X17. After a box other than the last has been deleted, the next box
    drawn gets an id that a box of the list already has. *)
Theorem id_reused_after_delete (st st' : State) (index : nat) (b : AnnotationTool.Bbox) :
  ids_from 0 (bboxes st) ->
  (S index < List.length (bboxes st))%nat ->
  bboxes st' = bboxes (deleteBbox st index) ->
  bboxes (handleMouseUp st') = bboxes st' ++ [b] ->
  exists old, In old (bboxes st') /\ AnnotationTool.id old = AnnotationTool.id b.
Proof.
  intros Hids Hlt Hdel Hup.
  assert (E : bboxes st' = without index (bboxes st)).
  { rewrite Hdel. unfold deleteBbox. cbn [apply_action bboxes].
    apply (filter_indexed_without (bboxes st) index 0). }
  pose proof (without_length (bboxes st) index ltac:(lia)) as Hlen.
  rewrite <- E in Hlen.
  assert (Hid : AnnotationTool.id b = List.length (bboxes st')).
  { revert Hup. unfold handleMouseUp, AnnotationTool.handleMouseUp. page_simpl.
    assert (Hno : bboxes st' = bboxes st' ++ [b] -> False).
    { intros K. apply (f_equal (@List.length _)) in K.
      rewrite length_app in K. simpl in K. lia. }
    destruct (isDrawing st'); [|intros K; destruct (Hno K)].
    destruct (newBbox st') as [nb|]; [|intros K; destruct (Hno K)].
    destruct (imageObj st') as [img|]; [|intros K; destruct (Hno K)].
    cbv zeta. page_simpl.
    destruct (_ && _); [|intros K; destruct (Hno K)].
    intros K. apply app_inv_head in K. injection K as <-. reflexivity. }
  destruct (nth_error (bboxes st) (List.length (bboxes st) - 1)) as [old|] eqn:Eold.
  2:{ apply nth_error_None in Eold. lia. }
  exists old. split.
  - rewrite E. unfold without. apply in_or_app. right.
    apply nth_error_In with (n := (List.length (bboxes st) - 1 - S index)%nat).
    rewrite nth_error_skipn. rewrite <- Eold. f_equal. lia.
  - rewrite (ids_from_nth _ 0 _ _ Hids Eold), Hid. lia.
Qed.

(** ** Moving between images *)

(** X18. Prev, Next and Skip keep the current index within the list of
    unlabeled images and do not change the list; Prev stays on the first
    image and Next on the last; Skip moves as Next does and drops the
    boxes. *)
Theorem navigation_keeps_index_valid (st : State) :
  index_valid st ->
  index_valid (prev st) /\ index_valid (next st) /\ index_valid (skip st)
  /\ unlabeledImages (prev st) = unlabeledImages st
  /\ unlabeledImages (next st) = unlabeledImages st
  /\ (currentImageIndex st = 0 -> currentImageIndex (prev st) = 0)
  /\ (currentImageIndex st = len (unlabeledImages st) - 1 ->
      currentImageIndex (next st) = currentImageIndex st)
  /\ currentImageIndex (skip st) = currentImageIndex (next st)
  /\ bboxes (skip st) = [].
Proof.
  unfold index_valid, skip, prev, next.
  cbn [apply_action currentImageIndex unlabeledImages bboxes].
  intros H. repeat split; try reflexivity; lia.
Qed.


(** ** Approving an annotation *)

Lemma at_index_Some {A} (l : list A) (i : Z) (a : A) :
  at_index l i = Some a -> 0 <= i < len l.
Proof.
  unfold at_index, len. destruct (Z.ltb_spec i 0) as [|H]; [discriminate|].
  intros E. assert (K : (Z.to_nat i < List.length l)%nat)
    by (apply nth_error_Some; congruence).
  lia.
Qed.

(** X19. [approveAnnotation] sends at most one request, carrying the
    approved boxes of the current image, and with no boxes only after the
    user has confirmed.  A finished run was declined, or has removed the
    current image from the list, cleared the boxes and left drawing mode,
    with the index still in the list unless the list is now empty, or has
    left the state as it was and told the failure. *)
Theorem approveAnnotation_outcomes (st : State) (cam : Camera)
    (currentImage : UnlabeledImage) (img : AnnotationTool.Image)
    (t : list (event request response action))
    (c : config request response action) :
  selectedCamera st = Some cam ->
  at_index (unlabeledImages st) (currentImageIndex st) = Some currentImage ->
  imageObj st = Some img ->
  reach (start (approveAnnotation st)) t c ->
  let data := annotation_of st cam currentImage img in
  (requests t = [] \/ requests t = [inferenceAPI_approve data])
  /\ (bboxes st = [] -> requests t = [] \/ In (EvConfirm empty_question true) t)
  /\ (terminal c ->
      approve_declined st t \/ approve_saved st data t \/ approve_failed st data t).
Proof.
  intros Hcam Hcur Himg R data.
  pose proof (at_index_Some _ _ _ Hcur) as Hi.
  pose (Inv := fun t : list (event request response action) =>
                 (requests t = [] \/ requests t = [inferenceAPI_approve data])
                 /\ (bboxes st = [] ->
                     requests t = [] \/ In (EvConfirm empty_question true) t)).
  pose (Qr := fun (_ : unit) (t : list (event request response action)) =>
                approve_declined st t \/ approve_saved st data t
                \/ approve_failed st data t).
  destruct (all_traces_sound _ _ _ Qr (fun _ _ => False) Inv
              (approveAnnotation st) t c) as [[H1 H2] H3]; [|exact R|].
  2:{ split; [exact H1|]. split; [exact H2|].
      intros Hend. destruct (H3 Hend) as [[r K] | [e []]]. exact K. }
  unfold approveAnnotation. rewrite Hcam, Hcur, Himg. fold data.
  rewrite filter_indexed_Z by lia.
  pose proof (without_length (unlabeledImages st) (Z.to_nat (currentImageIndex st))
                ltac:(unfold len in Hi; lia)) as Hlen.
  set (rest := without (Z.to_nat (currentImageIndex st)) (unlabeledImages st)) in *.
  assert (Hrest : len rest = 0 -> rest = []).
  { unfold len. destruct rest; [reflexivity | simpl; lia]. }
  assert (Hempty : len (bboxes st) = 0 -> bboxes st = []).
  { unfold len. destruct (bboxes st); [reflexivity | simpl; lia]. }
  assert (Hsome : len (bboxes st) <> 0 -> bboxes st <> []).
  { intros K E. rewrite E in K. apply K. reflexivity. }
  subst Inv Qr.
  destruct (Z.eqb_spec (len (bboxes st)) 0) as [Eb|Eb];
    [apply Hempty in Eb | apply Hsome in Eb];
    (destruct (Z.eqb_spec (len rest) 0) as [E0|E0];
     [| destruct (Z.leb_spec (len rest) (currentImageIndex st)) as [E1|E1] ]);
    wp_known ltac:(cbv beta; simpl; intuition (try discriminate; eauto));
    try (left; unfold approve_declined; simpl; solve [auto]);
    try (right; right; unfold approve_failed; simpl;
         split; [eauto|]; split; [reflexivity | solve [auto 10]]);
    match goal with u : response _ |- _ => destruct u end;
    right; left; unfold approve_saved; cbv zeta;
    (split; [simpl; solve [auto]|]);
    unfold state_of; simpl Loop.actions;
    cbn [fold_left apply_action unlabeledImages bboxes isDrawingMode
         isDrawing newBbox imageObj currentImageIndex];
    (split; [reflexivity|]); (split; [reflexivity|]); (split; [reflexivity|]);
    (split; [reflexivity|]); (split; [reflexivity|]);
    first [ left; split; [exact (Hrest E0)|]; split; [reflexivity | simpl; tauto]
          | right; split; [|reflexivity]; unfold index_valid, len in *;
            cbn [currentImageIndex unlabeledImages]; lia ].
Qed.

End AnnotationPageFacts.
(* ===================================================================== *)
(** * pages/Dashboard.jsx: what the page shows during and after a run     *)
(* ===================================================================== *)

Section DashboardViewFacts.
Import Api Async Loop Dashboard DashboardView.
Local Open Scope string_scope.
Local Open Scope list_scope.

Lemma progress_updates_app (h t : trace) :
  progress_updates (h ++ t)%list = (progress_updates h ++ progress_updates t)%list.
Proof.
  induction h as [|[a | m b | q | q o] h IH]; simpl; auto.
  destruct a; simpl; rewrite ?IH; reflexivity.
Qed.

Lemma alerts_app (h t : trace) : alerts (h ++ t)%list = (alerts h ++ alerts t)%list.
Proof.
  induction h as [|[a | m b | q | q o] h IH]; simpl; auto.
  destruct a; simpl; rewrite ?IH; reflexivity.
Qed.

Lemma processed_app (h t : trace) :
  processed (h ++ t)%list = (processed h + processed t)%nat.
Proof. induction h as [|e h IH]; simpl; [reflexivity|]. rewrite IH. lia. Qed.

Lemma failed_app (h t : trace) : failed (h ++ t)%list = (failed h + failed t)%nat.
Proof. induction h as [|e h IH]; simpl; [reflexivity|]. rewrite IH. lia. Qed.

Lemma view_after_app (v : View) (h t : trace) :
  view_after v (h ++ t)%list = view_after (view_after v h) t.
Proof.
  revert v. induction h as [|[a | m b | q | q o] h IH]; intros v; simpl; auto.
Qed.

Lemma Math_round_monotone (x y : Q) : (x <= y)%Q -> Math_round x <= Math_round y.
Proof.
  intros H. unfold Math_round. apply Qfloor_resp_le.
  apply Qplus_le_compat; [exact H | apply Qle_refl].
Qed.

Lemma percent_bounds (p : Progress) : bounded p -> 0 <= percent p <= 100.
Proof.
  unfold bounded, percent. intros H.
  destruct (Nat.ltb_spec 0 (total p)) as [Ht|_]; [|lia].
  set (c := Z.of_nat (current p)). set (n := Z.of_nat (total p)).
  assert (Hc : 0 <= c <= n) by (subst c n; lia).
  assert (Hn : 0 < n) by (subst n; lia).
  assert (Hq : (0 < inject_Z n)%Q) by (rewrite Zlt_Qlt in Hn; exact Hn).
  assert (L : (0 <= inject_Z c / inject_Z n * 100)%Q).
  { apply Qmult_le_0_compat; [|discriminate].
    apply Qle_shift_div_l; [exact Hq|]. rewrite Qmult_0_l.
    change 0%Q with (inject_Z 0). rewrite <- Zle_Qle. lia. }
  assert (U : (inject_Z c / inject_Z n * 100 <= 100)%Q).
  { rewrite <- (Qmult_1_l 100) at 2. apply Qmult_le_compat_r; [|discriminate].
    apply Qle_shift_div_r; [exact Hq|]. rewrite Qmult_1_l.
    rewrite <- Zle_Qle. lia. }
  split.
  - change 0 with (Math_round 0). apply Math_round_monotone. exact L.
  - change 100 with (Math_round 100). apply Math_round_monotone. exact U.
Qed.

Lemma counted_bounded pc ec al h :
  counted pc ec al h -> Forall bounded (progress_updates h).
Proof. intros H. apply H. Qed.

Lemma counted_do pc ec al h a :
  silent a -> counted pc ec al h -> counted pc ec al (h ++ [EvDo a]).
Proof.
  intros Ha (H1 & H2 & H3 & H4 & H5). unfold counted.
  rewrite progress_updates_app, processed_app, failed_app, issued_app, alerts_app.
  destruct a as [b | p | rows | s | b | msg | msg e]; cbn in Ha |- *;
    rewrite ?app_nil_r, ?Nat.add_0_r; try (repeat split; auto; fail).
  - repeat split; auto.
    apply Forall_app. split; [exact H1 | constructor; [exact Ha | constructor]].
  - destruct Ha.
Qed.

Lemma counted_alert pc ec h msg :
  counted pc ec [] h -> counted pc ec [msg] (h ++ [EvDo (alert msg)]).
Proof.
  intros (H1 & H2 & H3 & H4 & H5). unfold counted.
  rewrite progress_updates_app, processed_app, failed_app, issued_app, alerts_app.
  cbn. rewrite ?app_nil_r, ?Nat.add_0_r, H5. repeat split; auto.
Qed.

Lemma counted_issue pc ec al h q :
  counted pc ec al h -> Forall bounded (progress_updates (h ++ [EvIssue q])).
Proof.
  intros (H1 & _). rewrite progress_updates_app. cbn. now rewrite app_nil_r.
Qed.

Lemma counted_request pc ec al h q o :
  not_a_frame q -> counted pc ec al h ->
  counted pc ec al ((h ++ [EvIssue q]) ++ [EvSettle q o]).
Proof.
  intros Hq (H1 & H2 & H3 & H4 & H5). unfold counted.
  rewrite !progress_updates_app, !processed_app, !failed_app, !issued_app, !alerts_app.
  destruct q; cbn in Hq |- *; try destruct Hq;
    rewrite ?app_nil_r, ?Nat.add_0_r; repeat split; auto.
Qed.

Lemma counted_frame pc ec al h cameraId imageName o :
  counted pc ec al h ->
  counted (fst (count (match o with Fulfilled _ => true | Rejected _ => false end)
                      (pc, ec)))
          (snd (count (match o with Fulfilled _ => true | Rejected _ => false end)
                      (pc, ec)))
          al
          ((h ++ [EvIssue (dashboardAPI_processImage cameraId imageName)])
             ++ [EvSettle (dashboardAPI_processImage cameraId imageName) o]).
Proof.
  intros (H1 & H2 & H3 & H4 & H5). unfold counted.
  rewrite !progress_updates_app, !processed_app, !failed_app, !issued_app, !alerts_app,
          !length_app.
  destruct o; cbn; rewrite ?app_nil_r; repeat split; auto; lia.
Qed.


Variable st : State.
Variable cam : Camera.
Hypothesis Hcam : selectedCamera st = Some cam.
Variable v : View.

Local Abbreviation Inv := (fun h : trace => Forall bounded (progress_updates h)).

Ltac side := first [ exact I | unfold silent, bounded; cbn; lia ].

(** Stepping on from a trace [h] known through [HK : counted _ _ _ h]. *)
Ltac acc_step HK :=
  body_norm;
  lazymatch goal with
  | |- all_traces (Do (alert ?msg) _) ?h _ _ _ =>
      apply all_traces_Do; [exact (counted_bounded _ _ _ _ HK)|];
      apply (counted_alert _ _ _ msg) in HK
  | |- all_traces (Do ?a _) ?h _ _ _ =>
      apply all_traces_Do; [exact (counted_bounded _ _ _ _ HK)|];
      apply (counted_do _ _ _ _ a) in HK; [|side]
  | |- all_traces (Await ?q _) ?h _ _ _ =>
      apply all_traces_Await;
      [ exact (counted_bounded _ _ _ _ HK)
      | exact (counted_issue _ _ _ _ q HK)
      | let o := fresh "o" in
        intros o;
        apply (counted_request _ _ _ _ q o) in HK; [|exact I];
        destruct o ]
  end.

Ltac rets HK :=
  body_norm;
  repeat (apply all_traces_Ret; [exact (counted_bounded _ _ _ _ HK)|]; cbv beta).

Lemma processImageForDetection_counted pc ec al h name
    (Q : bool -> trace -> Prop) (Qe : error -> trace -> Prop) :
  counted pc ec al h ->
  (forall b h', counted (fst (count b (pc, ec))) (snd (count b (pc, ec))) al h' ->
                Q b h') ->
  all_traces (processImageForDetection st name) h Q Qe Inv.
Proof.
  intros HK HQ. unfold processImageForDetection. rewrite Hcam. body_norm.
  apply all_traces_Await;
    [ exact (counted_bounded _ _ _ _ HK) | exact (counted_issue _ _ _ _ _ HK)
    | intros o ].
  pose proof (counted_frame _ _ _ _ (id cam) name o HK) as HK'.
  destruct o as [[]|e]; body_norm.
  - apply all_traces_Ret; [exact (counted_bounded _ _ _ _ HK') | now apply HQ].
  - acc_step HK'.
    apply all_traces_Ret; [exact (counted_bounded _ _ _ _ HK') | now apply HQ].
Qed.

Lemma loadDashboardData_counted pc ec al h
    (Q : unit -> trace -> Prop) (Qe : error -> trace -> Prop) :
  counted pc ec al h ->
  (forall h', counted pc ec al h' -> Q tt h') ->
  all_traces (loadDashboardData st) h Q Qe Inv.
Proof.
  intros HK HQ. unfold loadDashboardData. rewrite Hcam.
  acc_step HK. acc_step HK.
  - acc_step HK. acc_step HK.
    + repeat acc_step HK.
      apply all_traces_Ret; [exact (counted_bounded _ _ _ _ HK) | now apply HQ].
    + repeat acc_step HK.
      apply all_traces_Ret; [exact (counted_bounded _ _ _ _ HK) | now apply HQ].
  - repeat acc_step HK.
    apply all_traces_Ret; [exact (counted_bounded _ _ _ _ HK) | now apply HQ].
Qed.

(** The end of a run: the [finally] block, then the account. *)
Lemma accounted_end pc ec msg h :
  counted pc ec [msg] h ->
  (pc = 0%nat /\ ec = 0%nat
   /\ (msg = "No images found. Please upload images first."
       \/ exists e, msg = "Failed to process images: " ++ message e)%string)
  \/ ((pc + ec <> 0)%nat /\ msg = report pc ec) ->
  accounted v ((h ++ [EvDo (setProcessingImages false)])
                 ++ [EvDo (setProcessProgress cleared)]).
Proof.
  intros (H1 & H2 & H3 & H4 & H5) Hmsg. unfold accounted.
  rewrite !view_after_app, !processed_app, !failed_app, !issued_app, !alerts_app.
  cbn. rewrite ?app_nil_r, ?Nat.add_0_r, H2, H3, H4, H5.
  split; [reflexivity|]. split; [reflexivity|]. split; [reflexivity|].
  destruct Hmsg as [(-> & -> & Hm) | (Hne & ->)].
  - assert (E : issued h = []) by (apply length_zero_iff_nil; exact H4).
    destruct Hm as [-> | [e ->]];
      [ left; split; [exact E | reflexivity]
      | right; left; split; [exact E | exists e; reflexivity] ].
  - right. right. split; [|reflexivity].
    intros E. rewrite E in H4. simpl in H4. lia.
Qed.

Lemma processAllImages_counted :
  all_traces (processAllImages st) []
    (fun _ h => h = [EvConfirm process_question false] \/ accounted v h)
    (fun _ _ => False) Inv.
Proof.
  unfold processAllImages. rewrite Hcam. body_norm.
  apply all_traces_Confirm; [constructor|]. intros [|]; cbn [negb].
  2:{ apply all_traces_Ret; [constructor|]. left. reflexivity. }
  match goal with |- all_traces _ ?h0 _ _ _ => set (h := h0) end.
  assert (HK : counted 0 0 [] h)
    by (subst h; unfold counted; cbn; repeat split; constructor).
  clearbody h.
  assert (Hend : forall pc ec msg h',
    counted pc ec [msg] h' ->
    (pc = 0%nat /\ ec = 0%nat
     /\ (msg = "No images found. Please upload images first."
         \/ exists e, msg = "Failed to process images: " ++ message e)%string)
    \/ ((pc + ec <> 0)%nat /\ msg = report pc ec) ->
    all_traces
      (Do (setProcessingImages false)
         (Do (setProcessProgress {| current := 0; total := 0; stage := EmptyString |})
            (Ret tt)))
      h' (fun _ h => h = [EvConfirm process_question false] \/ accounted v h)
      (fun _ _ => False) Inv).
  { intros pc ec msg h' HK' Hmsg.
    pose proof (accounted_end _ _ _ _ HK' Hmsg) as Hacc.
    repeat acc_step HK'.
    apply all_traces_Ret; [exact (counted_bounded _ _ _ _ HK')|].
    right. exact Hacc. }
  do 5 acc_step HK.
  2:{ (* the camera's statistics are refused *)
      do 2 acc_step HK. body_norm. eapply Hend; [exact HK|]. left. eauto. }
  rename a into stats. acc_step HK.
  2:{ (* the list of unlabeled images is refused *)
      do 2 acc_step HK. body_norm. eapply Hend; [exact HK|]. left. eauto. }
  rename a into u. body_norm.
  set (unlabeledImages := match images u with Some l => l | None => [] end).
  destruct (Nat.eqb_spec (labeled_count stats + List.length unlabeledImages) 0) as [E|E].
  { acc_step HK. body_norm.
    apply all_traces_Do; [exact (counted_bounded _ _ _ _ HK)|].
    apply (counted_do _ _ _ _ (setProcessingImages false)) in HK; [|exact I].
    body_norm. eapply Hend; [exact HK|]. left. eauto. }
  acc_step HK.
  (* the labeled images *)
  do 3 apply all_traces_bind2.
  eapply all_traces_mono;
    [ | | apply (all_traces_for_range _ _ _ _
                   (fun i (s : nat * nat) h' =>
                      counted (fst s) (snd s) [] h' /\ (fst s + snd s = i)%nat)
                   (fun _ _ => False)) ];
    [ | intros e h' [] | | intros i s h' [HL _]; exact (counted_bounded _ _ _ _ HL)
      | split; [exact HK | reflexivity] ].
  2:{ intros i [pc ec] h' Hi [HL Hsum]. cbn [fst snd] in HL, Hsum.
      body_norm. apply all_traces_bind2.
      apply (processImageForDetection_counted pc ec [] h' _ _ _ HL).
      intros success h'' HK'.
      acc_step HK'.
      apply all_traces_Ret; [exact (counted_bounded _ _ _ _ HK')|].
      split; [destruct success; exact HK' | destruct success; cbn; lia]. }
  clear h HK. intros [pc ec] h [HK Hsum]. cbn [fst snd Nat.add] in HK, Hsum.
  (* the unlabeled images *)
  body_norm. apply all_traces_bind2.
  eapply all_traces_mono;
    [ | | apply (all_traces_for_range _ _ _ _
                   (fun i (s : nat * nat) h' =>
                      counted (fst s) (snd s) [] h'
                      /\ (fst s + snd s = labeled_count stats + i)%nat)
                   (fun _ _ => False)) ];
    [ | intros e h' [] | | intros i s h' [HL _]; exact (counted_bounded _ _ _ _ HL)
      | split; [exact HK | cbn [fst snd]; lia] ].
  2:{ intros i [pc' ec'] h' Hi [HL Hsum']. cbn [fst snd] in HL, Hsum'.
      destruct (nth_error unlabeledImages i) as [image|] eqn:Eimg.
      2:{ apply nth_error_None in Eimg. lia. }
      body_norm. apply all_traces_bind2.
      apply (processImageForDetection_counted pc' ec' [] h' _ _ _ HL).
      intros success h'' HK'.
      acc_step HK'.
      apply all_traces_Ret; [exact (counted_bounded _ _ _ _ HK')|].
      split; [destruct success; exact HK' | destruct success; cbn; lia]. }
  clear h HK pc ec Hsum. intros [pc ec] h [HK Hsum]. cbn [fst snd Nat.add] in HK, Hsum.
  acc_step HK.
  assert (Hrep : forall msg, msg = report pc ec ->
            (pc = 0%nat /\ ec = 0%nat
             /\ (msg = "No images found. Please upload images first."
                 \/ exists e, msg = "Failed to process images: " ++ message e)%string)
            \/ ((pc + ec <> 0)%nat /\ msg = report pc ec)).
  { intros msg ->. right. split; [lia | reflexivity]. }
  destruct (0 <? pc)%nat eqn:Epc.
  - body_norm. apply all_traces_bind2.
    apply (loadDashboardData_counted _ _ _ _ _ _ HK).
    clear h HK. intros h HK.
    acc_step HK. rets HK. eapply Hend; [exact HK|]. apply Hrep.
    unfold report. rewrite Epc. reflexivity.
  - acc_step HK. rets HK. eapply Hend; [exact HK|]. apply Hrep.
    unfold report. rewrite Epc. reflexivity.
Qed.

End DashboardViewFacts.

Section DashboardRuns.
Import Api Async Loop Dashboard DashboardView.
Local Open Scope string_scope.
Local Open Scope list_scope.

(** X5. At every point of every run of [processAllImages] the progress
    set has [current <= total], and the percentage the page shows for it
    lies between 0 and 100. *)
Theorem processAllImages_progress_in_range (st : State) (t : trace)
    (c : config request response action) :
  reach (start (processAllImages st)) t c ->
  Forall (fun p => bounded p /\ 0 <= percent p <= 100) (progress_updates t).
Proof.
  intros R.
  assert (H : Forall bounded (progress_updates t)).
  { destruct (selectedCamera st) as [cam|] eqn:Hcam.
    - pose (v := mkView false cleared [] None false).
      exact (proj1 (all_traces_sound _ _ _ _ _ _ _ t c
                      (processAllImages_counted st cam Hcam v) R)).
    - unfold processAllImages in R. rewrite Hcam in R.
      explore R ltac:(constructor). }
  eapply Forall_impl; [|exact H].
  intros p Hp. split; [exact Hp | apply percent_bounds; exact Hp].
Qed.

(** X6. A finished run of [processAllImages] on a selected camera either
    was declined, or has left the page not processing with the progress
    cleared, has counted every frame request once as processed or failed,
    and has shown one alert: no images, the listing failure, or the report
    of the two counts. *)
Theorem processAllImages_accounts (st : State) (cam : Camera) (v : View) (t : trace)
    (c : config request response action) :
  selectedCamera st = Some cam ->
  reach (start (processAllImages st)) t c ->
  terminal c ->
  t = [EvConfirm process_question false] \/ accounted v t.
Proof.
  intros Hcam R Hend.
  destruct (proj2 (all_traces_sound _ _ _ _ _ _ _ t c
                     (processAllImages_counted st cam Hcam v) R) Hend)
    as [[r K] | [e []]].
  exact K.
Qed.

Ltac stop_load :=
  cbv zeta; unfold stats_request, logs_request;
  split; [simpl; tauto|];
  split; [simpl; intuition (try discriminate; eauto)|];
  intros [Hs Hw];
  first
    [ discriminate Hs | discriminate Hw
    | split; [reflexivity|];
      first
        [ left; do 2 eexists; split; [in_tac|]; split; [in_tac|]; split; reflexivity
        | right; left; do 2 eexists; split; [in_tac|]; split; [in_tac|];
          split; reflexivity
        | right; right; eexists; split; [in_tac|]; split; [reflexivity|];
          split; reflexivity ] ].

(** X7. [loadDashboardData] asks for the statistics, then, only once they
    have arrived, for the logs with the same filters; when it ends
    [loading] is false, and a refused request leaves what it would have
    set as it was. *)
Theorem loadDashboardData_outcomes (st : State) (cam : Camera) (v : View) (t : trace)
    (c : config request response action) :
  selectedCamera st = Some cam ->
  reach (start (loadDashboardData st)) t c ->
  let q1 := stats_request st cam in
  let q2 := logs_request st cam in
  (requests t = [] \/ requests t = [q1] \/ requests t = [q1; q2])
  /\ (In q2 (requests t) -> exists s, In (EvSettle (stats_request st cam) (Fulfilled s)) t)
  /\ (terminal c ->
      loading (view_after v t) = false
      /\ ((exists s rows,
             In (EvSettle (stats_request st cam) (Fulfilled s)) t
             /\ In (EvSettle (logs_request st cam) (Fulfilled rows)) t
             /\ stats (view_after v t) = Some s
             /\ logs (view_after v t) = rows)
          \/ (exists s e,
                In (EvSettle (stats_request st cam) (Fulfilled s)) t
                /\ In (EvSettle (logs_request st cam) (Rejected e)) t
                /\ stats (view_after v t) = Some s
                /\ logs (view_after v t) = logs v)
          \/ (exists e,
                In (EvSettle (stats_request st cam) (Rejected e)) t
                /\ requests t = [stats_request st cam]
                /\ stats (view_after v t) = stats v
                /\ logs (view_after v t) = logs v))).
Proof.
  intros Hcam R.
  unfold loadDashboardData in R. rewrite Hcam in R.
  explore R ltac:(stop_load).
  destruct o as [s|e]; explore R ltac:(stop_load).
  destruct o as [rows|e]; explore R ltac:(stop_load).
Qed.

Lemma issued_for_camera (a : Z) (l : list (Z * string)) :
  Forall (fun f => fst f = a) l -> map (pair a) (map snd l) = l.
Proof.
  induction 1 as [|[x y] l Hx _ IH]; [reflexivity|].
  cbn [map snd]. cbn [fst] in Hx. subst x. now rewrite IH.
Qed.

Ltac stop_listing :=
  left; split; [reflexivity|];
  intros [Hs Hw];
  first
    [ discriminate Hs | discriminate Hw
    | left; reflexivity
    | right; split; [reflexivity|]; eexists; first [left; in_tac | right; in_tac] ].

(** Where a run of [processAllImages] stands to the two listings: no frame
    has been requested yet, and if the run is over it was declined or a
    listing was refused; or both listings have been answered, and they
    are what [expected_frames] reads. *)
Lemma processAllImages_listings (st : State) (cam : Camera) (t : trace)
    (c : config request response action) :
  selectedCamera st = Some cam ->
  reach (start (processAllImages st)) t c ->
  (issued t = [] /\ (terminal c -> run_declined t \/ listing_refused cam t))
  \/ exists stats u, listed cam stats u t /\ expected_frames t = frame_order stats u.
Proof.
  intros Hcam R. unfold run_declined, listing_refused.
  unfold processAllImages in R. rewrite Hcam in R.
  explore R ltac:(stop_listing).
  destruct o as [stats|e]; explore R ltac:(stop_listing).
  destruct o as [u|e]; explore R ltac:(stop_listing).
  right. exists stats, u. split; [split; in_tac | reflexivity].
Qed.

(** C7. In every run of [processAllImages] for the selected camera, at any
    point: at most one frame-processing request is in flight, and the
    requests issued so far, if any, are the first ones of the camera's
    frames in processing order (the labeled images [000000.jpg],
    [000001.jpg], ... by ascending index, then the unlabeled ones as the API
    listed them), both listings having been answered before.  When the run
    is over, either the user declined, or a listing was refused and no frame
    was requested, or every frame of the two listings has been requested, in
    that order, and every request has settled. *)
Theorem processAllImages_sequential (st : State) (cam : Camera) (t : trace)
    (c : config request response action) :
  selectedCamera st = Some cam ->
  reach (start (processAllImages st)) t c ->
  one_at_a_time t
  /\ (issued t = []
      \/ exists stats u k,
           listed cam stats u t /\ issued t = firstn k (frames_of cam stats u))
  /\ (terminal c ->
      run_declined t \/ listing_refused cam t \/ all_frames_processed cam t)
  /\ labeled_name 0 = "000000.jpg"%string
  /\ labeled_name 1 = "000001.jpg"%string.
Proof.
  intros Hcam R.
  destruct (all_traces_sound _ _ _ (fun _ h => finished cam h)
              (fun _ _ => False) (sequential cam) _ t c
              (processAllImages_ok st cam Hcam) R) as [[H1 [HF [rest Hrest]]] H3].
  pose proof (processAllImages_listings st cam t c Hcam R) as Hkey.
  split; [exact H1|]. split; [|split; [|split; reflexivity]].
  - destruct Hkey as [[E _] | (stats & u & HL & HE)]; [left; exact E | right].
    exists stats, u, (List.length (issued t)). split; [exact HL|].
    unfold frames_of. rewrite <- HE, Hrest, firstn_map.
    rewrite <- (length_map snd (issued t)), firstn_app, Nat.sub_diag, firstn_all.
    cbn [firstn]. rewrite app_nil_r. symmetry. now apply issued_for_camera.
  - intros Hend.
    destruct Hkey as [[_ K] | (stats & u & HL & HE)].
    { destruct (K Hend) as [K1|K2]; auto. }
    right. right. exists stats, u.
    destruct (H3 Hend) as [[r [[E F] _]] | [e []]].
    split; [exact HL|]. split; [|exact F].
    unfold frames_of. rewrite <- HE, E. symmetry. now apply issued_for_camera.
Qed.

End DashboardRuns.

(* ===================================================================== *)
(** * pages/CameraManager.jsx: uploading images                           *)
(* ===================================================================== *)

Section CameraManagerFacts.
Import Api Async Loop CameraManager.
Local Open Scope string_scope.
Local Open Scope list_scope.

Ltac stop_drop :=
  cbv zeta;
  split; [simpl; tauto|];
  split; [simpl; intuition (try discriminate; eauto)|];
  intros [Hs Hw];
  first
    [ discriminate Hs | discriminate Hw
    | split; [reflexivity|];
      first
        [ left; do 2 eexists; split; [in_tac|]; split; [in_tac|];
          split; [reflexivity|]; split; reflexivity
        | right; left; do 2 eexists; split; [in_tac|]; split; [in_tac|];
          split; [reflexivity|]; split; reflexivity
        | right; right; eexists; split; [in_tac|]; split; [reflexivity|];
          split; reflexivity ] ].

(** X20. [onDrop] with a camera selected uploads the files, and asks for
    the statistics only once the upload has been fulfilled; after a refused
    upload nothing more is requested.  When it ends the upload progress is
    cleared, and the one alert tells whether the upload succeeded, whatever
    became of the reload. *)
Theorem onDrop_outcomes (st : State) (cam : Camera) (acceptedFiles : list File)
    (t : trace) (c : config request response action) :
  selectedCamera st = Some cam ->
  reach (start (onDrop st acceptedFiles)) t c ->
  let upload := cameraAPI_upload (id cam) acceptedFiles in
  let reload := cameraAPI_getStats (id cam) in
  (requests t = [] \/ requests t = [upload] \/ requests t = [upload; reload])
  /\ (In reload (requests t) ->
      exists r, In (EvSettle (cameraAPI_upload (id cam) acceptedFiles) (Fulfilled r)) t)
  /\ (terminal c ->
      uploadProgress (state_after st t) = None
      /\ ((exists r s,
             In (EvSettle (cameraAPI_upload (id cam) acceptedFiles) (Fulfilled r)) t
             /\ In (EvSettle (cameraAPI_getStats (id cam)) (Fulfilled s)) t
             /\ requests t = [upload; reload]
             /\ alerts t = [uploaded_message r]
             /\ cameraStats (state_after st t) = Some s)
          \/ (exists r e,
                In (EvSettle (cameraAPI_upload (id cam) acceptedFiles) (Fulfilled r)) t
                /\ In (EvSettle (cameraAPI_getStats (id cam)) (Rejected e)) t
                /\ requests t = [upload; reload]
                /\ alerts t = [uploaded_message r]
                /\ cameraStats (state_after st t) = cameraStats st)
          \/ (exists e,
                In (EvSettle (cameraAPI_upload (id cam) acceptedFiles) (Rejected e)) t
                /\ requests t = [upload]
                /\ alerts t = ["Failed to upload images"%string]
                /\ cameraStats (state_after st t) = cameraStats st))).
Proof.
  intros Hcam R.
  unfold onDrop, loadCameraStats in R. rewrite Hcam in R.
  explore R ltac:(stop_drop).
  destruct o as [r|e]; explore R ltac:(stop_drop).
  destruct o as [s|e]; explore R ltac:(stop_drop).
Qed.

(** X21. Without a selected camera [onDrop] sends nothing and changes
    nothing: it only asks to select a camera. *)
Theorem onDrop_needs_camera (st : State) (acceptedFiles : list File)
    (t : trace) (c : config request response action) :
  selectedCamera st = None ->
  reach (start (onDrop st acceptedFiles)) t c ->
  requests t = [] /\ state_after st t = st
  /\ (terminal c -> t = [EvDo (alert no_camera)]).
Proof.
  intros Hcam R.
  unfold onDrop in R. rewrite Hcam in R.
  explore R ltac:(split; [reflexivity|]; split; [reflexivity|];
                  intros [Hs Hw];
                  first [discriminate Hs | discriminate Hw | reflexivity]).
Qed.

End CameraManagerFacts.

(* ===================================================================== *)
(** * The facts above on the sample data                                  *)
(* ===================================================================== *)

Section MoreInstances.
Import Chart Api Async.
Local Open Scope string_scope.

Local Abbreviation stats_of ts := (Some (mkStats (Some ts))).
Lemma prepareChartData_point_count_witness :
  (50 < List.length (Samples.series 120))%nat
  /\ exists out,
       prepareChartData Samples.clock (stats_of (Samples.series 120)) = Returned out
       /\ ((List.length out - 1) * chunkSize_of (Samples.series 120)
           < List.length (Samples.series 120)
           <= List.length out * chunkSize_of (Samples.series 120))%nat
       /\ (26 <= List.length out <= 50)%nat.
Proof.
  split; [vm_compute; lia|].
  apply (prepareChartData_point_count nat Samples.clock (Samples.series 120)).
  vm_compute; lia.
Defined.

Lemma prepareChartData_within_range_witness :
  exists out,
    prepareChartData Samples.clock (stats_of (Samples.series 60)) = Returned out
    /\ Forall (fun p => 0 <= Total_People p <= 59 /\ 0 <= In_Zone p <= 29) out.
Proof.
  apply (prepareChartData_within_range nat Samples.clock (Samples.series 60) 0 59 0 29).
  unfold Samples.series.
  repeat (constructor; [cbn; lia|]). constructor.
Defined.

Lemma prepareChartData_zone_le_total_witness :
  exists out,
    prepareChartData Samples.clock (stats_of (Samples.series 60)) = Returned out
    /\ Forall (fun p => In_Zone p <= Total_People p) out.
Proof.
  apply (prepareChartData_zone_le_total nat Samples.clock (Samples.series 60)).
  unfold Samples.series.
  repeat (constructor; [cbn; lia|]). constructor.
Defined.

Lemma labeled_name_injective_witness :
  Dashboard.labeled_name 1 <> Dashboard.labeled_name 2.
Proof. apply (labeled_name_injective 1 2). lia. Defined.

Lemma processAllImages_progress_in_range_witness :
  Forall (fun p => DashboardView.bounded p /\ 0 <= DashboardView.percent p <= 100)
         (DashboardView.progress_updates Samples.full_run).
Proof.
  apply (processAllImages_progress_in_range Samples.dashboard Samples.full_run
           (@mkConfig request response Dashboard.action [] [])).
  unfold Samples.full_run; replay.
Defined.

Lemma processAllImages_accounts_witness :
  Samples.full_run = [EvConfirm DashboardView.process_question false]
  \/ DashboardView.accounted MoreSamples.first_view Samples.full_run.
Proof.
  apply (processAllImages_accounts Samples.dashboard Samples.camera1
           MoreSamples.first_view Samples.full_run
           (@mkConfig request response Dashboard.action [] [])).
  - reflexivity.
  - unfold Samples.full_run; replay.
  - split; reflexivity.
Defined.

Lemma loadDashboardData_outcomes_witness :
  DashboardView.loading
    (DashboardView.view_after MoreSamples.first_view MoreSamples.load_run) = false
  /\ Loop.requests MoreSamples.load_run
     = [DashboardView.stats_request Samples.dashboard Samples.camera1;
        DashboardView.logs_request Samples.dashboard Samples.camera1].
Proof.
  assert (R : reach (start (Dashboard.loadDashboardData Samples.dashboard))
                    MoreSamples.load_run
                    (@mkConfig request response Dashboard.action [] []))
    by (unfold MoreSamples.load_run; replay).
  destruct (loadDashboardData_outcomes Samples.dashboard Samples.camera1
              MoreSamples.first_view MoreSamples.load_run _ eq_refl R)
    as (_ & _ & H).
  split; [exact (proj1 (H (conj eq_refl eq_refl))) | reflexivity].
Defined.

Lemma onload_fits_image_witness :
  let st' := ZoneEdit.onload Samples.triangle None MoreSamples.photo in
  (ZoneDrawer.canvas_width (ZoneDrawer.dimensions st') == 760)%Q
  /\ (0 < ZoneDrawer.canvas_height (ZoneDrawer.dimensions st'))%Q
  /\ ZoneEdit.containerWidth None = 800%Q.
Proof.
  destruct (onload_fits_image Samples.triangle None MoreSamples.photo
              eq_refl eq_refl eq_refl)
    as (_ & _ & Hh & _ & _ & _ & Hc & Hnone & _).
  cbv zeta. split; [|split; [exact Hh | exact (Hnone eq_refl)]].
  apply Hc. vm_compute. discriminate.
Defined.

Lemma clicks_drawn_where_clicked_witness :
  exists st',
    ZoneEdit.clicks (ZoneEdit.handleClearZone Samples.triangle) MoreSamples.three_clicks
    = Returned st'
    /\ ZoneEdit.same_points (ZoneDrawer.getCanvasPoints st') MoreSamples.three_clicks.
Proof.
  destruct (clicks_drawn_where_clicked Samples.triangle MoreSamples.photo
              MoreSamples.three_clicks eq_refl eq_refl eq_refl eq_refl eq_refl)
    as [_ H].
  exact H.
Defined.

Lemma handleDeleteZone_outcomes_witness :
  ZoneEdit.delete_declined MoreSamples.delete_run
  \/ ZoneEdit.delete_done Samples.triangle 1 MoreSamples.delete_run
  \/ ZoneEdit.delete_failed Samples.triangle 1 MoreSamples.delete_run.
Proof.
  assert (R : reach (start (ZoneEdit.handleDeleteZone Samples.triangle))
                    MoreSamples.delete_run
                    (@mkConfig ZoneEdit.request ZoneEdit.response ZoneDrawer.action
                               [] []))
    by (unfold MoreSamples.delete_run; replay).
  destruct (handleDeleteZone_outcomes Samples.triangle Samples.camera1
              MoreSamples.delete_run _ eq_refl R) as (_ & _ & H).
  exact (H (conj eq_refl eq_refl)).
Defined.

Lemma handleSaveZone_saves_then_reloads_witness :
  ZoneDrawer.submitted Samples.save_run
  = [ZoneSave.payload Samples.triangle Samples.camera1]
  /\ ZoneDrawer.loading (ZoneDrawer.state_after Samples.triangle Samples.save_run)
     = false.
Proof.
  assert (R : reach (start (ZoneDrawer.handleSaveZone Samples.triangle))
                    Samples.save_run
                    (@mkConfig request response ZoneDrawer.action [] []))
    by (unfold Samples.save_run; replay).
  destruct (handleSaveZone_saves_then_reloads Samples.triangle Samples.camera1
              Samples.save_run _ ltac:(simpl; lia) eq_refl R) as (_ & H).
  destruct (H (conj eq_refl eq_refl)) as (H1 & H2 & _).
  split; assumption.
Defined.

Lemma drag_preview_witness :
  exists preview,
    AnnotationPage.getCanvasBboxes
      (AnnotationPage.handleMouseMove
         (AnnotationPage.handleMouseDown MoreSamples.annotating MoreSamples.drag_from)
         MoreSamples.drag_to)
    = (AnnotationPage.getCanvasBboxes (AnnotationPage.cancelDrawing MoreSamples.annotating)
       ++ [preview])%list
    /\ AnnotationPage.shown preview = None
    /\ (0 <= AnnotationPage.width preview)%Q
    /\ (0 <= AnnotationPage.height preview)%Q.
Proof.
  destruct (drag_preview MoreSamples.annotating MoreSamples.picture
              MoreSamples.drag_from MoreSamples.drag_to
              eq_refl eq_refl eq_refl eq_refl eq_refl) as [_ H].
  destruct (H eq_refl) as (_ & preview & E & S & W & Hh & _).
  exists preview. auto.
Defined.

Lemma drag_commits_witness :
  let st' :=
    AnnotationPage.handleMouseUp
      (AnnotationPage.handleMouseMove
         (AnnotationPage.handleMouseDown MoreSamples.annotating MoreSamples.drag_from)
         MoreSamples.drag_to) in
  AnnotationPage.isDrawing st' = false
  /\ AnnotationPage.newBbox st' = None
  /\ exists added,
       AnnotationPage.bboxes st'
       = (AnnotationPage.bboxes MoreSamples.annotating ++ added)%list
       /\ (List.length added <= 1)%nat.
Proof.
  destruct (drag_commits MoreSamples.annotating MoreSamples.picture
              MoreSamples.drag_from MoreSamples.drag_to eq_refl eq_refl)
    as (H1 & H2 & _ & added & rects & E & L & _).
  cbv zeta. split; [exact H1|]. split; [exact H2|].
  exists added. split; assumption.
Defined.

Lemma drag_drawn_where_dragged_witness :
  exists preview,
    AnnotationPage.getCanvasBboxes
      (AnnotationPage.handleMouseMove
         (AnnotationPage.handleMouseDown MoreSamples.annotating MoreSamples.drag_from)
         MoreSamples.drag_to)
    = (AnnotationPage.getCanvasBboxes (AnnotationPage.cancelDrawing MoreSamples.annotating)
       ++ [preview])%list
    /\ (AnnotationPage.x preview == 10)%Q
    /\ (AnnotationPage.y preview == 20)%Q
    /\ (AnnotationPage.width preview == 100)%Q
    /\ (AnnotationPage.height preview == 200)%Q.
Proof.
  destruct (drag_drawn_where_dragged MoreSamples.annotating MoreSamples.picture
              MoreSamples.drag_from MoreSamples.drag_to
              eq_refl eq_refl eq_refl eq_refl eq_refl eq_refl) as [H _].
  exact H.
Defined.

Lemma id_reused_after_delete_witness :
  exists old,
    In old (AnnotationPage.bboxes MoreSamples.dragging_after_delete)
    /\ AnnotationTool.id old = 2%nat.
Proof.
  apply (id_reused_after_delete MoreSamples.annotating
           MoreSamples.dragging_after_delete 0
           {| AnnotationTool.id := 2;
              AnnotationTool.x1 := Qmin (10 * (1280 / 640)) (110 * (1280 / 640));
              AnnotationTool.y1 := Qmin (20 * (720 / 360)) (220 * (720 / 360));
              AnnotationTool.x2 := Qmax (10 * (1280 / 640)) (110 * (1280 / 640));
              AnnotationTool.y2 := Qmax (20 * (720 / 360)) (220 * (720 / 360));
              AnnotationTool.approved := true;
              AnnotationTool.confidence := None |}).
  - simpl. auto.
  - simpl. lia.
  - reflexivity.
  - reflexivity.
Defined.

Lemma navigation_keeps_index_valid_witness :
  AnnotationPage.index_valid (AnnotationPage.next MoreSamples.annotating)
  /\ AnnotationPage.currentImageIndex (AnnotationPage.next MoreSamples.annotating) = 1
  /\ AnnotationPage.currentImageIndex
       (AnnotationPage.next (AnnotationPage.next MoreSamples.annotating)) = 1.
Proof.
  destruct (navigation_keeps_index_valid MoreSamples.annotating
              ltac:(unfold AnnotationPage.index_valid; vm_compute;
                    split; [discriminate | reflexivity])) as (_ & H & _).
  split; [exact H | split; reflexivity].
Defined.

Lemma approveAnnotation_outcomes_witness :
  AnnotationPage.approve_declined MoreSamples.annotating MoreSamples.approve_run
  \/ AnnotationPage.approve_saved MoreSamples.annotating MoreSamples.approve_data
                                  MoreSamples.approve_run
  \/ AnnotationPage.approve_failed MoreSamples.annotating MoreSamples.approve_data
                                   MoreSamples.approve_run.
Proof.
  assert (R : reach (start (AnnotationPage.approveAnnotation MoreSamples.annotating))
                    MoreSamples.approve_run
                    (@mkConfig AnnotationPage.request AnnotationPage.response
                               AnnotationPage.action [] []))
    by (unfold MoreSamples.approve_run; replay).
  destruct (approveAnnotation_outcomes MoreSamples.annotating MoreSamples.entrance
              MoreSamples.frame_a MoreSamples.picture MoreSamples.approve_run _
              eq_refl eq_refl eq_refl R) as (_ & _ & H).
  exact (H (conj eq_refl eq_refl)).
Defined.

Lemma onDrop_outcomes_witness :
  CameraManager.uploadProgress
    (CameraManager.state_after MoreSamples.camera_page MoreSamples.drop_run) = None
  /\ CameraManager.alerts MoreSamples.drop_run = ["Uploaded 2 images successfully!"].
Proof.
  assert (R : reach (start (CameraManager.onDrop MoreSamples.camera_page
                                                 MoreSamples.two_files))
                    MoreSamples.drop_run
                    (@mkConfig CameraManager.request CameraManager.response
                               CameraManager.action [] []))
    by (unfold MoreSamples.drop_run; replay).
  destruct (onDrop_outcomes MoreSamples.camera_page Samples.camera1
              MoreSamples.two_files MoreSamples.drop_run _ eq_refl R) as (_ & _ & H).
  split; [exact (proj1 (H (conj eq_refl eq_refl))) | reflexivity].
Defined.

Lemma onDrop_needs_camera_witness :
  let t : CameraManager.trace := [EvDo (CameraManager.alert CameraManager.no_camera)] in
  Loop.requests t = []
  /\ CameraManager.state_after MoreSamples.no_camera_page t = MoreSamples.no_camera_page
  /\ (terminal (@mkConfig CameraManager.request CameraManager.response
                          CameraManager.action [] [])
      -> t = [EvDo (CameraManager.alert CameraManager.no_camera)]).
Proof.
  cbv zeta.
  apply (onDrop_needs_camera MoreSamples.no_camera_page MoreSamples.two_files
           [EvDo (CameraManager.alert CameraManager.no_camera)]
           (@mkConfig CameraManager.request CameraManager.response
                      CameraManager.action [] [])).
  - reflexivity.
  - replay.
Defined.

(** Two browsers an hour apart chart the same counts for the same 120
    frames, under different labels. *)
Example prepareChartData_across_time_zones :
  exists out1 out2,
    prepareChartData Samples.clock (stats_of (Samples.series 120)) = Returned out1
    /\ prepareChartData MoreSamples.clock_east (stats_of (Samples.series 120))
       = Returned out2
    /\ nth_error out1 1 = Some {| time := "00:03"; Total_People := 4; In_Zone := 2 |}
    /\ nth_error out2 1 = Some {| time := "01:03"; Total_People := 4; In_Zone := 2 |}.
Proof.
  eexists. eexists. split; [vm_compute; reflexivity|].
  split; [vm_compute; reflexivity|]. split; reflexivity.
Qed.


Lemma processAllImages_sequential_witness :
  Dashboard.one_at_a_time Samples.full_run
  /\ DashboardView.all_frames_processed Samples.camera1 Samples.full_run
  /\ Dashboard.issued Samples.full_run = [(1, "000000.jpg"); (1, "frame_a.jpg")].
Proof.
  assert (R : reach (start (Dashboard.processAllImages Samples.dashboard))
                    Samples.full_run
                    (@mkConfig request response Dashboard.action [] []))
    by (unfold Samples.full_run; replay).
  destruct (processAllImages_sequential Samples.dashboard Samples.camera1
              Samples.full_run _ eq_refl R) as (H1 & _ & H3 & _).
  split; [exact H1|]. split; [|reflexivity].
  destruct (H3 (conj eq_refl eq_refl)) as [D | [[E _] | A]].
  - unfold DashboardView.run_declined, Samples.full_run in D. discriminate D.
  - vm_compute in E. discriminate E.
  - exact A.
Defined.

End MoreInstances.
